(** * Study Schedule Planning Engine (server.js)

    A shallow embedding of the schedule generation route
    [POST /plans/:planId/generate], of the two overdue-redistribution
    routes [GET /plans/:planId/replan-preview] and
    [POST /plans/:planId/replan], and of the routes that maintain and read
    the calendar (deleting a plan, the batch update of topics, the patch
    and the postponement of a session, the overdue check, the schedule,
    share-progress and gamification), followed by the properties of the
    planning engine and of these routes.

    Modelling conventions.
    - A calendar date is its day number counted from 1970-01-01 (a Thursday),
      so that [Date.getDay] is [(d + 4) mod 7] and [setDate(getDate() + n)]
      is [d + n].  The server clock is taken to run on UTC, where the ISO
      date string of a local-midnight [Date] names the same day; the exam
      date ['T23:59:59'] then bounds exactly the days up to the exam day.
    - A number is held as its exact value, a rational ([Q]).  The hours per
      weekday are numbers of a JSON text: they are rounded to the nearest
      double where [JSON.parse] reads them, and so is every product and
      quotient the handlers compute from them ([roundNearest]); [Math.floor]
      is [Qfloor].  An entry too large for a double reads as [Infinity];
      the model holds it as the number its rounding gives, which lies above
      every double and, like [Infinity], above every session count.
    - Whole numbers (ids, session counts, minutes of a session, priorities)
      are exact: they stay far below [2 ^ 53].
    - The agenda and the memoization map of [getAvailableDates] are the
      state of a run.  A slot search hands out the [Date] object stored in
      a cached list, so the in-place [setDate] of the recurring-mock loop is
      an update of that cached entry.
    - [Math.random] is a function from the loop index to a natural number.
    - The relational store is a record of tables held as lists of rows; a
      transaction that is rolled back yields the store it started from. *)

From stdpp Require Import gmap strings list fin_maps pretty sorting.
From Stdlib Require Import QArith Qround Qpower Qabs Qfield ZArith Lia Lqa.

Local Open Scope Z_scope.

(** ** Dates *)

(** [Date.prototype.getDay]: 0 is Sunday, 6 is Saturday. *)
Definition getDay (d : Z) : Z := (d + 4) mod 7.

(** ** Data model *)

Inductive Status := Pendente | Concluido.

Inductive SessionType :=
| NovoTopico
| Revisao (days : Z)
| SimuladoDirecionado
| SimuladoCompleto
| Redacao.

(** A row of [subjects INNER JOIN topics], as both topic queries of the
    generate route return it. *)
Record Topic := {
  topic_id : Z;
  description : string;
  status : Status;
  completion_date : option Z;
  subject_name : string;
  priority : nat;
  topic_plan_id : Z
}.

(** The object literal handed to [addSessionToAgenda]. *)
Record SessionDraft := {
  topicId : option Z;
  subjectName : string;
  topicDescription : string;
  sessionType : SessionType
}.

(** [{ ...session, session_date: dateStr }] *)
Record Session := {
  draft : SessionDraft;
  session_date : Z
}.

Record SessionRow := {
  row_id : Z;
  study_plan_id : Z;
  row_topic_id : option Z;
  row_subject_name : string;
  row_topic_description : string;
  row_session_date : Z;
  row_session_type : SessionType;
  row_status : Status
}.

Record PlanRow := {
  plan_id : Z;
  user_id : Z;
  exam_date : Z;
  study_hours_per_day : list Q;
  session_duration_minutes : Z;
  has_essay : bool;
  postponement_count : Z
}.

Record Db := {
  study_plans : list PlanRow;
  topics : list Topic;
  study_sessions : list SessionRow
}.

#[global] Instance Status_eq_dec : EqDecision Status.
Proof. solve_decision. Defined.

#[global] Instance SessionType_eq_dec : EqDecision SessionType.
Proof. solve_decision. Defined.

(** ** Small JavaScript idioms *)

(** [x || 50] on a number. *)
Definition orDefault (x dflt : Z) : Z := if x =? 0 then dflt else x.

(** ** Double-precision numbers

    A JavaScript number that is neither an infinity nor NaN is a rational:
    the model holds it as its exact value in [Q], and every operation whose
    result the machine rounds is followed by [roundNearest], the rounding of
    IEEE 754 binary64 to the nearest double, ties to the even one. *)

(** The integer nearest to [x], ties to the even one. *)
Definition roundHalfEven (x : Q) : Z :=
  let f := Qfloor x in
  match (x - inject_Z f ?= 1 # 2)%Q with
  | Lt => f
  | Gt => f + 1
  | Eq => if Z.even f then f else f + 1
  end.

(** [log2floor x] is the [e] with [2 ^ e <= x < 2 ^ (e + 1)], for a
    positive [x]. *)
Definition log2floor (x : Q) : Z :=
  let e := Z.log2 (Qnum x) - Z.log2 (Zpos (Qden x)) in
  if Qle_bool (2 ^ e) x then e else e - 1.

(** The exponent of the last place of the doubles around [x]: 53
    significant bits, and [2 ^ -1074] for the subnormal ones. *)
Definition quantum (x : Q) : Z :=
  Z.max (log2floor (Qabs x) - 52) (-1074).

Definition roundNearest (x : Q) : Q :=
  if Qeq_bool x 0 then 0
  else Qred (inject_Z (roundHalfEven (x / 2 ^ quantum x)) * 2 ^ quantum x).

(** The rounded value lies outside the finite doubles: the machine number
    is an infinity. *)
Definition overflows (x : Q) : bool :=
  Qle_bool (2 ^ 1024) (Qabs (roundNearest x)).

(** [log10floor x] is the [e] with [10 ^ e <= x < 10 ^ (e + 1)], for a
    positive [x] in the range of the doubles. *)
Definition log10floor (x : Q) : Z :=
  let e := (log2floor x * 30103) / 100000 in
  if Qle_bool (10 ^ (e + 1)) x then e + 1
  else if Qle_bool (10 ^ e) x then e else e - 1.

(** [Number::toString]: the decimal with the fewest significant digits that
    rounds to the double [x], and among those with as few digits the
    nearest to [x], the one with the even last digit on a tie.  [k] is the
    number of digits tried, [e10] is [log10floor x]; seventeen digits tell
    any two doubles apart. *)
Fixpoint shortestDecimal (fuel : nat) (x : Q) (e10 k : Z) : Q :=
  match fuel with
  | O => x
  | S fuel' =>
      let scale := (10 ^ (e10 + 1 - k))%Q in
      let s := Qfloor (x / scale) in
      let below := (inject_Z s * scale)%Q in
      let above := (inject_Z (s + 1) * scale)%Q in
      let fromBelow := Qeq_bool (roundNearest below) x in
      let fromAbove := Qeq_bool (roundNearest above) x in
      if fromBelow && fromAbove then
        match (x - below ?= above - x)%Q with
        | Lt => below
        | Gt => above
        | Eq => if Z.even s then below else above
        end
      else if fromBelow then below
      else if fromAbove then above
      else shortestDecimal fuel' x e10 (k + 1)
  end.

(** The doubles from 0 to below [2 ^ 53] whose last place is a whole
    number or a binary fraction of one: among them all whole numbers of
    that range, and every double from 0 to below [2 ^ 52]. *)
Definition smallDouble (x : Q) : Prop :=
  ∃ m c : Z, (0 <= m < 2 ^ 53 ∧ -1074 <= c <= 0)%Z ∧
    (x == inject_Z m * 2 ^ c)%Q.

(** [JSON.parse] on a number of the request body or of the stored text. *)
Definition toDouble (h : Q) : Q := roundNearest h.

(** [h > 0] on hours. *)
Definition Qpositive (h : Q) : bool := negb (Qle_bool h 0).

(** [study_hours_per_day[dayOfWeek] || 0]: the seven entries are held in
    key order ['0'] .. ['6'] as the JSON text writes them; a missing entry
    reads as 0. *)
Definition hoursFor (hours : list Q) (dayOfWeek : Z) : Q :=
  toDouble (nth (Z.to_nat dayOfWeek) hours 0%Q).

(** [hours * 60] *)
Definition minutesOf (hours : Q) : Q := roundNearest (hours * 60).

(** [parseInt(h, 10) || 0] on a number [h]: the number is printed and the
    digits up to the first character that is not one are read.  From
    [1e-6] on and below [1e21] the print is in plain notation, and what is
    read is the whole part of the number: below [2 ^ 53] it is the whole
    part of the print, and from [2 ^ 53] on the number is whole and the
    digits of its print round to it.  Outside of these bounds the print is
    [d.ddde-7] or [d.ddde+21], of which the first digit is read. *)
Definition parseInt10 (h : Q) : Z :=
  if Qeq_bool h 0 then 0
  else
    let a := Qabs h in
    let digits :=
      if Qle_bool (roundNearest (1 # 1000000)) a && negb (Qle_bool (10 ^ 21) a)
      then Qfloor a
      else
        let v := shortestDecimal 17 a (log10floor a) 1 in
        Qfloor (v / 10 ^ log10floor v) in
    if Qle_bool 0 h then digits else - digits.

(** [sum + n] on whole numbers: exact below [2 ^ 53], a whole number
    again above. *)
Definition addNumbers (sum n : Z) : Z :=
  Qfloor (roundNearest (inject_Z (sum + n))).

(** [Math.floor((hours * 60) / sessionDuration)], for the number [hours]
    the handler holds.  The session duration is read through [|| 50] and is
    never 0 here. *)
Definition maxSessionsFor (hours : Q) (sessionDuration : Z) : Z :=
  Qfloor (roundNearest (minutesOf hours / inject_Z sessionDuration)).

(** ** ORDER BY: a stable insertion sort *)

Fixpoint insert_by {A} (leb : A → A → bool) (x : A) (l : list A) : list A :=
  match l with
  | [] => [x]
  | y :: l' => if leb x y then x :: l else y :: insert_by leb x l'
  end.

Definition sort_by {A} (leb : A → A → bool) (l : list A) : list A :=
  foldr (insert_by leb) [] l.

(** ** Calendar Availability Index *)

Record DateInfo := {
  date : Z;
  dayOfWeek : Z;
  maxSessions : Z
}.

Abbreviation Cache := (gmap (Z * Z * bool) (list DateInfo)).

Definition Agenda := list (Z * list Session).

Record RunState := {
  agenda : Agenda;
  availableDatesCache : Cache
}.

(** [agenda.get(dateStr)] on the insertion-ordered [Map]. *)
Fixpoint agenda_get (a : Agenda) (d : Z) : option (list Session) :=
  match a with
  | [] => None
  | (d', l) :: a' => if d =? d' then Some l else agenda_get a' d
  end.

(** [agenda.get(dateStr)?.length || 0] *)
Definition sessionsOn (a : Agenda) (d : Z) : Z :=
  match agenda_get a d with
  | Some l => Z.of_nat (length l)
  | None => 0
  end.

(** [if (!agenda.has(d)) agenda.set(d, []); agenda.get(d).push(s)] *)
Fixpoint agenda_push (a : Agenda) (d : Z) (s : Session) : Agenda :=
  match a with
  | [] => [(d, [s])]
  | (d', l) :: a' =>
      if d =? d' then (d', l ++ [s]) :: a' else (d', l) :: agenda_push a' d s
  end.

(** [Array.from(agenda.values()).flat()] *)
Definition agenda_sessions (a : Agenda) : list Session :=
  flat_map snd a.

Section PlanningRun.

(** The values one generate run closes over. *)
Variable hours : list Q.
Variable sessionDuration : Z.
Variable today : Z.
Variable examDate : Z.

(** The [while (currentDate <= endDate)] loop of [getAvailableDates]. *)
Fixpoint scanDates (fuel : nat) (currentDate endDate : Z) (weekdayOnly : bool)
  : list DateInfo :=
  match fuel with
  | O => []
  | S fuel' =>
      if currentDate <=? endDate then
        let dow := getDay currentDate in
        let shouldSkip := weekdayOnly && ((dow =? 0) || (dow =? 6)) in
        let rest := scanDates fuel' (currentDate + 1) endDate weekdayOnly in
        if negb shouldSkip && Qpositive (hoursFor hours dow) then
          {| date := currentDate;
             dayOfWeek := dow;
             maxSessions := maxSessionsFor (hoursFor hours dow) sessionDuration |}
          :: rest
        else rest
      else []
  end.

(** The list a cache miss computes. *)
Definition computeDates (startDate endDate : Z) (weekdayOnly : bool)
  : list DateInfo :=
  scanDates (Z.to_nat (endDate - startDate + 1)) startDate endDate weekdayOnly.

Definition getAvailableDates (cache : Cache) (startDate endDate : Z)
    (weekdayOnly : bool) : list DateInfo * Cache :=
  let cacheKey := (startDate, endDate, weekdayOnly) in
  match cache !! cacheKey with
  | Some dates => (dates, cache)
  | None =>
      let dates := computeDates startDate endDate weekdayOnly in
      (dates, <[cacheKey := dates]> cache)
  end.

Definition addSessionToAgenda (st : RunState) (d : Z) (s : SessionDraft)
  : RunState :=
  {| agenda := agenda_push (agenda st) d {| draft := s; session_date := d |};
     availableDatesCache := availableDatesCache st |}.

(** The [for (const dateInfo of ...)] search shared by both slot finders;
    the position of the entry is kept because the caller receives the very
    [Date] object stored in the cached list. *)
Fixpoint firstFree (a : Agenda) (dates : list DateInfo) (i : nat)
  : option (nat * Z) :=
  match dates with
  | [] => None
  | dateInfo :: rest =>
      if sessionsOn a (date dateInfo) <? maxSessions dateInfo
      then Some (i, date dateInfo)
      else firstFree a rest (S i)
  end.

Definition findNextAvailableSlot (st : RunState) (startDate : Z)
    (isWeekdayOnly : bool) : option (nat * Z) * RunState :=
  let '(availableDates, c) :=
    getAvailableDates (availableDatesCache st) startDate examDate isWeekdayOnly in
  (firstFree (agenda st) availableDates 0,
   {| agenda := agenda st; availableDatesCache := c |}).

Definition getNextSaturdayForReview (st : RunState) (d : Z)
  : option Z * RunState :=
  let '(dates, c) :=
    getAvailableDates (availableDatesCache st) d examDate false in
  let saturdayDates := filter (λ i, dayOfWeek i = 6) dates in
  (snd <$> firstFree (agenda st) saturdayDates 0,
   {| agenda := agenda st; availableDatesCache := c |}).

(** *** Essay Sundays *)

Definition essayDraft : SessionDraft :=
  {| topicId := None;
     subjectName := "Redação";
     topicDescription := "Prática de redação dissertativa-argumentativa, focando em estrutura, coesão e argumentação.";
     sessionType := Redacao |}.

Definition essayPhase (st : RunState) : RunState :=
  let '(dates, c) :=
    getAvailableDates (availableDatesCache st) today examDate false in
  let sundayDates := filter (λ i, dayOfWeek i = 0) dates in
  foldl (λ st dateInfo, addSessionToAgenda st (date dateInfo) essayDraft)
        {| agenda := agenda st; availableDatesCache := c |} sundayDates.

(** *** Spaced repetition *)

Definition reviewDraft (topic : Topic) (days : Z) : SessionDraft :=
  {| topicId := Some (topic_id topic);
     subjectName := subject_name topic;
     topicDescription := description topic;
     sessionType := Revisao days |}.

(** Body of [[7, 14, 28].forEach] in the completed-topic loop. *)
Definition completedReview (topic : Topic) (baseDate : Z) (st : RunState)
    (days : Z) : RunState :=
  let targetReviewDate := baseDate + days in
  if (today <=? targetReviewDate) && (targetReviewDate <=? examDate) then
    let '(reviewDay, st1) := getNextSaturdayForReview st targetReviewDate in
    match reviewDay with
    | Some d => addSessionToAgenda st1 d (reviewDraft topic days)
    | None => st1
    end
  else st.

Definition completedReviews (st : RunState) (completedTopics : list Topic)
  : RunState :=
  foldl (λ st topic,
           match completion_date topic with
           | Some baseDate => foldl (completedReview topic baseDate) st [7; 14; 28]
           | None => st
           end) st completedTopics.

(** Body of [[7, 14, 28].forEach] after a new-topic placement. *)
Definition cascadeReview (topic : Topic) (studyDay : Z) (st : RunState)
    (days : Z) : RunState :=
  let targetReviewDate := studyDay + days in
  if targetReviewDate <=? examDate then
    let '(reviewDay, st1) := getNextSaturdayForReview st targetReviewDate in
    match reviewDay with
    | Some d => addSessionToAgenda st1 d (reviewDraft topic days)
    | None => st1
    end
  else st.

(** *** New-Content Distributor *)

(** [pendingTopics.flatMap(t => Array(t.priority).fill(t))] *)
Definition weightedTopics (pendingTopics : list Topic) : list Topic :=
  flat_map (λ t, replicate (priority t) t) pendingTopics.

(** [[w[i], w[j]] = [w[j], w[i]]]: [w[i]] is written first, then [w[j]]. *)
Definition swap (w : list Topic) (i j : nat) : list Topic :=
  match w !! i, w !! j with
  | Some wi, Some wj => <[j := wi]> (<[i := wj]> w)
  | _, _ => w
  end.

(** The Fisher-Yates loop, [i] running from [length - 1] down to 1.  The
    draw [Math.floor(Math.random() * (i + 1))] at index [i] is [rnd i]
    reduced into [0 .. i], so that every outcome of the random source is
    covered. *)
Fixpoint fisherYates (rnd : nat → nat) (i : nat) (w : list Topic) : list Topic :=
  match i with
  | O => w
  | S i' => fisherYates rnd i' (swap w i (rnd i mod (i + 1))%nat)
  end.

Definition shuffle (rnd : nat → nat) (w : list Topic) : list Topic :=
  fisherYates rnd (length w - 1)%nat w.

(** [Map.prototype.set] on an insertion-ordered [Map] keyed by topic id. *)
Fixpoint map_set (m : list (Z * Topic)) (k : Z) (v : Topic) : list (Z * Topic) :=
  match m with
  | [] => [(k, v)]
  | (k', v') :: m' =>
      if k =? k' then (k', v) :: m' else (k', v') :: map_set m' k v
  end.

(** [[...new Map(w.map(item => [item.id, item])).values()]] *)
Definition uniqueInOrder (w : list Topic) : list Topic :=
  (foldl (λ m item, map_set m (topic_id item) item) [] w).*2.

Definition newTopicDraft (topic : Topic) : SessionDraft :=
  {| topicId := Some (topic_id topic);
     subjectName := subject_name topic;
     topicDescription := description topic;
     sessionType := NovoTopico |}.

(** [for (const topic of uniquePendingTopicsInOrder)], threading
    [currentDateForNewTopics] and [lastNewTopicDate]; [None] from the slot
    search is the [break]. *)
Fixpoint newTopicsLoop (topicsInOrder : list Topic) (st : RunState)
    (currentDateForNewTopics : Z) (lastNewTopicDate : option Z)
  : RunState * option Z :=
  match topicsInOrder with
  | [] => (st, lastNewTopicDate)
  | topic :: rest =>
      let '(studyDay, st1) :=
        findNextAvailableSlot st currentDateForNewTopics true in
      match studyDay with
      | None => (st1, lastNewTopicDate)
      | Some (_, d) =>
          let st2 := addSessionToAgenda st1 d (newTopicDraft topic) in
          let st3 := foldl (cascadeReview topic d) st2 [7; 14; 28] in
          newTopicsLoop rest st3 d (Some d)
      end
  end.

(** *** Exam-Simulation Injector

    [subjectTopicsMap] and [currentSimDate] are computed by the handler and
    never read; they have no counterpart here. *)

Record SubjectData := {
  completed : list string;
  total : nat
}.

Definition countTopic (topic : Topic) (d : SubjectData) : SubjectData :=
  {| completed :=
       if decide (status topic = Concluido)
       then completed d ++ [description topic] else completed d;
     total := S (total d) |}.

(** One step of [allTopics.forEach] filling [subjectCompletionMap]. *)
Fixpoint tally (m : list (string * SubjectData)) (topic : Topic)
  : list (string * SubjectData) :=
  match m with
  | [] => [(subject_name topic, countTopic topic {| completed := []; total := 0 |})]
  | (n, d) :: m' =>
      if String.eqb n (subject_name topic)
      then (n, countTopic topic d) :: m'
      else (n, d) :: tally m' topic
  end.

Definition subjectCompletionMap (allTopics : list Topic)
  : list (string * SubjectData) :=
  foldl tally [] allTopics.

(** [.filter(completed.length >= 2).sort((a, b) => b.length - a.length)] *)
Definition subjectsReadyForSim (allTopics : list Topic)
  : list (string * SubjectData) :=
  sort_by (λ a b, length (completed b.2) <=? length (completed a.2))%nat
    (filter (λ e, 2 ≤ length (completed e.2))%nat (subjectCompletionMap allTopics)).

(** [for (let i = 0; i < l.length; i += 4) groups.push(l.slice(i, i + 4))] *)
Fixpoint chunks (fuel : nat) (l : list string) : list (list string) :=
  match fuel with
  | O => []
  | S fuel' =>
      match l with
      | [] => []
      | _ => take 4 l :: chunks fuel' (drop 4 l)
      end
  end.

Definition newline : string := String (Ascii.ascii_of_nat 10) EmptyString.

Fixpoint join (sep : string) (l : list string) : string :=
  match l with
  | [] => ""
  | [x] => x
  | x :: rest => x +:+ sep +:+ join sep rest
  end.

Definition directedDraft (subjectName : string) (nGroups groupIndex : nat)
    (topicGroup : list string) : SessionDraft :=
  let groupNumber :=
    if (1 <? nGroups)%nat then " - Bloco " +:+ pretty (groupIndex + 1)%nat else "" in
  let topicList := join newline (map (λ t, "• " +:+ t) topicGroup) in
  {| topicId := None;
     subjectName := "Simulado Direcionado - " +:+ subjectName;
     topicDescription :=
       "Simulado direcionado focado em " +:+ subjectName +:+ groupNumber +:+ ":"
       +:+ newline +:+ newline +:+ topicList +:+ newline +:+ newline
       +:+ "Este simulado aborda especificamente estes tópicos já estudados. Teste sua retenção e aplicação prática dos conceitos.";
     sessionType := SimuladoDirecionado |}.

(** The inner [for (groupIndex ...)] loop; [None] from the slot search is
    its [break]. *)
Fixpoint directedGroups (subjectName : string) (nGroups : nat)
    (topicGroups : list (list string)) (groupIndex : nat)
    (st : RunState) (currentDirectedSimDate : Z) : RunState * Z :=
  match topicGroups with
  | [] => (st, currentDirectedSimDate)
  | topicGroup :: rest =>
      let '(nextSimulatedDay, st1) :=
        findNextAvailableSlot st currentDirectedSimDate false in
      match nextSimulatedDay with
      | None => (st1, currentDirectedSimDate)
      | Some (_, d) =>
          let st2 :=
            addSessionToAgenda st1 d
              (directedDraft subjectName nGroups groupIndex topicGroup) in
          directedGroups subjectName nGroups rest (S groupIndex) st2 (d + 3)
      end
  end.

Definition directedSubject (acc : RunState * Z) (entry : string * SubjectData)
  : RunState * Z :=
  let topicGroups := chunks (length (completed entry.2)) (completed entry.2) in
  directedGroups entry.1 (length topicGroups) topicGroups 0 acc.1 acc.2.

Definition directedPhase (st : RunState) (maintenanceStartDate : Z)
    (allTopics : list Topic) : RunState :=
  (foldl directedSubject (st, maintenanceStartDate)
         (subjectsReadyForSim allTopics)).1.

Definition progressPercentage (completedTopics allTopics : list Topic) : Q :=
  (inject_Z (Z.of_nat (length completedTopics))
   / inject_Z (Z.of_nat (length allTopics)))%Q.

(** [pendingTopics.length === 0 && progressPercentage >= 0.95] *)
Definition simGate (pendingTopics completedTopics allTopics : list Topic) : bool :=
  (length pendingTopics =? 0)%nat
  && Qle_bool (95 # 100) (progressPercentage completedTopics allTopics).

Definition basicFullMockDraft : SessionDraft :=
  {| topicId := None;
     subjectName := "Simulado Completo";
     topicDescription := "Simulado geral abrangendo todas as disciplinas do concurso. Uma excelente oportunidade de testar seus conhecimentos em um formato similar ao da prova real.";
     sessionType := SimuladoCompleto |}.

Definition basicFullMockPhase (st : RunState) (maintenanceStartDate : Z)
  : RunState :=
  let basicCompleteSimDate := maintenanceStartDate + 7 in
  let '(basicCompleteSlot, st1) :=
    findNextAvailableSlot st basicCompleteSimDate false in
  match basicCompleteSlot with
  | Some (_, d) => addSessionToAgenda st1 d basicFullMockDraft
  | None => st1
  end.

Definition recurringFullMockDraft : SessionDraft :=
  {| topicId := None;
     subjectName := "Simulado Completo";
     topicDescription := "Simulado completo cobrindo todos os tópicos do edital. Foque em tempo, estratégia e resistência. Esta é sua preparação final!";
     sessionType := SimuladoCompleto |}.

(** [nextMaintenanceDay.setDate(...)] when [nextMaintenanceDay] is the
    [Date] held at position [i] of the list cached under [key]: the cached
    entry changes its date and keeps its weekday and capacity. *)
Definition setDateInCache (st : RunState) (key : Z * Z * bool) (i : nat)
    (newDate : Z) : RunState :=
  match availableDatesCache st !! key with
  | Some dates =>
      match dates !! i with
      | Some dateInfo =>
          {| agenda := agenda st;
             availableDatesCache :=
               <[key := <[i := {| date := newDate;
                                  dayOfWeek := dayOfWeek dateInfo;
                                  maxSessions := maxSessions dateInfo |}]> dates]>
                 (availableDatesCache st) |}
      | None => st
      end
  | None => st
  end.

(** [while (simuladoCount < maxSimulados)]: [fuel] is what is left of the
    twenty rounds.  The slot returned is the cached [Date] itself, and the
    loop advances it in place by [simuladoFrequency] = 3 days. *)
Fixpoint recurringLoop (fuel : nat) (st : RunState) (nextMaintenanceDay : Z)
  : RunState :=
  match fuel with
  | O => st
  | S fuel' =>
      let '(slot, st1) := findNextAvailableSlot st nextMaintenanceDay false in
      match slot with
      | None => st1
      | Some (i, d) =>
          let st2 := addSessionToAgenda st1 d recurringFullMockDraft in
          let st3 :=
            setDateInCache st2 (nextMaintenanceDay, examDate, false) i (d + 3) in
          recurringLoop fuel' st3 (d + 3)
      end
  end.

Definition recurringPhase (st : RunState) (maintenanceStartDate : Z) : RunState :=
  recurringLoop 20 st (maintenanceStartDate + 5).

(** *** The in-memory part of one generate run *)

Definition emptyRun : RunState :=
  {| agenda := []; availableDatesCache := ∅ |}.

Definition pendingOf (allTopics : list Topic) : list Topic :=
  filter (λ t, status t ≠ Concluido) allTopics.

(** The three gated blocks of the simulation phase, in source order. *)
Definition directedStage (st : RunState) (maintenanceStartDate : Z)
    (pendingTopics completedTopics allTopics : list Topic) : RunState :=
  if simGate pendingTopics completedTopics allTopics
  then directedPhase st maintenanceStartDate allTopics else st.

Definition basicFullMockStage (st : RunState) (maintenanceStartDate : Z)
    (pendingTopics completedTopics allTopics : list Topic) : RunState :=
  if simGate pendingTopics completedTopics allTopics
  then basicFullMockPhase st maintenanceStartDate else st.

Definition recurringStage (st : RunState) (maintenanceStartDate : Z)
    (pendingTopics completedTopics allTopics : list Topic) : RunState :=
  if simGate pendingTopics completedTopics allTopics
  then recurringPhase st maintenanceStartDate else st.

Definition examSimulation (st : RunState) (maintenanceStartDate : Z)
    (pendingTopics completedTopics allTopics : list Topic) : RunState :=
  let st1 := directedStage st maintenanceStartDate
               pendingTopics completedTopics allTopics in
  let st2 := basicFullMockStage st1 maintenanceStartDate
               pendingTopics completedTopics allTopics in
  recurringStage st2 maintenanceStartDate pendingTopics completedTopics allTopics.

Definition maintenanceStart (lastNewTopicDate : option Z) : Z :=
  match lastNewTopicDate with
  | Some d => d + 1
  | None => today + 1
  end.

Definition scheduleRun (hasEssay : bool) (allTopics completedTopics : list Topic)
    (rnd : nat → nat) : RunState :=
  let st1 := if hasEssay then essayPhase emptyRun else emptyRun in
  let st2 := completedReviews st1 completedTopics in
  let pendingTopics := pendingOf allTopics in
  let uniquePendingTopicsInOrder :=
    uniqueInOrder (shuffle rnd (weightedTopics pendingTopics)) in
  let '(st3, lastNewTopicDate) :=
    newTopicsLoop uniquePendingTopicsInOrder st2 today None in
  let maintenanceStartDate := maintenanceStart lastNewTopicDate in
  if (length pendingTopics =? 0)%nat then
    examSimulation st3 maintenanceStartDate pendingTopics completedTopics allTopics
  else st3.

End PlanningRun.

(** ** The relational gateway *)

(** [SELECT * FROM study_plans WHERE id = ?] *)
Definition selectPlan (db : Db) (planId : Z) : option PlanRow :=
  List.find (λ p, plan_id p =? planId) (study_plans db).

(** [SELECT * FROM study_plans WHERE id = ? AND user_id = ?] *)
Definition selectPlanOfUser (db : Db) (planId userId : Z) : option PlanRow :=
  List.find (λ p, (plan_id p =? planId) && (user_id p =? userId)) (study_plans db).

(** [ORDER BY s.priority_weight DESC, t.id ASC] *)
Definition byPriorityThenId (a b : Topic) : bool :=
  (priority b <? priority a)%nat
  || ((priority a =? priority b)%nat && (topic_id a <=? topic_id b)).

Definition allTopicsQuery (db : Db) (planId : Z) : list Topic :=
  sort_by byPriorityThenId (filter (λ t, topic_plan_id t = planId) (topics db)).

(** [ORDER BY t.completion_date DESC] *)
Definition byCompletionDesc (a b : Topic) : bool :=
  match completion_date a, completion_date b with
  | Some x, Some y => y <=? x
  | _, _ => true
  end.

Definition completedTopicsQuery (db : Db) (planId : Z) : list Topic :=
  sort_by byCompletionDesc
    (filter (λ t, topic_plan_id t = planId ∧ status t = Concluido
                  ∧ is_Some (completion_date t)) (topics db)).

(** [DELETE FROM study_sessions WHERE study_plan_id = ?] *)
Definition deleteSessionsOfPlan (db : Db) (planId : Z) : Db :=
  {| study_plans := study_plans db;
     topics := topics db;
     study_sessions := filter (λ r, study_plan_id r ≠ planId) (study_sessions db) |}.

Definition nextRowId (rows : list SessionRow) : Z :=
  1 + foldr (λ r m, Z.max (row_id r) m) 0 rows.

(** One [stmt.run] of the batch [INSERT INTO study_sessions]. *)
Definition insertSession (planId : Z) (rows : list SessionRow) (s : Session)
  : list SessionRow :=
  rows ++ [ {| row_id := nextRowId rows;
               study_plan_id := planId;
               row_topic_id := topicId (draft s);
               row_subject_name := subjectName (draft s);
               row_topic_description := topicDescription (draft s);
               row_session_date := session_date s;
               row_session_type := sessionType (draft s);
               row_status := Pendente |} ].

Definition insertSessions (db : Db) (planId : Z) (l : list Session) : Db :=
  {| study_plans := study_plans db;
     topics := topics db;
     study_sessions := foldl (insertSession planId) (study_sessions db) l |}.

(** ** POST /plans/:planId/generate *)

Record GenerateRequest := {
  req_daily_question_goal : Z;
  req_weekly_question_goal : Z;
  req_session_duration_minutes : Z;
  req_study_hours_per_day : list Q;
  req_has_essay : bool
}.

(** The four outcomes of the route: the 404, the 400 configuration error,
    the 200 "no topics" message, and the run that committed its sessions.
    The last one sends no reply: after [COMMIT] the handler builds the reply
    object, whose [executionTime] field reads [startTime], a name this
    handler does not declare; the [ReferenceError] takes it to the [catch]
    block, whose [ROLLBACK] is rejected because no transaction is open any
    more, and nothing is sent.  The store stays as the run committed it. *)
Inductive GenerateResponse :=
| PlanNotFound
| NoStudyHours
| NoTopicsFound
| ScheduleCommitted.

(** The settings [UPDATE] at the head of the route lists eight placeholders
    and binds seven values: its last condition, [user_id = ?], is left
    unbound and compares with NULL, which no row satisfies, so the statement
    changes no row. *)
Definition updatePlanSettings (db : Db) (planId userId : Z)
    (req : GenerateRequest) : Db := db.

(** [parseInt(h, 10) || 0] on an entry of the request: [Infinity] prints
    as a word and parses to [NaN]. *)
Definition parsedHours (h : Q) : Z :=
  if overflows h then 0 else parseInt10 (toDouble h).

(** [Object.values(h).reduce((sum, h) => sum + (parseInt(h, 10) || 0), 0)] *)
Definition totalWeeklyHours (hours : list Q) : Z :=
  foldl (λ sum h, addNumbers sum (parsedHours h)) 0 hours.

(** The route handler.  Every [ROLLBACK] path returns the store the
    transaction began with. *)
Definition generate (db : Db) (planId userId : Z) (req : GenerateRequest)
    (today : Z) (rnd : nat → nat) : GenerateResponse * Db :=
  let db1 := updatePlanSettings db planId userId req in
  match selectPlan db1 planId with
  | None => (PlanNotFound, db)
  | Some plan =>
      if totalWeeklyHours (req_study_hours_per_day req) =? 0 then
        (NoStudyHours, db)
      else
        let db2 := deleteSessionsOfPlan db1 planId in
        let allTopics := allTopicsQuery db2 planId in
        if (length allTopics =? 0)%nat then (NoTopicsFound, db2)
        else
          let sessionDuration := orDefault (req_session_duration_minutes req) 50 in
          let completedTopics := completedTopicsQuery db2 planId in
          let st :=
            scheduleRun (req_study_hours_per_day req) sessionDuration today
              (exam_date plan) (has_essay plan) allTopics completedTopics rnd in
          let sessionsToCreate := agenda_sessions (agenda st) in
          (ScheduleCommitted, insertSessions db2 planId sessionsToCreate)
  end.

(** ** Overdue Redistribution Engine *)

(** [ORDER BY session_date, id] *)
Definition byDateThenId (a b : SessionRow) : bool :=
  (row_session_date a <? row_session_date b)
  || ((row_session_date a =? row_session_date b) && (row_id a <=? row_id b)).

(** [WHERE study_plan_id = ? AND status = 'Pendente' AND session_date < ?] *)
Definition overdueQuery (db : Db) (planId todayStr : Z) : list SessionRow :=
  sort_by byDateThenId
    (filter (λ r, study_plan_id r = planId ∧ row_status r = Pendente
                  ∧ row_session_date r < todayStr) (study_sessions db)).

(** [SELECT session_date, COUNT( * ) ... WHERE study_plan_id = ? AND
    session_date BETWEEN ? AND ? GROUP BY session_date], loaded into
    [sessionCountsCache]. *)
Definition sessionCountsQuery (db : Db) (planId from to : Z) : gmap Z Z :=
  foldl (λ (m : gmap Z Z) r,
           if decide (study_plan_id r = planId
                      ∧ from ≤ row_session_date r ∧ row_session_date r ≤ to)
           then <[row_session_date r := default 0 (m !! row_session_date r) + 1]> m
           else m)
        ∅ (study_sessions db).

(** [SELECT COUNT( * ) FROM study_sessions WHERE study_plan_id = ? AND
    session_date = ?] *)
Definition countSessionsOn (db : Db) (planId d : Z) : Z :=
  Z.of_nat (length (filter (λ r, study_plan_id r = planId ∧ row_session_date r = d)
                           (study_sessions db))).

(** [UPDATE study_sessions SET session_date = ? WHERE id = ?] *)
Definition updateSessionDate (db : Db) (sessionId newDate : Z) : Db :=
  {| study_plans := study_plans db;
     topics := topics db;
     study_sessions :=
       map (λ r, if row_id r =? sessionId
                 then {| row_id := row_id r;
                         study_plan_id := study_plan_id r;
                         row_topic_id := row_topic_id r;
                         row_subject_name := row_subject_name r;
                         row_topic_description := row_topic_description r;
                         row_session_date := newDate;
                         row_session_type := row_session_type r;
                         row_status := row_status r |}
                 else r) (study_sessions db) |}.

(** [UPDATE study_plans SET postponement_count = postponement_count + 1
    WHERE id = ?] *)
Definition bumpPostponement (db : Db) (planId : Z) : Db :=
  {| study_plans :=
       map (λ p, if plan_id p =? planId
                 then {| plan_id := plan_id p;
                         user_id := user_id p;
                         exam_date := exam_date p;
                         study_hours_per_day := study_hours_per_day p;
                         session_duration_minutes := session_duration_minutes p;
                         has_essay := has_essay p;
                         postponement_count := postponement_count p + 1 |}
                 else p) (study_plans db);
     topics := topics db;
     study_sessions := study_sessions db |}.

Record PreviewEntry := {
  sessionId : Z;
  topic : string;
  subject : string;
  entrySessionType : SessionType;
  originalDate : Z;
  newDate : Z
}.

Inductive PreviewResponse :=
| PreviewPlanNotFound
| NoOverdue
| OverduePreview (count : nat) (replanPreview : list PreviewEntry)
                 (totalToReplan : nat).

Inductive ReplanResponse :=
| ReplanPlanNotFound
| NothingToReplan
| Replanned (count : nat).

Section Redistribution.

Variable studyHoursPerDay : list Q.
Variable sessionDuration : Z.
Variable examDate : Z.
Variable planId : Z.

(** *** Preview: the simulation loop *)

(** The inner [while (currentDate <= examDate)] of the preview.  It
    returns the date found, if any, and the value [currentDate] is left
    with; a hit leaves [currentDate] on the date found.  The hours are read
    as [studyHoursPerDay[Object.keys(studyHoursPerDay)[dayOfWeek]]], which on
    the seven keys ['0'] .. ['6'] is the entry of [dayOfWeek]. *)
Fixpoint previewSlot (fuel : nat) (currentDate : Z) (sessionCountsCache : gmap Z Z)
  : option Z * Z :=
  match fuel with
  | O => (None, currentDate)
  | S fuel' =>
      if currentDate <=? examDate then
        let hoursForDay := hoursFor studyHoursPerDay (getDay currentDate) in
        if Qpositive hoursForDay then
          let minutesAvailable := minutesOf hoursForDay in
          let sessionsCount := default 0 (sessionCountsCache !! currentDate) in
          let usedMinutes := (inject_Z sessionsCount * inject_Z sessionDuration)%Q in
          if Qle_bool (usedMinutes + inject_Z sessionDuration) minutesAvailable
          then (Some currentDate, currentDate)
          else previewSlot fuel' (currentDate + 1) sessionCountsCache
        else previewSlot fuel' (currentDate + 1) sessionCountsCache
      else (None, currentDate)
  end.

Definition previewEntry (session : SessionRow) (d : Z) : PreviewEntry :=
  {| sessionId := row_id session;
     topic := row_topic_description session;
     subject := row_subject_name session;
     entrySessionType := row_session_type session;
     originalDate := row_session_date session;
     newDate := d |}.

(** [for (const session of overdueSessions)] *)
Fixpoint previewLoop (overdueSessions : list SessionRow) (currentDate : Z)
    (sessionCountsCache : gmap Z Z) : list PreviewEntry :=
  match overdueSessions with
  | [] => []
  | session :: rest =>
      match previewSlot (Z.to_nat (examDate - currentDate + 1)) currentDate
                        sessionCountsCache with
      | (Some d, currentDate') =>
          previewEntry session d
          :: previewLoop rest currentDate'
               (<[d := default 0 (sessionCountsCache !! d) + 1]> sessionCountsCache)
      | (None, currentDate') => previewLoop rest currentDate' sessionCountsCache
      end
  end.

(** *** Commit: [findNextAvailableSlot] of the replan route *)

Fixpoint replanSlot (fuel : nat) (currentDate : Z) (db : Db) : option Z :=
  match fuel with
  | O => None
  | S fuel' =>
      if currentDate <=? examDate then
        let dow := getDay currentDate in
        if dow =? 0 then replanSlot fuel' (currentDate + 1) db
        else
          let totalMinutes := minutesOf (hoursFor studyHoursPerDay dow) in
          let maxSessions :=
            Qfloor (roundNearest (totalMinutes / inject_Z sessionDuration)) in
          let currentSessionCount := countSessionsOn db planId currentDate in
          if Qpositive totalMinutes && (currentSessionCount <? maxSessions)
          then Some currentDate
          else replanSlot fuel' (currentDate + 1) db
      else None
  end.

Definition findNextAvailableSlotDb (startDate : Z) (db : Db) : option Z :=
  replanSlot (Z.to_nat (examDate - startDate + 1)) startDate db.

(** [for (const session of overdueSessions)] with its [break]. *)
Fixpoint replanLoop (overdueSessions : list SessionRow) (dateForNextSlot : Z)
    (db : Db) : Db :=
  match overdueSessions with
  | [] => db
  | session :: rest =>
      match findNextAvailableSlotDb dateForNextSlot db with
      | Some d => replanLoop rest d (updateSessionDate db (row_id session) d)
      | None => db
      end
  end.

End Redistribution.

(** GET /plans/:planId/replan-preview *)
Definition replanPreviewRoute (db : Db) (planId userId : Z) (todayStr : Z)
  : PreviewResponse * Db :=
  match selectPlanOfUser db planId userId with
  | None => (PreviewPlanNotFound, db)
  | Some plan =>
      let overdueSessions := overdueQuery db planId todayStr in
      if (length overdueSessions =? 0)%nat then (NoOverdue, db)
      else
        let sessionDuration := orDefault (session_duration_minutes plan) 50 in
        let studyHoursPerDay := study_hours_per_day plan in
        let examDate := exam_date plan in
        let sessionCountsCache := sessionCountsQuery db planId todayStr examDate in
        let replanPreview :=
          previewLoop studyHoursPerDay sessionDuration examDate
            overdueSessions todayStr sessionCountsCache in
        (OverduePreview (length overdueSessions) (take 5 replanPreview)
                        (length replanPreview), db)
  end.

(** POST /plans/:planId/replan *)
Definition replanRoute (db : Db) (planId userId : Z) (todayStr : Z)
  : ReplanResponse * Db :=
  match selectPlanOfUser db planId userId with
  | None => (ReplanPlanNotFound, db)
  | Some plan =>
      let overdueSessions := overdueQuery db planId todayStr in
      if (length overdueSessions =? 0)%nat then (NothingToReplan, db)
      else
        let sessionDuration := orDefault (session_duration_minutes plan) 50 in
        let studyHoursPerDay := study_hours_per_day plan in
        let examDate := exam_date plan in
        let db1 :=
          replanLoop studyHoursPerDay sessionDuration examDate planId
            overdueSessions todayStr db in
        (Replanned (length overdueSessions), bumpPostponement db1 planId)
  end.

(** ** Maintenance routes

    [DELETE /plans/:planId] and [PATCH /topics/batch_update] are routes of
    server.js; the session routes, the overdue check and the schedule are
    those of server_backup_before_simulados.js, whose replan routes are the
    ones of server.js.  A handler is modelled by the status it answers with
    and the store it leaves. *)

Inductive HttpStatus := Status200 | Status400 | Status403 | Status404.

(** [... IN (SELECT id FROM study_plans WHERE user_id = ?)] *)
Definition planOfUser (db : Db) (userId planId : Z) : bool :=
  existsb (λ p, (plan_id p =? planId) && (user_id p =? userId)) (study_plans db).

(** *** DELETE /plans/:planId

    On the joined topic rows, deleting the topics of the plan's subjects and
    then the subjects removes the rows of the plan. *)
Definition deletePlanRoute (db : Db) (planId userId : Z) : HttpStatus * Db :=
  match selectPlanOfUser db planId userId with
  | None => (Status404, db)
  | Some _ =>
      let db1 := deleteSessionsOfPlan db planId in
      let db2 :=
        {| study_plans := study_plans db1;
           topics := filter (λ t, topic_plan_id t ≠ planId) (topics db1);
           study_sessions := study_sessions db1 |} in
      (Status200,
       {| study_plans := filter (λ p, plan_id p ≠ planId) (study_plans db2);
          topics := topics db2;
          study_sessions := study_sessions db2 |})
  end.

(** *** PATCH /topics/batch_update *)

Record TopicUpdate := {
  update_id : Z;
  update_status : Status;
  update_completion_date : option Z
}.

(** [topic.status === 'Concluído' ? topic.completion_date : null] *)
Definition completionDateOf (topic : TopicUpdate) : option Z :=
  if decide (update_status topic = Concluido) then update_completion_date topic
  else None.

Definition withStatus (t : Topic) (st : Status) (done : option Z) : Topic :=
  {| topic_id := topic_id t;
     description := description t;
     status := st;
     completion_date := done;
     subject_name := subject_name t;
     priority := priority t;
     topic_plan_id := topic_plan_id t |}.

(** One [stmt.run(topic.status, completionDate, topic.id, req.user.id)] of
    [UPDATE topics SET status = ?, completion_date = ? WHERE id = ? AND
    subject_id IN (subjects of the user's plans)]. *)
Definition updateTopicStatus (userId : Z) (db : Db) (topic : TopicUpdate) : Db :=
  {| study_plans := study_plans db;
     topics :=
       map (λ t, if (topic_id t =? update_id topic)
                    && planOfUser db userId (topic_plan_id t)
                 then withStatus t (update_status topic) (completionDateOf topic)
                 else t) (topics db);
     study_sessions := study_sessions db |}.

Definition batchUpdateTopics (db : Db) (userId : Z) (updates : list TopicUpdate)
  : HttpStatus * Db :=
  (Status200, foldl (updateTopicStatus userId) db updates).

(** *** PATCH /sessions/:sessionId

    Of the three columns the route may write, [status] is the one a session
    row of the model holds; [notes] and [questions_solved] only decide
    whether there is anything to update. *)

Record SessionPatch := {
  patch_status : option Status;
  patch_notes : option string;
  patch_questions_solved : option Z
}.

Definition withRowStatus (r : SessionRow) (st : Status) : SessionRow :=
  {| row_id := row_id r;
     study_plan_id := study_plan_id r;
     row_topic_id := row_topic_id r;
     row_subject_name := row_subject_name r;
     row_topic_description := row_topic_description r;
     row_session_date := row_session_date r;
     row_session_type := row_session_type r;
     row_status := st |}.

(** [SELECT ... FROM study_sessions WHERE id = ?] *)
Definition selectSession (db : Db) (sessionId : Z) : option SessionRow :=
  List.find (λ r, row_id r =? sessionId) (study_sessions db).

(** [UPDATE topics SET status = ?, completion_date = ? WHERE id = ?] *)
Definition setTopicStatus (db : Db) (topicId : Z) (st : Status) (done : option Z)
  : Db :=
  {| study_plans := study_plans db;
     topics := map (λ t, if topic_id t =? topicId then withStatus t st done else t)
                   (topics db);
     study_sessions := study_sessions db |}.

(** The two branches that follow the session update: a new-topic session
    with a topic id carries its status over to the topic, with the session
    date as completion date when it is completed. *)
Definition syncTopic (db : Db) (sessionId : Z) (st : Status) : Db :=
  match selectSession db sessionId with
  | Some session =>
      match row_topic_id session with
      | Some tid =>
          if negb (tid =? 0) && bool_decide (row_session_type session = NovoTopico)
          then match st with
               | Concluido =>
                   setTopicStatus db tid Concluido (Some (row_session_date session))
               | Pendente => setTopicStatus db tid Pendente None
               end
          else db
      | None => db
      end
  | None => db
  end.

(** [WHERE id = ? AND study_plan_id IN (plans of the user)] *)
Definition sessionOfUser (db : Db) (userId sessionId : Z) (r : SessionRow) : bool :=
  (row_id r =? sessionId) && planOfUser db userId (study_plan_id r).

Definition updateSessionStatus (db : Db) (userId sessionId : Z) (st : option Status)
  : Db :=
  {| study_plans := study_plans db;
     topics := topics db;
     study_sessions :=
       map (λ r, if sessionOfUser db userId sessionId r
                 then match st with Some s => withRowStatus r s | None => r end
                 else r) (study_sessions db) |}.

Definition patchSessionRoute (db : Db) (sessionId userId : Z) (req : SessionPatch)
  : HttpStatus * Db :=
  match patch_status req, patch_notes req, patch_questions_solved req with
  | None, None, None => (Status400, db)
  | _, _, _ =>
      if existsb (sessionOfUser db userId sessionId) (study_sessions db) then
        let db1 := updateSessionStatus db userId sessionId (patch_status req) in
        match patch_status req with
        | Some st => (Status200, syncTopic db1 sessionId st)
        | None => (Status200, db1)
        end
      else (Status404, db)
  end.

(** *** PATCH /sessions/:sessionId/postpone

    [days] is taken to be ['next'] or a JSON number, which [Number] and
    [parseInt] read alike; a whole number is [DaysAhead n], and a number
    that is not whole fails the validator. *)

Inductive PostponeDays := NextDay | DaysAhead (n : Z).

(** The [custom] validator of [days]. *)
Definition validDays (days : PostponeDays) : bool :=
  match days with
  | NextDay => true
  | DaysAhead n => (0 <? n) && (n <=? 30)
  end.

(** [findNextStudyDay]: the [while (nextDay <= examDate)] loop. *)
Fixpoint findNextStudyDay (studyHoursPerDay : list Q) (examDate : Z) (fuel : nat)
    (nextDay : Z) : option Z :=
  match fuel with
  | O => None
  | S fuel' =>
      if nextDay <=? examDate then
        if negb (getDay nextDay =? 0)
           && Qpositive (hoursFor studyHoursPerDay (getDay nextDay))
        then Some nextDay
        else findNextStudyDay studyHoursPerDay examDate fuel' (nextDay + 1)
      else None
  end.

Definition postponeRoute (db : Db) (sessionId userId : Z) (days : PostponeDays)
  : HttpStatus * Db :=
  if validDays days then
    match selectSession db sessionId with
    | None => (Status404, db)
    | Some session =>
        match selectPlanOfUser db (study_plan_id session) userId with
        | None => (Status403, db)
        | Some plan =>
            let targetDate :=
              match days with
              | NextDay => row_session_date session + 1
              | DaysAhead n => row_session_date session + n
              end in
            match findNextStudyDay (study_hours_per_day plan) (exam_date plan)
                    (Z.to_nat (exam_date plan - targetDate + 1)) targetDate with
            | None => (Status400, db)
            | Some newDate => (Status200, updateSessionDate db sessionId newDate)
            end
        end
    end
  else (Status400, db).

(** *** GET /plans/:planId/overdue_check *)

(** [SELECT COUNT(id) FROM study_sessions WHERE study_plan_id = ? AND
    status = 'Pendente' AND session_date < ?]; [None] is the 404. *)
Definition overdueCheck (db : Db) (planId userId todayStr : Z) : option Z :=
  match selectPlanOfUser db planId userId with
  | None => None
  | Some _ =>
      Some (Z.of_nat (length (filter (λ r, study_plan_id r = planId
                                           ∧ row_status r = Pendente
                                           ∧ row_session_date r < todayStr)
                                     (study_sessions db))))
  end.

(** *** GET /plans/:planId/schedule *)

(** [if (!acc[date]) acc[date] = []; acc[date].push(session)] on an object
    keyed by date strings, whose keys keep their insertion order. *)
Fixpoint groupPush (acc : list (Z * list SessionRow)) (session : SessionRow)
  : list (Z * list SessionRow) :=
  match acc with
  | [] => [(row_session_date session, [session])]
  | (d, l) :: acc' =>
      if row_session_date session =? d then (d, l ++ [session]) :: acc'
      else (d, l) :: groupPush acc' session
  end.

(** [SELECT * FROM study_sessions WHERE study_plan_id = ? ORDER BY
    session_date ASC, id ASC] *)
Definition scheduleQuery (db : Db) (planId : Z) : list SessionRow :=
  sort_by byDateThenId (filter (λ r, study_plan_id r = planId) (study_sessions db)).

(** The route; [None] is the 404. *)
Definition scheduleRoute (db : Db) (planId userId : Z)
  : option (list (Z * list SessionRow)) :=
  match selectPlanOfUser db planId userId with
  | None => None
  | Some _ => Some (foldl groupPush [] (scheduleQuery db planId))
  end.

(** ** GET /plans/:planId/share-progress and GET /plans/:planId/gamification

    The first is a route of server.js, the second of
    server_backup_before_simulados.js.  Both handlers compute the study
    streak and the level with the same code; the model has it once.  The
    instant of the request is [nowMs], milliseconds since the epoch; the day
    it falls on is [nowMs / msPerDay]. *)

Definition msPerDay : Z := 1000 * 3600 * 24.

(** [SELECT COUNT(DISTINCT topic_id) FROM study_sessions WHERE
    study_plan_id = ? AND session_type = 'Novo Tópico' AND
    status = 'Concluído' AND topic_id IS NOT NULL] *)
Definition completedTopicsCountQuery (db : Db) (planId : Z) : Z :=
  Z.of_nat (length (remove_dups
    (omap row_topic_id
          (filter (λ r, study_plan_id r = planId ∧ row_session_type r = NovoTopico
                        ∧ row_status r = Concluido) (study_sessions db))))).

(** [SELECT DISTINCT session_date FROM study_sessions WHERE
    study_plan_id = ? AND status = 'Concluído' ORDER BY session_date DESC] *)
Definition completedDatesQuery (db : Db) (planId : Z) : list Z :=
  sort_by (λ a b, b <=? a)
    (remove_dups (row_session_date
                    <$> filter (λ r, study_plan_id r = planId ∧ row_status r = Concluido)
                               (study_sessions db))).

(** [for (let i = 1; i < completedSessions.length; i++)] with its [break]. *)
Fixpoint streakLoop (currentDate : Z) (rest : list Z) (studyStreak : nat) : nat :=
  match rest with
  | [] => studyStreak
  | nextStudyDate :: rest' =>
      if nextStudyDate =? currentDate - 1
      then streakLoop nextStudyDate rest' (S studyStreak)
      else studyStreak
  end.

Definition studyStreak (today : Z) (completedSessions : list Z) : nat :=
  match completedSessions with
  | [] => 0
  | lastStudyDate :: rest =>
      if (lastStudyDate =? today) || (lastStudyDate =? today - 1)
      then streakLoop lastStudyDate rest 1
      else 0
  end.

Record Level := {
  threshold : Z;
  title : string
}.

Definition levels : list Level :=
  [ {| threshold := 0; title := "Aspirante a Servidor(a) 🌱" |};
    {| threshold := 11; title := "Pagador(a) de Inscrição 💸" |};
    {| threshold := 31; title := "Acima da Nota de Corte (nos simulados) 😉" |};
    {| threshold := 51; title := "Mestre dos Grupos de WhatsApp de Concurso 📲" |};
    {| threshold := 101; title := "Gabaritador(a) da prova de Português da FGV 🎯" |};
    {| threshold := 201; title := "Terror do Cespe/Cebraspe 👹" |};
    {| threshold := 351; title := "Veterano(a) de 7 Bancas Diferentes 😎" |};
    {| threshold := 501; title := "✨ Lenda Viva: Assinante Vitalício do Diário Oficial ✨" |} ].

(** [for (let i = levels.length - 1; i >= 0; i--)]: [n] is [i + 1], and the
    result is the index the loop breaks at.  [i] stays below
    [levels.length], so [levels[i]] is always there. *)
Fixpoint levelLoop (completedTopicsCount : Z) (n : nat) : option nat :=
  match n with
  | O => None
  | S i =>
      match levels !! i with
      | Some level =>
          if threshold level <=? completedTopicsCount then Some i
          else levelLoop completedTopicsCount i
      | None => levelLoop completedTopicsCount i
      end
  end.

Definition firstLevel : Level :=
  {| threshold := 0; title := "Aspirante a Servidor(a) 🌱" |}.

(** [currentLevel], initialised to [levels[0]]. *)
Definition currentLevel (completedTopicsCount : Z) : Level :=
  match levelLoop completedTopicsCount (length levels) with
  | Some i => default firstLevel (levels !! i)
  | None => firstLevel
  end.

(** [nextLevel], initialised to [null] and set when the loop breaks below
    the last level. *)
Definition nextLevel (completedTopicsCount : Z) : option Level :=
  match levelLoop completedTopicsCount (length levels) with
  | Some i => if (i <? length levels - 1)%nat then levels !! (i + 1)%nat else None
  | None => None
  end.

(** [Math.ceil(a / b)] for a positive [b], computed exactly: a difference
    of two timestamps is far below the magnitudes at which the rounding of
    the quotient to a double could reach the next integer. *)
Definition ceilDiv (a b : Z) : Z := - ((- a) / b).

(** [daysToExam > 0 ? daysToExam : 0], the exam date taken at midnight. *)
Definition daysToExam (examDate nowMs : Z) : Z :=
  let timeDiff := examDate * msPerDay - nowMs in
  let daysToExam := ceilDiv timeDiff msPerDay in
  if 0 <? daysToExam then daysToExam else 0.

(** The numbers of [shareData]; [userName], [planName] and the share text
    built from them read columns the model does not hold. *)
Record ShareData := {
  share_completedTopics : Z;
  share_studyStreak : nat;
  share_daysToExam : Z;
  share_level : string
}.

(** GET /plans/:planId/share-progress; [None] is the 404. *)
Definition shareProgress (db : Db) (planId userId : Z) (nowMs : Z)
  : option ShareData :=
  match selectPlanOfUser db planId userId with
  | None => None
  | Some plan =>
      let completedTopicsCount := completedTopicsCountQuery db planId in
      Some {| share_completedTopics := completedTopicsCount;
              share_studyStreak :=
                studyStreak (nowMs / msPerDay) (completedDatesQuery db planId);
              share_daysToExam := daysToExam (exam_date plan) nowMs;
              share_level := title (currentLevel completedTopicsCount) |}
  end.

(** [SELECT COUNT(id) as total, SUM(CASE WHEN status = 'Concluído' THEN 1
    ELSE 0 END) as completed FROM study_sessions WHERE study_plan_id = ? AND
    session_date = ?] *)
Definition todayTasksQuery (db : Db) (planId todayStr : Z) : Z * Z :=
  let rows := filter (λ r, study_plan_id r = planId ∧ row_session_date r = todayStr)
                     (study_sessions db) in
  (Z.of_nat (length rows),
   Z.of_nat (length (filter (λ r, row_status r = Concluido) rows))).

(** [SELECT COUNT( * ) FROM study_sessions WHERE study_plan_id = ? AND
    status = 'Concluído'] *)
Definition completedSessionsCountQuery (db : Db) (planId : Z) : Z :=
  Z.of_nat (length (filter (λ r, study_plan_id r = planId ∧ row_status r = Concluido)
                           (study_sessions db))).

(** [SELECT COUNT(DISTINCT session_date) FROM study_sessions WHERE
    study_plan_id = ? AND status = 'Concluído'] *)
Definition uniqueStudyDaysQuery (db : Db) (planId : Z) : Z :=
  Z.of_nat (length (remove_dups
    (row_session_date
       <$> filter (λ r, study_plan_id r = planId ∧ row_status r = Concluido)
                  (study_sessions db)))).

(** The [if (...) achievements.push(...)] ladder. *)
Definition achievementsOf (completedTopicsCount : Z) (studyStreak : nat)
    (totalCompletedSessions : Z) : list string :=
  (if 1 <=? completedTopicsCount then ["🌟 Primeiro Tópico"] else [])
  ++ (if 5 <=? completedTopicsCount then ["📚 Estudioso"] else [])
  ++ (if 10 <=? completedTopicsCount then ["🎯 Focado"] else [])
  ++ (if (3 <=? studyStreak)%nat then ["🔥 Consistente"] else [])
  ++ (if (7 <=? studyStreak)%nat then ["💪 Disciplinado"] else [])
  ++ (if (14 <=? studyStreak)%nat then ["🏆 Dedicado"] else [])
  ++ (if 20 <=? totalCompletedSessions then ["📈 Persistente"] else [])
  ++ (if 50 <=? totalCompletedSessions then ["⭐ Veterano"] else []).

Record Gamification := {
  gam_completedTopicsCount : Z;
  gam_concurseiroLevel : string;
  gam_nextLevel : option string;
  gam_topicsToNextLevel : Z;
  gam_studyStreak : nat;
  gam_completedTodayCount : Z;
  gam_totalTodayCount : Z;
  gam_experiencePoints : Z;
  gam_achievements : list string;
  gam_totalStudyDays : Z;
  gam_totalCompletedSessions : Z
}.

(** GET /plans/:planId/gamification; [None] is the 404. *)
Definition gamification (db : Db) (planId userId : Z) (nowMs : Z)
  : option Gamification :=
  match selectPlanOfUser db planId userId with
  | None => None
  | Some plan =>
      let completedTopicsCount := completedTopicsCountQuery db planId in
      let next := nextLevel completedTopicsCount in
      let topicsToNextLevel :=
        match next with
        | Some l => threshold l - completedTopicsCount
        | None => 0
        end in
      let streak := studyStreak (nowMs / msPerDay) (completedDatesQuery db planId) in
      let todayTasksResult := todayTasksQuery db planId (nowMs / msPerDay) in
      let totalCompletedSessions := completedSessionsCountQuery db planId in
      let experiencePoints := totalCompletedSessions * 10 + completedTopicsCount * 50 in
      Some {| gam_completedTopicsCount := completedTopicsCount;
              gam_concurseiroLevel := title (currentLevel completedTopicsCount);
              gam_nextLevel := title <$> next;
              gam_topicsToNextLevel := topicsToNextLevel;
              gam_studyStreak := streak;
              gam_completedTodayCount := todayTasksResult.2;
              gam_totalTodayCount := todayTasksResult.1;
              gam_experiencePoints := experiencePoints;
              gam_achievements :=
                achievementsOf completedTopicsCount streak totalCompletedSessions;
              gam_totalStudyDays := uniqueStudyDaysQuery db planId;
              gam_totalCompletedSessions := totalCompletedSessions |}
  end.

(** * Specification vocabulary *)

(** The weekday of [d] has a positive hour allocation. *)
Definition available (hours : list Q) (d : Z) : Prop :=
  (0 < hoursFor hours (getDay d))%Q.

(** The formula of the specification,
    [floor(hours * 60 / sessionDurationMinutes)], on the numbers
    themselves. *)
Definition specMaxSessions (hours : Q) (sessionDuration : Z) : Z :=
  Qfloor (hours * 60 / inject_Z sessionDuration)%Q.

(** The session count of the date [d], as [getAvailableDates] computes
    it. *)
Definition capacity (hours : list Q) (sessionDuration : Z) (d : Z) : Z :=
  maxSessionsFor (hoursFor hours (getDay d)) sessionDuration.

Definition dateInfoOf (hours : list Q) (sessionDuration : Z) (d : Z) : DateInfo :=
  {| date := d; dayOfWeek := getDay d; maxSessions := capacity hours sessionDuration d |}.

Definition eligible (hours : list Q) (weekdayOnly : bool) (d : Z) : Prop :=
  available hours d ∧ (weekdayOnly = true → getDay d ≠ 0 ∧ getDay d ≠ 6).

(** Every cached list whose key starts on or after [from] is the list a
    fresh computation would give. *)
Definition cache_ok (hours : list Q) (sessionDuration : Z) (from : Z) (c : Cache) : Prop :=
  ∀ s e w l, c !! (s, e, w) = Some l → from ≤ s →
             l = computeDates hours sessionDuration s e w.

(** Date [d] still has room for one more session. *)
Definition spare (hours : list Q) (sessionDuration : Z) (a : Agenda) (d : Z) : Prop :=
  sessionsOn a d < capacity hours sessionDuration d.

(** [d] is the first date of [s .. e] that satisfies [ok] and has room. *)
Definition firstSlot (hours : list Q) (sessionDuration : Z) (a : Agenda)
    (ok : Z → Prop) (s e d : Z) : Prop :=
  s ≤ d ≤ e ∧ ok d ∧ spare hours sessionDuration a d
  ∧ ∀ d', s ≤ d' < d → ok d' → ¬ spare hours sessionDuration a d'.

(** No date of [s .. e] that satisfies [ok] has room. *)
Definition noSlot (hours : list Q) (sessionDuration : Z) (a : Agenda)
    (ok : Z → Prop) (s e : Z) : Prop :=
  ∀ d', s ≤ d' ≤ e → ok d' → ¬ spare hours sessionDuration a d'.

(** A review day is a Saturday with a positive hour allocation. *)
Definition reviewDay (hours : list Q) (d : Z) : Prop :=
  available hours d ∧ getDay d = 6.




(** [Placed G a a']: agenda [a'] is [a] after a sequence of insertions, each
    one allowed by the guard [G] in the agenda it was made in. *)
Inductive Placed (G : Agenda → Z → SessionDraft → Prop) : Agenda → Agenda → Prop :=
| Placed_refl a : Placed G a a
| Placed_step a d s a' :
    G a d s →
    Placed G (agenda_push a d {| draft := s; session_date := d |}) a' →
    Placed G a a'.

Section Guards.

Variable hours : list Q.
Variable sessionDuration : Z.
Variable today : Z.
Variable examDate : Z.

(** An essay goes on an available Sunday that holds nothing yet. *)
Definition essayGuard (a : Agenda) (d : Z) (s : SessionDraft) : Prop :=
  s = essayDraft ∧ today ≤ d ≤ examDate ∧ available hours d ∧ getDay d = 0
  ∧ sessionsOn a d = 0.

(** A review goes on a review day with room. *)
Definition reviewGuard (a : Agenda) (d : Z) (s : SessionDraft) : Prop :=
  (∃ topic k, s = reviewDraft topic k) ∧ today ≤ d ≤ examDate
  ∧ reviewDay hours d ∧ spare hours sessionDuration a d.

(** A new topic goes on an available weekday with room. *)
Definition newTopicGuard (a : Agenda) (d : Z) (s : SessionDraft) : Prop :=
  (∃ topic, s = newTopicDraft topic) ∧ today ≤ d ≤ examDate
  ∧ eligible hours true d ∧ spare hours sessionDuration a d.

(** A mock exam goes on any available date with room. *)
Definition mockGuard (a : Agenda) (d : Z) (s : SessionDraft) : Prop :=
  topicId s = None
  ∧ (sessionType s = SimuladoDirecionado ∨ sessionType s = SimuladoCompleto)
  ∧ today ≤ d ≤ examDate ∧ available hours d ∧ spare hours sessionDuration a d.

Definition contentGuard (a : Agenda) (d : Z) (s : SessionDraft) : Prop :=
  newTopicGuard a d s ∨ reviewGuard a d s.

(** The insertions of a whole run; essays only when the plan has them. *)
Definition anyGuard (hasEssay : bool) (a : Agenda) (d : Z) (s : SessionDraft) : Prop :=
  (hasEssay = true ∧ essayGuard a d s)
  ∨ reviewGuard a d s ∨ newTopicGuard a d s ∨ mockGuard a d s.

(** A phase of the run: guarded insertions that leave the cache coherent
    from [today] on. *)
Definition Phase (G : Agenda → Z → SessionDraft → Prop) (st st' : RunState) : Prop :=
  Placed G (agenda st) (agenda st')
  ∧ cache_ok hours sessionDuration today (availableDatesCache st').

End Guards.

(** Topic ids of the new-topic sessions an agenda holds. *)
Definition newTopicIds (a : Agenda) : list Z :=
  omap (λ s, if decide (sessionType (draft s) = NovoTopico)
             then topicId (draft s) else None)
       (agenda_sessions a).

(** De-duplication that keeps the first occurrence of every id, as the
    specification words it. *)
Fixpoint firstOccurrences (l : list Z) : list Z :=
  match l with
  | [] => []
  | x :: l' => x :: filter (λ y, y ≠ x) (firstOccurrences l')
  end.

(** No available weekday between today and the exam has room left. *)
Definition weekdaysExhausted (hours : list Q) (sessionDuration today examDate : Z)
    (a : Agenda) : Prop :=
  noSlot hours sessionDuration a (eligible hours true) today examDate.

(** The one session an essay Sunday may hold whatever its capacity. *)
Definition essayAllowance (hasEssay : bool) (d : Z) : Z :=
  if hasEssay && (getDay d =? 0) then 1 else 0.

(** Number of sessions of a list dated [d]. *)
Definition sessionsDated (l : list Session) (d : Z) : Z :=
  Z.of_nat (length (filter (λ s, session_date s = d) l)).

(** The preview's [sessionCountsCache] tells, for every date from today to
    the exam, what the store's count query would. *)
Definition countsAgree (planId today examDate : Z) (counts : gmap Z Z) (db : Db) : Prop :=
  ∀ d, today ≤ d ≤ examDate → default 0 (counts !! d) = countSessionsOn db planId d.

(** Date [d] takes one more session in the preview, whose cache counts
    [counts] sessions per date: the weekday has study hours, and the minutes
    of the sessions counted there and of one more are within the minutes of
    the day, the double [hours * 60]. *)
Definition previewFits (hours : list Q) (sessionDuration : Z) (counts : gmap Z Z)
    (d : Z) : Prop :=
  available hours d
  ∧ (inject_Z ((default 0 (counts !! d) + 1) * sessionDuration)%Z
     <= minutesOf (hoursFor hours (getDay d)))%Q.

(** The preview loop, session by session.  From the date [cur] the search
    stands on and the counts of the cache, a session gets the first date up
    to the exam that takes one more session; the search stays on that date
    and the cache counts one session more there.  The first session that
    finds no date ends the listing, since the search is then past the exam
    date. *)
Inductive PreviewTrace (hours : list Q) (sessionDuration examDate : Z)
  : list SessionRow → Z → gmap Z Z → list PreviewEntry → Prop :=
| PreviewTrace_done cur counts :
    PreviewTrace hours sessionDuration examDate [] cur counts []
| PreviewTrace_found session rest cur counts d entries :
    cur ≤ d ≤ examDate →
    previewFits hours sessionDuration counts d →
    (∀ d', cur ≤ d' < d → ¬ previewFits hours sessionDuration counts d') →
    PreviewTrace hours sessionDuration examDate rest d
      (<[d := default 0 (counts !! d) + 1]> counts) entries →
    PreviewTrace hours sessionDuration examDate (session :: rest) cur counts
      (previewEntry session d :: entries)
| PreviewTrace_exhausted session rest cur counts :
    (∀ d', cur ≤ d' ≤ examDate → ¬ previewFits hours sessionDuration counts d') →
    PreviewTrace hours sessionDuration examDate (session :: rest) cur counts [].

(** ** What a run may insert *)

Section RunSteps.

Variable hours : list Q.
Variable sessionDuration : Z.
Variable today : Z.
Variable examDate : Z.
Variable hasEssay : bool.
Variable pendingTopics : list Topic.
Variable completedTopics : list Topic.
Variable allTopics : list Topic.

(** An essay of a plan with essay practice. *)
Definition essayStep (a : Agenda) (d : Z) (s : SessionDraft) : Prop :=
  hasEssay = true ∧ essayGuard hours today examDate a d s.

(** Where the review of [topic] at offset [k] dated [d] comes from: a
    completed topic whose completion date lies [k] days or more before [d],
    or a pending topic whose new-topic session already sits in the agenda
    [k] days or more before [d]. *)
Definition reviewOrigin (a : Agenda) (topic : Topic) (k d : Z) : Prop :=
  (topic ∈ completedTopics ∧ ∃ X, completion_date topic = Some X ∧ X + k ≤ d)
  ∨ (topic ∈ pendingTopics
     ∧ ∃ s0, s0 ∈ agenda_sessions a ∧ draft s0 = newTopicDraft topic
             ∧ session_date s0 + k ≤ d).

Definition reviewStep (a : Agenda) (d : Z) (s : SessionDraft) : Prop :=
  ∃ topic k, s = reviewDraft topic k ∧ k ∈ [7; 14; 28]
             ∧ today ≤ d ≤ examDate ∧ reviewDay hours d
             ∧ spare hours sessionDuration a d
             ∧ reviewOrigin a topic k d.

Definition newTopicStep (a : Agenda) (d : Z) (s : SessionDraft) : Prop :=
  ∃ topic, s = newTopicDraft topic ∧ topic ∈ pendingTopics
           ∧ today ≤ d ≤ examDate ∧ eligible hours true d
           ∧ spare hours sessionDuration a d.

(** A mock exam, which only a run that passed the simulation gate inserts. *)
Definition mockStep (a : Agenda) (d : Z) (s : SessionDraft) : Prop :=
  pendingTopics = []
  ∧ simGate pendingTopics completedTopics allTopics = true
  ∧ mockGuard hours sessionDuration today examDate a d s.

Definition runStep (a : Agenda) (d : Z) (s : SessionDraft) : Prop :=
  essayStep a d s ∨ reviewStep a d s ∨ newTopicStep a d s ∨ mockStep a d s.


End RunSteps.

(** The weekday a session of a given type may sit on. *)
Definition dayFits (hasEssay : bool) (ty : SessionType) (tid : option Z) (d : Z)
  : Prop :=
  match ty with
  | NovoTopico => 1 ≤ getDay d ≤ 5
  | Revisao _ => getDay d = 6
  | Redacao => getDay d = 0 ∧ hasEssay = true
  | SimuladoDirecionado | SimuladoCompleto => tid = None
  end.

(** What a session of a finished run is, read against the final agenda. *)
Definition sessionOrigin (hours : list Q) (today examDate : Z) (hasEssay : bool)
    (pendingTopics completedTopics allTopics : list Topic) (a : Agenda) (s : Session)
  : Prop :=
  today ≤ session_date s ≤ examDate ∧ available hours (session_date s)
  ∧ ((hasEssay = true ∧ draft s = essayDraft ∧ getDay (session_date s) = 0)
     ∨ (∃ topic k, draft s = reviewDraft topic k ∧ k ∈ [7; 14; 28]
                   ∧ getDay (session_date s) = 6
                   ∧ reviewOrigin pendingTopics completedTopics a topic k (session_date s))
     ∨ (∃ topic, draft s = newTopicDraft topic ∧ topic ∈ pendingTopics
                 ∧ 1 ≤ getDay (session_date s) ≤ 5)
     ∨ (pendingTopics = []
        ∧ simGate pendingTopics completedTopics allTopics = true
        ∧ topicId (draft s) = None
        ∧ (sessionType (draft s) = SimuladoDirecionado
           ∨ sessionType (draft s) = SimuladoCompleto))).

(** The row the batch insert of the generate route writes for a session. *)
Definition rowOf (planId : Z) (s : Session) (r : SessionRow) : Prop :=
  study_plan_id r = planId
  ∧ row_topic_id r = topicId (draft s)
  ∧ row_subject_name r = subjectName (draft s)
  ∧ row_topic_description r = topicDescription (draft s)
  ∧ row_session_date r = session_date s
  ∧ row_session_type r = sessionType (draft s)
  ∧ row_status r = Pendente.

(** What [subjectCompletionMap] holds for a subject: the descriptions of its
    completed topics, in query order, and the number of its topics. *)
Definition subjectStats (allTopics : list Topic) (name : string) : SubjectData :=
  {| completed :=
       description <$> filter (λ t, subject_name t = name ∧ status t = Concluido)
                              allTopics;
     total := length (filter (λ t, subject_name t = name) allTopics) |}.

(** A session row with another date. *)
Definition redated (r : SessionRow) (d : Z) : SessionRow :=
  {| row_id := row_id r;
     study_plan_id := study_plan_id r;
     row_topic_id := row_topic_id r;
     row_subject_name := row_subject_name r;
     row_topic_description := row_topic_description r;
     row_session_date := d;
     row_session_type := row_session_type r;
     row_status := row_status r |}.

(** Number of preview entries that name [d] as the new date. *)
Definition previewedOn (entries : list PreviewEntry) (d : Z) : Z :=
  Z.of_nat (length (filter (λ e, newDate e = d) entries)).

(** How the commit run may change a session row: not at all, or by moving
    a session whose id is in [ids] to a date of [today .. examDate] that is
    not a Sunday and has study hours. *)
Definition movedBy (hours : list Q) (today examDate : Z) (ids : list Z)
    (r r' : SessionRow) : Prop :=
  r' = r
  ∨ ∃ d, r' = redated r d ∧ row_id r ∈ ids ∧ today ≤ d ≤ examDate
         ∧ getDay d ≠ 0 ∧ available hours d.

(** The plan has a completed session dated [d]. *)
Definition studiedOn (db : Db) (planId d : Z) : Prop :=
  ∃ r, r ∈ study_sessions db ∧ study_plan_id r = planId ∧ row_status r = Concluido
       ∧ row_session_date r = d.

(** What the batch update makes of a topic row: the last update that names
    a topic of the user's plans sets its status and, only for a completed
    topic, its completion date; every other row is left as it is. *)
Definition batchOutcome (db : Db) (userId : Z) (updates : list TopicUpdate)
    (t t' : Topic) : Prop :=
  match last (filter (λ u, update_id u = topic_id t) updates) with
  | Some u =>
      if planOfUser db userId (topic_plan_id t)
      then t' = withStatus t (update_status u) (completionDateOf u)
      else t' = t
  | None => t' = t
  end.

(** The completion date a session status writes to the topic. *)
Definition topicDateFor (st : Status) (session : SessionRow) : option Z :=
  match st with
  | Concluido => Some (row_session_date session)
  | Pendente => None
  end.

(** No study day from [s] to [e]: every date is a Sunday or has no hours. *)
Definition noStudyDay (hours : list Q) (s e : Z) : Prop :=
  ∀ d, s ≤ d ≤ e → getDay d = 0 ∨ ¬ available hours d.

(** The date a postponed session is aimed at. *)
Definition postponeTarget (session : SessionRow) (days : PostponeDays) : Z :=
  match days with
  | NextDay => row_session_date session + 1
  | DaysAhead n => row_session_date session + n
  end.

#[global] Instance SessionDraft_eq_dec : EqDecision SessionDraft.
Proof. solve_decision. Defined.

(** The directed mocks and the recurring full mocks of an agenda. *)
Definition isDirected (s : Session) : Prop :=
  sessionType (draft s) = SimuladoDirecionado.

Definition isRecurring (s : Session) : Prop :=
  draft s = recurringFullMockDraft.

Definition isBasicMock (s : Session) : Prop :=
  draft s = basicFullMockDraft.

#[global] Instance isDirected_dec (s : Session) : Decision (isDirected s).
Proof. unfold isDirected. apply _. Defined.

#[global] Instance isRecurring_dec (s : Session) : Decision (isRecurring s).
Proof. unfold isRecurring. apply _. Defined.

#[global] Instance isBasicMock_dec (s : Session) : Decision (isBasicMock s).
Proof. unfold isBasicMock. apply _. Defined.

(** Number of sessions of a kind dated [d], [d + 1] or [d + 2]. *)
Definition withinThreeDays (P : Session → Prop) `{!∀ s, Decision (P s)}
    (l : list Session) (d : Z) : nat :=
  length (filter (λ s, P s ∧ d ≤ session_date s ≤ d + 2) l).

(** Any two sessions of the kind lie three days apart or more: no window
    of three consecutive days holds two of them. *)
Definition spreadOut (P : Session → Prop) `{!∀ s, Decision (P s)}
    (l : list Session) : Prop :=
  ∀ d, (withinThreeDays P l d ≤ 1)%nat.

(** Every session of the kind lies three days or more before [cur]. *)
Definition behind (P : Session → Prop) (l : list Session) (cur : Z) : Prop :=
  ∀ s, s ∈ l → P s → session_date s + 3 ≤ cur.

(** * Sample data *)

(** Monday 2024-01-01 and the Sunday that follows it. *)
Definition monday : Z := 19723.
Definition sunday : Z := 19729.

Definition sampleTopic (i : Z) (st : Status) (done : option Z) : Topic :=
  {| topic_id := i; description := "Atos administrativos"; status := st;
     completion_date := done; subject_name := "Direito Administrativo";
     priority := 3; topic_plan_id := 1 |}.

Definition samplePlan (hoursPerDay : list Q) (duration : Z) (essay : bool) : PlanRow :=
  {| plan_id := 1; user_id := 7; exam_date := monday + 30;
     study_hours_per_day := hoursPerDay; session_duration_minutes := duration;
     has_essay := essay; postponement_count := 0 |}.

Definition sampleRow (i d : Z) : SessionRow :=
  {| row_id := i; study_plan_id := 1; row_topic_id := Some 1;
     row_subject_name := "Direito Administrativo";
     row_topic_description := "Atos administrativos";
     row_session_date := d; row_session_type := NovoTopico;
     row_status := Pendente |}.

Definition sampleRequest (hoursPerDay : list Q) (duration : Z) : GenerateRequest :=
  {| req_daily_question_goal := 50; req_weekly_question_goal := 300;
     req_session_duration_minutes := duration;
     req_study_hours_per_day := hoursPerDay; req_has_essay := true |}.

(** One hour on Sundays, four on the other days. *)
Definition shortSundays : list Q := [1; 4; 4; 4; 4; 4; 4]%Q.

(** Four hours on every day of the week. *)
Definition fourEveryDay : list Q := [4; 4; 4; 4; 4; 4; 4]%Q.

(** Half an hour from Monday to Friday. *)
Definition halfHours : list Q := [0; 1 # 2; 1 # 2; 1 # 2; 1 # 2; 1 # 2; 0]%Q.

(** The default allocation of a new plan. *)
Definition defaultHours : list Q := [0; 4; 4; 4; 4; 4; 4]%Q.

(** A plan with essay practice, one pending topic and no session yet. *)
Definition essayDb : Db :=
  {| study_plans := [samplePlan shortSundays 90 true];
     topics := [sampleTopic 1 Pendente None];
     study_sessions := [] |}.

(** A plan whose calendar already holds one session. *)
Definition plannedDb : Db :=
  {| study_plans := [samplePlan defaultHours 50 false];
     topics := [sampleTopic 1 Pendente None];
     study_sessions := [sampleRow 1 (monday + 1)] |}.

(** The same plan with its topics removed. *)
Definition emptiedDb : Db :=
  {| study_plans := [samplePlan defaultHours 50 false];
     topics := [];
     study_sessions := [sampleRow 1 (monday + 1)] |}.

(** Study every day, one pending session left two days before [sunday]. *)
Definition overdueDb : Db :=
  {| study_plans := [samplePlan fourEveryDay 50 false];
     topics := [sampleTopic 1 Pendente None];
     study_sessions := [sampleRow 1 (sunday - 2)] |}.

(** Six pending sessions left in the week before [sunday]. *)
Definition sixOverdueDb : Db :=
  {| study_plans := [samplePlan fourEveryDay 50 false];
     topics := [sampleTopic 1 Pendente None];
     study_sessions :=
       [sampleRow 1 (sunday - 6); sampleRow 2 (sunday - 5); sampleRow 3 (sunday - 4);
        sampleRow 4 (sunday - 3); sampleRow 5 (sunday - 2); sampleRow 6 (sunday - 1)] |}.

(** A review row and a full-mock row of the sample plan. *)
Definition sampleReview (i d k : Z) : SessionRow :=
  {| row_id := i; study_plan_id := 1; row_topic_id := Some 1;
     row_subject_name := "Direito Administrativo";
     row_topic_description := "Atos administrativos";
     row_session_date := d; row_session_type := Revisao k;
     row_status := Pendente |}.

Definition sampleMock (i d : Z) : SessionRow :=
  {| row_id := i; study_plan_id := 1; row_topic_id := None;
     row_subject_name := subjectName basicFullMockDraft;
     row_topic_description := topicDescription basicFullMockDraft;
     row_session_date := d; row_session_type := SimuladoCompleto;
     row_status := Pendente |}.

(** The plan with its only topic completed three days before [monday]. *)
Definition doneDb : Db :=
  {| study_plans := [samplePlan defaultHours 50 false];
     topics := [sampleTopic 1 Concluido (Some (monday - 3))];
     study_sessions := [] |}.

(** No hours on Sundays, one pending session left two days before [sunday]. *)
Definition lateDb : Db :=
  {| study_plans := [samplePlan defaultHours 50 false];
     topics := [sampleTopic 1 Pendente None];
     study_sessions := [sampleRow 1 (sunday - 2)] |}.

(** Two completed sessions, on [monday] and on the day after. *)
Definition studiedDb : Db :=
  {| study_plans := [samplePlan defaultHours 50 false];
     topics := [sampleTopic 1 Pendente None];
     study_sessions := [withRowStatus (sampleRow 1 monday) Concluido;
                        withRowStatus (sampleRow 2 (monday + 1)) Concluido] |}.

(** Ten o'clock on the Tuesday after [monday]. *)
Definition tuesdayMorning : Z := (monday + 1) * msPerDay + 10 * 3600 * 1000.

(** What the gamification panel shows for [studiedDb] that morning. *)
Definition sampleGamification : Gamification :=
  {| gam_completedTopicsCount := 1;
     gam_concurseiroLevel := "Aspirante a Servidor(a) 🌱";
     gam_nextLevel := Some "Pagador(a) de Inscrição 💸";
     gam_topicsToNextLevel := 10;
     gam_studyStreak := 2;
     gam_completedTodayCount := 1;
     gam_totalTodayCount := 1;
     gam_experiencePoints := 70;
     gam_achievements := ["🌟 Primeiro Tópico"];
     gam_totalStudyDays := 2;
     gam_totalCompletedSessions := 2 |}.

(** Four hours and six minutes on Mondays, nothing on the other days; the
    same on Saturdays, with four hours from Monday to Friday; and two hours
    and three minutes on every day. *)
Definition mondayOnly : list Q := [0; 41 # 10; 0; 0; 0; 0; 0]%Q.
Definition longSaturdays : list Q := [0; 4; 4; 4; 4; 4; 41 # 10]%Q.
Definition twoHoursThree : list Q :=
  [205 # 100; 205 # 100; 205 # 100; 205 # 100; 205 # 100; 205 # 100; 205 # 100]%Q.

(** A plan whose three topics were completed three days before [monday]. *)
Definition threeDoneDb : Db :=
  {| study_plans := [samplePlan longSaturdays 82 false];
     topics := [sampleTopic 1 Concluido (Some (monday - 3));
                sampleTopic 2 Concluido (Some (monday - 3));
                sampleTopic 3 Concluido (Some (monday - 3))];
     study_sessions := [] |}.

(** The store without any row. *)
Definition emptyDb : Db :=
  {| study_plans := []; topics := []; study_sessions := [] |}.

(** The patches that complete a session and that set it back to pending. *)
Definition completePatch : SessionPatch :=
  {| patch_status := Some Concluido; patch_notes := None;
     patch_questions_solved := None |}.

Definition reopenPatch : SessionPatch :=
  {| patch_status := Some Pendente; patch_notes := None;
     patch_questions_solved := None |}.

(** * Properties *)

(** ** Rounding to the nearest double *)

Section Doubles.
Local Open Scope Q_scope.

Lemma Qmult_le_left (x y z : Q) : 0 <= z → x <= y → z * x <= z * y.
Proof.
  intros. rewrite (Qmult_comm z x), (Qmult_comm z y).
  by apply Qmult_le_compat_r.
Qed.

Lemma two_pos (z : Z) : 0 < 2 ^ z.
Proof. by apply Qpower_0_lt. Qed.

Lemma two_plus (a b : Z) : 2 ^ (a + b) == 2 ^ a * 2 ^ b.
Proof. by apply Qpower_plus. Qed.

Lemma two_le (a b : Z) : (a <= b)%Z → 2 ^ a <= 2 ^ b.
Proof. intros. by apply Qpower_le_compat_l. Qed.

Lemma two_lt (a b : Z) : (a < b)%Z → 2 ^ a < 2 ^ b.
Proof. intros. by apply Qpower_lt_compat_l. Qed.

Lemma two_lt_inv (a b : Z) : 2 ^ a < 2 ^ b → (a < b)%Z.
Proof. intros. by eapply Qpower_lt_compat_l_inv. Qed.

Lemma two_Z (n : Z) : (0 <= n)%Z → inject_Z (2 ^ n) == 2 ^ n.
Proof. intros. by rewrite Zpower_Qpower. Qed.

Lemma two_split (a b : Z) : 2 ^ a == 2 ^ (a - b) * 2 ^ b.
Proof. rewrite <- two_plus. by replace (a - b + b)%Z with a by lia. Qed.

Lemma roundHalfEven_cases x :
  roundHalfEven x = Qfloor x ∧ x - inject_Z (Qfloor x) <= 1 # 2 ∨
  roundHalfEven x = (Qfloor x + 1)%Z ∧ 1 # 2 <= x - inject_Z (Qfloor x).
Proof.
  unfold roundHalfEven; cbv zeta.
  destruct (Qcompare_spec (x - inject_Z (Qfloor x)) (1 # 2)) as [E|E|E].
  - destruct (Z.even _); [left|right]; (split; [done|]); rewrite E;
      apply Qle_refl.
  - left; split; [done|]. by apply Qlt_le_weak.
  - right; split; [done|]. by apply Qlt_le_weak.
Qed.

Lemma roundHalfEven_lo x : x - (1 # 2) <= inject_Z (roundHalfEven x).
Proof.
  pose proof (Qlt_floor x) as H. rewrite inject_Z_plus in H.
  change (inject_Z 1) with 1 in H.
  destruct (roundHalfEven_cases x) as [[-> ?]|[-> ?]];
    rewrite ?inject_Z_plus; change (inject_Z 1) with 1; lra.
Qed.

Lemma roundHalfEven_hi x : inject_Z (roundHalfEven x) <= x + (1 # 2).
Proof.
  pose proof (Qfloor_le x) as H.
  destruct (roundHalfEven_cases x) as [[-> ?]|[-> ?]];
    rewrite ?inject_Z_plus; change (inject_Z 1) with 1; lra.
Qed.

Lemma roundHalfEven_ge (k : Z) x : inject_Z k <= x → (k <= roundHalfEven x)%Z.
Proof.
  intros H. apply Qfloor_resp_le in H. rewrite Qfloor_Z in H.
  destruct (roundHalfEven_cases x) as [[-> _]|[-> _]]; lia.
Qed.

Lemma roundHalfEven_le (k : Z) x : x <= inject_Z k → (roundHalfEven x <= k)%Z.
Proof.
  intros H. destruct (roundHalfEven_cases x) as [[-> _]|[-> H']].
  - rewrite Zle_Qle. pose proof (Qfloor_le x). lra.
  - assert (inject_Z (Qfloor x) < inject_Z k) as H2 by lra.
    rewrite <- Zlt_Qlt in H2. lia.
Qed.

Lemma roundHalfEven_Z (k : Z) : roundHalfEven (inject_Z k) = k.
Proof.
  apply Z.le_antisymm; [apply roundHalfEven_le|apply roundHalfEven_ge];
    apply Qle_refl.
Qed.

Lemma log2floor_spec x :
  0 < x → 2 ^ log2floor x <= x ∧ x < 2 ^ (log2floor x + 1).
Proof.
  intros Hx. destruct x as [p q].
  assert (0 < p)%Z as Hp by (unfold Qlt in Hx; simpl in Hx; lia).
  unfold log2floor; simpl Qnum; simpl Qden.
  pose proof (Z.log2_spec p Hp) as [Ha1 Ha2].
  pose proof (Z.log2_spec (Zpos q) ltac:(lia)) as [Hb1 Hb2].
  pose proof (Z.log2_nonneg p) as Ha0.
  pose proof (Z.log2_nonneg (Zpos q)) as Hb0.
  set (a := Z.log2 p) in *. set (b := Z.log2 (Zpos q)) in *.
  rewrite Zle_Qle, two_Z in Ha1, Hb1 by done.
  rewrite Zlt_Qlt, two_Z in Ha2, Hb2 by lia.
  unfold Z.succ in Ha2, Hb2. rewrite two_plus in Ha2, Hb2.
  change (2 ^ 1) with 2 in Ha2, Hb2.
  assert (p # q == inject_Z p / inject_Z (Zpos q)) as Hpq by apply Qmake_Qdiv.
  assert (0 < inject_Z (Zpos q)) as Hq by done.
  assert ((p # q) * inject_Z (Zpos q) == inject_Z p) as Hmul.
  { rewrite Hpq. field. lra. }
  pose proof (two_split a b) as Hab.
  pose proof (two_pos a) as HA. pose proof (two_pos b) as HB.
  pose proof (two_pos (a - b)) as HE.
  revert Hmul Ha1 Ha2 Hb1 Hb2 Hab HA HB HE Hq.
  generalize (inject_Z p) (inject_Z (Zpos q)) (2 ^ a) (2 ^ b).
  intros P D A B Hmul Ha1 Ha2 Hb1 Hb2 Hab HA HB HE Hq.
  destruct (Qle_bool (2 ^ (a - b)) (p # q)) eqn:Ht.
  - apply Qle_bool_iff in Ht. split; [done|].
    rewrite two_plus. change (2 ^ 1) with 2.
    revert Ht Hab HE Hmul. generalize (2 ^ (a - b)) (p # q).
    intros E x Ht Hab HE Hmul.
    destruct (Qlt_le_dec x (E * 2)) as [|Hc]; [done|exfalso].
    assert (E * 2 * D <= x * D) by (apply Qmult_le_compat_r; lra).
    assert (E * B <= E * D) by (apply Qmult_le_l; lra).
    lra.
  - assert (p # q < 2 ^ (a - b)) as Hlt.
    { apply Qnot_le_lt. intros Hc. apply Qle_bool_iff in Hc. congruence. }
    replace (a - b - 1 + 1)%Z with (a - b)%Z by lia. split; [|done].
    assert (2 ^ (a - b) == 2 ^ (a - b - 1) * 2) as HE2.
    { rewrite (two_split (a - b) (a - b - 1)).
      replace (a - b - (a - b - 1))%Z with 1%Z by lia.
      change (2 ^ 1) with 2. ring. }
    pose proof (two_pos (a - b - 1)) as HF.
    revert Hlt HE2 HF Hab HE Hmul. generalize (2 ^ (a - b)) (2 ^ (a - b - 1)) (p # q).
    intros E F x Hlt HE2 HF Hab HE Hmul.
    destruct (Qlt_le_dec x F) as [Hc|]; [exfalso|done].
    assert (x * D < F * D) by (apply Qmult_lt_compat_r; lra).
    assert (F * D < F * (B * 2)) by (apply Qmult_lt_l; lra).
    rewrite HE2 in Hab. lra.
Qed.

Lemma log2floor_unique x (e : Z) :
  2 ^ e <= x → x < 2 ^ (e + 1) → log2floor x = e.
Proof.
  intros H1 H2.
  assert (0 < x) as Hx by (pose proof (two_pos e); lra).
  destruct (log2floor_spec x Hx) as [H3 H4].
  assert (2 ^ e < 2 ^ (log2floor x + 1)) as H5 by lra.
  assert (2 ^ log2floor x < 2 ^ (e + 1)) as H6 by lra.
  apply two_lt_inv in H5, H6. lia.
Qed.

Lemma Qabs_positive x : 0 < x → Qabs x = x.
Proof.
  destruct x as [p q]. unfold Qlt; simpl. intros H.
  by rewrite Z.abs_eq by lia.
Qed.

Lemma roundNearest_0 x : x == 0 → roundNearest x = 0.
Proof.
  intros H. unfold roundNearest. apply Qeq_bool_iff in H. by rewrite H.
Qed.

Lemma roundNearest_eq x :
  ¬ x == 0 →
  roundNearest x ==
    inject_Z (roundHalfEven (x / 2 ^ quantum x)) * 2 ^ quantum x.
Proof.
  intros H. unfold roundNearest.
  destruct (Qeq_bool x 0) eqn:E; [by apply Qeq_bool_iff in E|].
  apply Qred_correct.
Qed.

Lemma quantum_spec x :
  0 < x →
  (-1074 <= quantum x)%Z ∧ 0 < x / 2 ^ quantum x ∧
  x / 2 ^ quantum x < 2 ^ 53 ∧
  ((-1074 < quantum x)%Z →
   quantum x = (log2floor x - 52)%Z ∧ 2 ^ 52 <= x / 2 ^ quantum x).
Proof.
  intros Hx. unfold quantum. rewrite (Qabs_positive x Hx).
  destruct (log2floor_spec x Hx) as [H1 H2].
  set (l := log2floor x) in *. set (q := Z.max (l - 52) (-1074)).
  pose proof (two_pos q) as Hq.
  split; [lia|]. split; [|split].
  - apply Qlt_shift_div_l; [done|]. lra.
  - apply Qlt_shift_div_r; [done|]. rewrite <- two_plus.
    pose proof (two_le (l + 1) (53 + q) ltac:(lia)). lra.
  - intros Hc. split; [lia|]. apply Qle_shift_div_l; [done|].
    rewrite <- two_plus. by replace (52 + q)%Z with l by lia.
Qed.

(** A number [m * 2 ^ c] with [m] below [2 ^ 53] and [c] from [-1074] on
    is a double; rounding crosses no double. *)
Lemma roundNearest_ge (m c : Z) x :
  (m < 2 ^ 53)%Z → (-1074 <= c)%Z → 0 < x →
  inject_Z m * 2 ^ c <= x → inject_Z m * 2 ^ c <= roundNearest x.
Proof.
  intros Hm Hc Hx Hr. rewrite (roundNearest_eq x) by lra.
  destruct (quantum_spec x Hx) as (Hq & Hs0 & Hs1 & Hs2).
  set (q := quantum x) in *. set (s := x / 2 ^ q) in *.
  pose proof (two_pos q) as Hq0.
  destruct (Z_le_gt_dec q c) as [Hqc|Hqc].
  - assert (inject_Z m * 2 ^ c == inject_Z (m * 2 ^ (c - q)) * 2 ^ q) as ->.
    { rewrite inject_Z_mult, two_Z by lia. rewrite (two_split c q). ring. }
    apply Qmult_le_compat_r; [|lra]. rewrite <- Zle_Qle.
    apply roundHalfEven_ge. apply Qle_shift_div_l; [done|].
    rewrite inject_Z_mult, two_Z by lia.
    rewrite <- Qmult_assoc, <- two_split. done.
  - destruct Hs2 as [_ Hs2]; [lia|].
    assert (2 ^ 52 <= roundHalfEven s)%Z as Hr2.
    { apply roundHalfEven_ge. by rewrite two_Z. }
    rewrite Zle_Qle, two_Z in Hr2 by done.
    assert (inject_Z m <= 2 ^ 53) as Hm'.
    { rewrite <- two_Z, <- Zle_Qle by done. lia. }
    pose proof (two_le (53 + c) (52 + q) ltac:(lia)) as Hp.
    rewrite !two_plus in Hp. pose proof (two_pos c) as Hc0.
    assert (inject_Z m * 2 ^ c <= 2 ^ 53 * 2 ^ c)
      by (apply Qmult_le_compat_r; lra).
    assert (2 ^ 52 * 2 ^ q <= inject_Z (roundHalfEven s) * 2 ^ q)
      by (apply Qmult_le_compat_r; lra).
    lra.
Qed.

Lemma roundNearest_le (m c : Z) x :
  (m < 2 ^ 53)%Z → (-1074 <= c)%Z → 0 < x →
  x <= inject_Z m * 2 ^ c → roundNearest x <= inject_Z m * 2 ^ c.
Proof.
  intros Hm Hc Hx Hr. rewrite (roundNearest_eq x) by lra.
  destruct (quantum_spec x Hx) as (Hq & Hs0 & Hs1 & Hs2).
  set (q := quantum x) in *. set (s := x / 2 ^ q) in *.
  pose proof (two_pos q) as Hq0.
  destruct (Z_le_gt_dec q c) as [Hqc|Hqc].
  - assert (inject_Z m * 2 ^ c == inject_Z (m * 2 ^ (c - q)) * 2 ^ q) as ->.
    { rewrite inject_Z_mult, two_Z by lia. rewrite (two_split c q). ring. }
    apply Qmult_le_compat_r; [|lra]. rewrite <- Zle_Qle.
    apply roundHalfEven_le. apply Qle_shift_div_r; [done|].
    rewrite inject_Z_mult, two_Z by lia.
    rewrite <- Qmult_assoc, <- two_split. done.
  - exfalso. destruct Hs2 as [_ Hs2]; [lia|].
    assert (2 ^ 52 * 2 ^ q <= x) as Hx2.
    { unfold s in Hs2. apply (Qmult_le_compat_r _ _ (2 ^ q)) in Hs2; [|lra].
      revert Hs2. field_simplify (x / 2 ^ q * 2 ^ q); [|lra].
      intros Hs2. lra. }
    assert (inject_Z m < 2 ^ 53) as Hm'.
    { rewrite <- two_Z, <- Zlt_Qlt by done. lia. }
    pose proof (two_le (53 + c) (52 + q) ltac:(lia)) as Hp.
    rewrite !two_plus in Hp. pose proof (two_pos c) as Hc0.
    assert (inject_Z m * 2 ^ c < 2 ^ 53 * 2 ^ c)
      by (apply Qmult_lt_compat_r; lra).
    lra.
Qed.

Lemma roundNearest_nonneg x : 0 <= x → 0 <= roundNearest x.
Proof.
  intros Hx. destruct (Qeq_dec x 0) as [E|E].
  - rewrite (roundNearest_0 x E). apply Qle_refl.
  - assert (0 < x) as Hx' by (destruct (Qlt_le_dec 0 x); [done|]; exfalso; apply E; lra).
    pose proof (roundNearest_ge 0 0 x ltac:(done) ltac:(done) Hx') as H.
    change (inject_Z 0 * 2 ^ 0) with (0 * 1) in H. lra.
Qed.

Lemma roundNearest_nonpos x : x <= 0 → roundNearest x <= 0.
Proof.
  intros Hx. destruct (Qeq_dec x 0) as [E|E].
  - rewrite (roundNearest_0 x E). apply Qle_refl.
  - rewrite (roundNearest_eq x E). pose proof (two_pos (quantum x)) as Hq.
    assert (roundHalfEven (x / 2 ^ quantum x) <= 0)%Z as H.
    { apply roundHalfEven_le. apply Qle_shift_div_r; [done|].
      change (inject_Z 0) with 0. lra. }
    rewrite Zle_Qle in H. change (inject_Z 0) with 0 in H.
    assert (inject_Z (roundHalfEven (x / 2 ^ quantum x)) * 2 ^ quantum x
            <= 0 * 2 ^ quantum x) by (apply Qmult_le_compat_r; lra).
    lra.
Qed.

(** A double is left as it is. *)
Lemma roundNearest_double (m c : Z) x :
  (0 <= m < 2 ^ 53)%Z → (-1074 <= c)%Z → x == inject_Z m * 2 ^ c →
  roundNearest x == x.
Proof.
  intros Hm Hc Hx. destruct (Qeq_dec x 0) as [E|E].
  - rewrite (roundNearest_0 x E). by symmetry.
  - assert (0 <= inject_Z m) as Hm0 by (rewrite <- (Zle_Qle 0); lia).
    pose proof (two_pos c) as Hc0.
    assert (0 <= inject_Z m * 2 ^ c) by (apply Qmult_le_0_compat; lra).
    assert (0 < x) as Hx'
      by (destruct (Qlt_le_dec 0 x); [done|]; exfalso; apply E; lra).
    apply Qle_antisym.
    + rewrite Hx at 2. apply roundNearest_le; [lia|done|done|lra].
    + rewrite Hx at 1. apply roundNearest_ge; [lia|done|done|lra].
Qed.

Lemma roundNearest_Z (z : Z) :
  (0 <= z < 2 ^ 53)%Z → roundNearest (inject_Z z) == inject_Z z.
Proof.
  intros Hz. apply (roundNearest_double z 0); [done..|].
  change (2 ^ 0) with 1. ring.
Qed.

Lemma Qfloor_unique (k : Z) x :
  inject_Z k <= x → x < inject_Z (k + 1) → Qfloor x = k.
Proof.
  intros H1 H2. apply Qfloor_resp_le in H1. rewrite Qfloor_Z in H1.
  pose proof (Qfloor_le x) as H3.
  assert (inject_Z (Qfloor x) < inject_Z (k + 1)) as H4 by lra.
  rewrite <- Zlt_Qlt in H4. lia.
Qed.

Lemma inject_Z_pos (z : Z) : (0 < z)%Z → 0 < inject_Z z.
Proof. intros. change 0 with (inject_Z 0). by rewrite <- Zlt_Qlt. Qed.

Lemma inject_Z_nonneg (z : Z) : (0 <= z)%Z → 0 <= inject_Z z.
Proof. intros. change 0 with (inject_Z 0). by rewrite <- Zle_Qle. Qed.

Lemma inject_Z_ge_1 (z : Z) : (1 <= z)%Z → 1 <= inject_Z z.
Proof. intros. change 1 with (inject_Z 1). by rewrite <- Zle_Qle. Qed.

Lemma smallDouble_bounds M : smallDouble M → 0 <= M ∧ M < 2 ^ 53.
Proof.
  intros (m & c & (Hm & Hc) & HM). rewrite HM.
  pose proof (two_pos c) as Hc0. pose proof (two_le c 0 ltac:(lia)) as Hc1.
  change (2 ^ 0) with 1 in Hc1.
  pose proof (inject_Z_nonneg m ltac:(lia)) as Hm0.
  assert (inject_Z m < 2 ^ 53) as Hm1.
  { rewrite <- two_Z, <- Zlt_Qlt by done. lia. }
  split; [apply Qmult_le_0_compat; lra|].
  assert (inject_Z m * 2 ^ c <= inject_Z m * 1)
    by (apply Qmult_le_left; lra).
  lra.
Qed.

Lemma smallDouble_Z (z : Z) : (0 <= z < 2 ^ 53)%Z → smallDouble (inject_Z z).
Proof.
  intros Hz. exists z, 0%Z. split; [lia|]. change (2 ^ 0) with 1. ring.
Qed.

Lemma smallDouble_fixed M : smallDouble M → roundNearest M == M.
Proof.
  intros (m & c & (Hm & Hc) & HM).
  apply (roundNearest_double m c); [lia..|done].
Qed.

(** Every number from 0 to below [2 ^ 52] rounds to a small double. *)
Lemma roundNearest_small y :
  0 <= y → y < 2 ^ 52 → smallDouble (roundNearest y).
Proof.
  intros Hy0 Hy1. destruct (Qeq_dec y 0) as [E|E].
  { rewrite (roundNearest_0 y E). exists 0%Z, 0%Z. split; [lia|]. ring. }
  assert (0 < y) as Hy
    by (destruct (Qlt_le_dec 0 y); [done|]; exfalso; apply E; lra).
  destruct (quantum_spec y Hy) as (Hq & Hs0 & Hs1 & Hs2).
  destruct (log2floor_spec y Hy) as [Hl _].
  assert (log2floor y < 52)%Z as Hl52 by (apply two_lt_inv; lra).
  assert (quantum y <= -1)%Z as Hq1.
  { unfold quantum. rewrite (Qabs_positive y Hy). lia. }
  set (q := quantum y) in *. set (s := y / 2 ^ q) in *.
  assert (0 <= roundHalfEven s)%Z as Hr0
    by (apply roundHalfEven_ge; change (inject_Z 0) with 0; lra).
  assert (roundHalfEven s <= 2 ^ 53)%Z as Hr1.
  { apply roundHalfEven_le. rewrite two_Z by done. lra. }
  destruct (Z.eq_dec (roundHalfEven s) (2 ^ 53)) as [Hr|Hr].
  - exists (2 ^ 52)%Z, (q + 1)%Z. split; [lia|].
    rewrite (roundNearest_eq y E). fold q s. rewrite Hr.
    rewrite !two_Z, two_plus by done.
    change (2 ^ 53) with (2 ^ 52 * 2 ^ 1). ring.
  - exists (roundHalfEven s), q. split; [lia|].
    by rewrite (roundNearest_eq y E).
Qed.

(** Division of a small double by a whole number: the quotient the machine
    rounds reaches a whole number [n] exactly when the true quotient does. *)
Lemma division_floor M (d n : Z) :
  smallDouble M → (1 <= d)%Z → (1 <= n)%Z →
  inject_Z n <= roundNearest (M / inject_Z d) ↔ inject_Z (n * d) <= M.
Proof.
  intros HM Hd Hn. destruct (smallDouble_bounds M HM) as [HM0 HM1].
  destruct HM as (m & c & (Hm & Hc) & HM).
  pose proof (inject_Z_ge_1 d Hd) as Hd1.
  pose proof (inject_Z_ge_1 n Hn) as Hn1.
  pose proof (two_pos c) as Hc0. rewrite inject_Z_mult.
  destruct (Qeq_dec M 0) as [E|E].
  { assert (M / inject_Z d == 0) as E' by (rewrite E; field; lra).
    rewrite (roundNearest_0 _ E').
    assert (1 * 1 <= inject_Z n * inject_Z d)
      by (apply Qmult_le_compat_nonneg; lra).
    split; intros; lra. }
  assert (0 < M) as HMpos
    by (destruct (Qlt_le_dec 0 M); [done|]; exfalso; apply E; lra).
  set (x := M / inject_Z d).
  assert (x * inject_Z d == M) as Hxd by (unfold x; field; lra).
  assert (0 < x) as Hx by (apply Qlt_shift_div_l; lra).
  assert (x <= M) as HxM.
  { apply Qle_shift_div_r; [lra|].
    assert (M * 1 <= M * inject_Z d) by (apply Qmult_le_left; lra). lra. }
  split.
  - intros Hle.
    destruct (Qlt_le_dec M (inject_Z n * inject_Z d)) as [Hlt|]; [exfalso|done].
    assert (M + 2 ^ c <= inject_Z n * inject_Z d) as Hgap.
    { assert (inject_Z n * inject_Z d ==
              inject_Z (n * d * 2 ^ (- c)) * 2 ^ c) as HK.
      { rewrite !inject_Z_mult, two_Z by lia.
        rewrite <- !Qmult_assoc, <- two_plus.
        replace (- c + c)%Z with 0%Z by lia. change (2 ^ 0) with 1. ring. }
      rewrite HK in Hlt |- *. rewrite HM in Hlt |- *.
      assert (m < n * d * 2 ^ (- c))%Z as HZ.
      { rewrite Zlt_Qlt. by apply Qmult_lt_r in Hlt. }
      assert (inject_Z (m + 1) <= inject_Z (n * d * 2 ^ (- c))) as HZ'
        by (rewrite <- Zle_Qle; lia).
      rewrite inject_Z_plus in HZ'. change (inject_Z 1) with 1 in HZ'.
      assert ((inject_Z m + 1) * 2 ^ c <=
              inject_Z (n * d * 2 ^ (- c)) * 2 ^ c)
        by (apply Qmult_le_compat_r; lra).
      lra. }
    rewrite (roundNearest_eq x) in Hle by lra.
    destruct (quantum_spec x Hx) as (Hq & Hs0 & Hs1 & Hs2).
    set (q := quantum x) in *. set (s := x / 2 ^ q) in *.
    pose proof (two_pos q) as Hq0.
    assert (s * 2 ^ q == x) as Hsq by (unfold s; field; lra).
    assert (inject_Z n <= x + (1 # 2) * 2 ^ q) as Hnx.
    { pose proof (roundHalfEven_hi s) as Hhi.
      assert (inject_Z (roundHalfEven s) * 2 ^ q <= (s + (1 # 2)) * 2 ^ q)
        by (apply Qmult_le_compat_r; lra).
      lra. }
    assert (2 ^ c <= (1 # 2) * 2 ^ q * inject_Z d) as Hcq.
    { assert ((inject_Z n - x) * inject_Z d <=
              (1 # 2) * 2 ^ q * inject_Z d)
        by (apply Qmult_le_compat_r; lra).
      lra. }
    destruct (Z.eq_dec q (-1074)) as [Hq1|Hq1].
    + pose proof (two_le q (-54) ltac:(lia)) as Hp1.
      pose proof (two_le (-54) 0 ltac:(lia)) as Hp2.
      change (2 ^ 0) with 1 in Hp2.
      assert (2 ^ 53 * 2 ^ (-54) == 1 # 2) as Hp3 by reflexivity.
      assert (s * 2 ^ q <= 2 ^ 53 * 2 ^ q)
        by (apply Qmult_le_compat_r; lra).
      pose proof (two_pos 53).
      assert (2 ^ 53 * 2 ^ q <= 2 ^ 53 * 2 ^ (-54))
        by (apply Qmult_le_left; lra).
      lra.
    + destruct Hs2 as [_ Hs2]; [lia|].
      assert (2 ^ 52 * 2 ^ q <= s * 2 ^ q)
        by (apply Qmult_le_compat_r; lra).
      assert (2 ^ 52 * 2 ^ q * inject_Z d <= x * inject_Z d)
        by (apply Qmult_le_compat_r; lra).
      assert (inject_Z m < 2 ^ 53) as Hm1.
      { rewrite <- two_Z, <- Zlt_Qlt by done. lia. }
      assert (inject_Z m * 2 ^ c < 2 ^ 53 * 2 ^ c)
        by (apply Qmult_lt_compat_r; lra).
      assert (2 ^ 52 * 2 ^ c <= 2 ^ 52 * ((1 # 2) * 2 ^ q * inject_Z d))
        by (apply Qmult_le_left; [apply Qlt_le_weak, two_pos|lra]).
      change (2 ^ 53) with (2 * 2 ^ 52) in *.
      set (P := 2 ^ 52) in *. clearbody P. lra.
  - intros Hle.
    assert (inject_Z n <= x) as Hnx by (apply Qle_shift_div_l; lra).
    assert (n < 2 ^ 53)%Z as Hn53.
    { rewrite Zlt_Qlt, two_Z by done. lra. }
    pose proof (roundNearest_ge n 0 x Hn53 ltac:(done) Hx) as H.
    change (2 ^ 0) with 1 in H. rewrite Qmult_1_r in H. by apply H.
Qed.

(** [Math.floor(M / d)] is the whole part of the true quotient. *)
Lemma floor_division M (d : Z) :
  smallDouble M → (1 <= d)%Z →
  Qfloor (roundNearest (M / inject_Z d)) = Qfloor (M / inject_Z d).
Proof.
  intros HM Hd. destruct (smallDouble_bounds M HM) as [HM0 HM1].
  pose proof (inject_Z_ge_1 d Hd) as Hd1.
  set (x := M / inject_Z d).
  assert (x * inject_Z d == M) as Hxd by (unfold x; field; lra).
  assert (0 <= x) as Hx by (apply Qle_shift_div_l; lra).
  pose proof (Qfloor_le x) as Hf1. pose proof (Qlt_floor x) as Hf2.
  assert (0 <= Qfloor x)%Z as Hk.
  { change 0%Z with (Qfloor 0). by apply Qfloor_resp_le. }
  apply Qfloor_unique.
  - destruct (Z.eq_dec (Qfloor x) 0) as [->|Hk0].
    + by apply roundNearest_nonneg.
    + apply division_floor; [done|done|lia|]. rewrite inject_Z_mult.
      assert (inject_Z (Qfloor x) * inject_Z d <= x * inject_Z d)
        by (apply Qmult_le_compat_r; lra).
      lra.
  - apply Qnot_le_lt. intros Hc.
    apply division_floor in Hc; [|done|done|lia].
    rewrite inject_Z_mult in Hc.
    assert (inject_Z (Qfloor x + 1) <= x) by (apply Qle_shift_div_l; lra).
    lra.
Qed.

Lemma toDouble_le (h : Q) (z : Z) :
  (0 <= z < 2 ^ 53)%Z → h <= inject_Z z → toDouble h <= inject_Z z.
Proof.
  intros Hz Hh. unfold toDouble. destruct (Qlt_le_dec 0 h) as [Hpos|Hneg].
  - pose proof (roundNearest_le z 0 h ltac:(lia) ltac:(done) Hpos) as H.
    change (2 ^ 0) with 1 in H. rewrite Qmult_1_r in H. by apply H.
  - pose proof (roundNearest_nonpos h Hneg).
    pose proof (inject_Z_nonneg z ltac:(lia)). lra.
Qed.

Lemma toDouble_positive (h : Q) : 0 < toDouble h → 0 < h.
Proof.
  intros H. destruct (Qlt_le_dec 0 h) as [|Hneg]; [done|].
  pose proof (roundNearest_nonpos h Hneg). unfold toDouble in H. lra.
Qed.

(** Up to [2 ^ 46] hours the minutes of a day are a small double. *)
Lemma minutesOf_small (h : Q) :
  0 <= h → h <= 2 ^ 46 → smallDouble (minutesOf h).
Proof.
  intros H0 H1. apply roundNearest_small; [lra|].
  change (2 ^ 52) with (64 * 2 ^ 46). pose proof (two_pos 46). lra.
Qed.

(** The session count of a day is the whole part of the true quotient of
    its minutes, the double [hours * 60], by the session duration. *)
Lemma maxSessionsFor_floor (h : Q) (d : Z) :
  0 <= h → h <= 2 ^ 46 → (1 <= d)%Z →
  maxSessionsFor h d = Qfloor (minutesOf h / inject_Z d).
Proof.
  intros H0 H1 Hd. unfold maxSessionsFor.
  apply floor_division; [by apply minutesOf_small|done].
Qed.

Lemma maxSessionsFor_le (h : Q) (d n : Z) :
  0 <= h → h <= 2 ^ 46 → (1 <= d)%Z →
  (n <= maxSessionsFor h d)%Z ↔ inject_Z (n * d) <= minutesOf h.
Proof.
  intros H0 H1 Hd. rewrite (maxSessionsFor_floor h d H0 H1 Hd).
  pose proof (inject_Z_ge_1 d Hd) as Hd1.
  destruct (smallDouble_bounds _ (minutesOf_small h H0 H1)) as [HM _].
  set (M := minutesOf h) in *. set (x := M / inject_Z d).
  assert (x * inject_Z d == M) as Hxd by (unfold x; field; lra).
  pose proof (Qfloor_le x) as Hf1. pose proof (Qlt_floor x) as Hf2.
  rewrite inject_Z_mult. split.
  - intros Hn. rewrite Zle_Qle in Hn.
    assert (inject_Z n * inject_Z d <= x * inject_Z d)
      by (apply Qmult_le_compat_r; lra).
    lra.
  - intros Hn. assert (inject_Z n <= x) as Hnx
      by (apply Qle_shift_div_l; lra).
    apply Qfloor_resp_le in Hnx. by rewrite Qfloor_Z in Hnx.
Qed.

(** Whole hours: the minutes are exact and the session count is the
    quotient of whole numbers. *)
Lemma minutesOf_whole (h : Q) (z : Z) :
  (0 <= z < 2 ^ 46)%Z → h == inject_Z z → minutesOf h == inject_Z (z * 60).
Proof.
  intros Hz Hh. unfold minutesOf.
  assert (h * 60 == inject_Z (z * 60) * 2 ^ 0) as E.
  { rewrite Hh, inject_Z_mult. change (2 ^ 0) with 1.
    change (inject_Z 60) with 60. ring. }
  rewrite (roundNearest_double (z * 60) 0 _ ltac:(lia) ltac:(done) E), E.
  change (2 ^ 0) with 1. ring.
Qed.

Lemma maxSessionsFor_whole (h : Q) (z d : Z) :
  (0 <= z < 2 ^ 46)%Z → h == inject_Z z → (1 <= d)%Z →
  maxSessionsFor h d = (z * 60 / d)%Z.
Proof.
  intros Hz Hh Hd.
  pose proof (inject_Z_nonneg z ltac:(lia)) as Hz0.
  assert (inject_Z z <= 2 ^ 46) as Hz1.
  { rewrite <- two_Z, <- Zle_Qle by done. lia. }
  rewrite maxSessionsFor_floor by (done || lra).
  rewrite Zdiv_Qdiv. apply Qfloor_comp.
  by rewrite (minutesOf_whole h z).
Qed.

End Doubles.

Example getDay_monday : getDay monday = 1 ∧ getDay sunday = 0 ∧ getDay 0 = 4.
Proof. done. Qed.

Example capacity_four_hours_fifty_minutes :
  capacity defaultHours 50 monday = 4 ∧ capacity defaultHours 50 sunday = 0.
Proof. done. Qed.

Example parseInt10_samples :
  parseInt10 (1 # 2) = 0 ∧ parseInt10 4 = 4 ∧ parseInt10 (7 # 2) = 3.
Proof. done. Qed.

Section AvailabilityFacts.

Context (hours : list Q) (sessionDuration : Z).

Lemma Qpositive_iff (h : Q) : Qpositive h = true ↔ (0 < h)%Q.
Proof.
  unfold Qpositive. rewrite negb_true_iff.
  split.
  - intros H. apply Qnot_le_lt. intros Hle.
    apply Qle_bool_iff in Hle. congruence.
  - intros H. destruct (Qle_bool h 0) eqn:E; [|done].
    apply Qle_bool_iff in E. exfalso. eapply Qlt_not_le; eauto.
Qed.

Lemma eligible_test (w : bool) (d : Z) :
  negb (w && ((getDay d =? 0) || (getDay d =? 6)))
  && Qpositive (hoursFor hours (getDay d)) = true
  ↔ eligible hours w d.
Proof.
  unfold eligible, available.
  rewrite andb_true_iff, negb_true_iff, Qpositive_iff.
  destruct w; simpl.
  - rewrite orb_false_iff, !Z.eqb_neq. split.
    + intros [? ?]. split; [done|]. intros _. done.
    + intros [? Hw]. split; [by apply Hw|done].
  - split.
    + intros [_ ?]. split; [done|]. intros ?. done.
    + intros [? _]. done.
Qed.

Lemma scanDates_elem fuel cur e w info :
  info ∈ scanDates hours sessionDuration fuel cur e w
  ↔ ∃ d, info = dateInfoOf hours sessionDuration d
         ∧ cur ≤ d ≤ e ∧ d < cur + Z.of_nat fuel ∧ eligible hours w d.
Proof.
  revert cur. induction fuel as [|fuel IH]; intros cur; simpl.
  - split; [by intros ?%elem_of_nil|]. intros (d & _ & ? & ? & _). lia.
  - destruct (Z.leb_spec cur e) as [Hle|Hgt].
    + pose proof (eligible_test w cur) as Hel.
      destruct (negb _ && _) eqn:E.
      * rewrite elem_of_cons, IH. split.
        -- intros [->|(d & -> & ? & ? & ?)].
           ++ exists cur. split; [done|]. split; [lia|]. split; [lia|].
              by apply Hel.
           ++ exists d. split_and!; try done; lia.
        -- intros (d & -> & ? & ? & ?).
           destruct (decide (d = cur)) as [->|Hne]; [by left|].
           right. exists d. split_and!; try done; lia.
      * rewrite IH. split.
        -- intros (d & -> & ? & ? & ?). exists d. split_and!; try done; lia.
        -- intros (d & -> & ? & ? & Hd).
           destruct (decide (d = cur)) as [->|Hne].
           ++ apply Hel in Hd. done.
           ++ exists d. split_and!; try done; lia.
    + split; [by intros ?%elem_of_nil|]. intros (d & _ & ? & ? & _). lia.
Qed.

Lemma computeDates_elem s e w info :
  info ∈ computeDates hours sessionDuration s e w
  ↔ ∃ d, info = dateInfoOf hours sessionDuration d ∧ s ≤ d ≤ e ∧ eligible hours w d.
Proof.
  unfold computeDates. rewrite scanDates_elem. split.
  - intros (d & ? & ? & ? & ?). exists d. done.
  - intros (d & ? & ? & ?). exists d. split_and!; try done; lia.
Qed.

Lemma scanDates_sorted fuel cur e w :
  StronglySorted (λ x y, date x < date y)
                 (scanDates hours sessionDuration fuel cur e w).
Proof.
  revert cur. induction fuel as [|fuel IH]; intros cur; simpl.
  - constructor.
  - destruct (cur <=? e); [|constructor].
    destruct (negb _ && _); [|apply IH].
    constructor; [apply IH|].
    apply Forall_forall. intros x Hx.
    apply scanDates_elem in Hx as (d & -> & ? & ? & ?). simpl. lia.
Qed.

Lemma sorted_map_date (l : list DateInfo) :
  StronglySorted (λ x y, date x < date y) l → StronglySorted Z.lt (map date l).
Proof.
  induction 1 as [|x l Hl IH Hx]; simpl; constructor; [done|].
  by apply Forall_fmap.
Qed.

Lemma computeDates_sorted s e w :
  StronglySorted (λ x y, date x < date y)
                 (computeDates hours sessionDuration s e w).
Proof. apply scanDates_sorted. Qed.

End AvailabilityFacts.

Section CacheFacts.

Context (hours : list Q) (sessionDuration : Z).

Lemma cache_ok_empty (from : Z) : cache_ok hours sessionDuration from ∅.
Proof. intros s e w l H. by rewrite lookup_empty in H. Qed.

Lemma cache_ok_weaken (from from' : Z) (c : Cache) :
  from ≤ from' →
  cache_ok hours sessionDuration from c → cache_ok hours sessionDuration from' c.
Proof. intros Hle Hok s e w l Hl Hs. eapply Hok; [done|lia]. Qed.

Lemma getAvailableDates_fst (from : Z) (c : Cache) (s e : Z) (w : bool) :
  cache_ok hours sessionDuration from c → from ≤ s →
  (getAvailableDates hours sessionDuration c s e w).1
  = computeDates hours sessionDuration s e w.
Proof.
  intros Hok Hs. unfold getAvailableDates.
  destruct (c !! (s, e, w)) as [l|] eqn:E; simpl; [|done].
  by eapply Hok.
Qed.

Lemma getAvailableDates_snd (from : Z) (c : Cache) (s e : Z) (w : bool) :
  cache_ok hours sessionDuration from c →
  cache_ok hours sessionDuration from
           (getAvailableDates hours sessionDuration c s e w).2.
Proof.
  intros Hok. unfold getAvailableDates.
  destruct (c !! (s, e, w)) as [l|] eqn:E; simpl; [done|].
  intros s' e' w' l' Hl Hs.
  destruct (decide ((s, e, w) = (s', e', w'))) as [Heq|Hne].
  - rewrite Heq, lookup_insert_eq in Hl. by simplify_eq.
  - rewrite lookup_insert_ne in Hl by done. by eapply Hok.
Qed.

End CacheFacts.

(** C5, as the code has it — Availability Index contract.  On a coherent
    cache and for a session duration other than 0 (the handler reads it
    through [|| 50]),
    [getAvailableDates start end weekdayOnly] returns exactly the dates of
    [start .. end] whose weekday has a positive hour allocation (Saturdays
    and Sundays left out when [weekdayOnly] is set), in strictly ascending
    order, each entry carrying its weekday and, as [maxSessions], the whole
    part of the double the machine computes for
    [(hours * 60) / sessionDuration].  For a day of at most [2 ^ 46] hours
    and a session of a minute or more that is the whole part of the true
    quotient of the day's minutes, the double [hours * 60], by the session
    duration; where the hours are a whole number it is the quotient of
    whole numbers [hours * 60 / sessionDuration] of the formula; four hours
    at fifty minutes give four sessions. *)
Theorem availableDates_contract
    (hours : list Q) (sessionDuration : Z) (c : Cache)
    (startDate endDate : Z) (weekdayOnly : bool) :
  sessionDuration ≠ 0 →
  cache_ok hours sessionDuration startDate c →
  let dates := (getAvailableDates hours sessionDuration c startDate endDate weekdayOnly).1 in
  (∀ d, d ∈ map date dates
        ↔ startDate ≤ d ≤ endDate
          ∧ (0 < hoursFor hours (getDay d))%Q
          ∧ (weekdayOnly = true → getDay d ≠ 0 ∧ getDay d ≠ 6))
  ∧ StronglySorted Z.lt (map date dates)
  ∧ Forall (λ i,
       let h := hoursFor hours (getDay (date i)) in
       dayOfWeek i = getDay (date i)
       ∧ maxSessions i
         = Qfloor (roundNearest (roundNearest (h * 60)
                                 / inject_Z sessionDuration))
       ∧ (1 ≤ sessionDuration → (h <= 2 ^ 46)%Q →
          maxSessions i
          = Qfloor (roundNearest (h * 60) / inject_Z sessionDuration)%Q)
       ∧ (∀ z, 1 ≤ sessionDuration → 0 ≤ z < 2 ^ 46 →
               (h == inject_Z z)%Q →
               maxSessions i = specMaxSessions h sessionDuration
               ∧ maxSessions i = z * 60 / sessionDuration)) dates
  ∧ maxSessionsFor 4 50 = 4.
Proof.
  intros _ Hok dates.
  assert (Hd : dates = computeDates hours sessionDuration startDate endDate weekdayOnly).
  { subst dates. eapply getAvailableDates_fst; [done|lia]. }
  rewrite Hd. split_and!.
  - intros d. rewrite list_elem_of_fmap. split.
    + intros (i & -> & Hi). apply computeDates_elem in Hi as (d & -> & ? & ? & ?).
      simpl. done.
    + intros (? & ? & ?). exists (dateInfoOf hours sessionDuration d).
      split; [done|]. apply computeDates_elem. exists d. done.
  - apply sorted_map_date, computeDates_sorted.
  - apply Forall_forall. intros i Hi.
    apply computeDates_elem in Hi as (d & -> & _ & Hav & _).
    unfold available in Hav. apply Qlt_le_weak in Hav. simpl.
    unfold capacity. split_and!; [done|done|..].
    + intros. by apply maxSessionsFor_floor.
    + intros z ? ? Hz. split; [|by apply maxSessionsFor_whole].
      unfold specMaxSessions.
      rewrite (maxSessionsFor_whole _ z) by done.
      rewrite Zdiv_Qdiv. apply Qfloor_comp.
      rewrite Hz, inject_Z_mult. done.
  - reflexivity.
Qed.

Section SlotFacts.

Context (hours : list Q) (sessionDuration today examDate : Z).

Local Abbreviation computeDates := (computeDates hours sessionDuration).
Local Abbreviation cache_ok := (cache_ok hours sessionDuration).
Local Abbreviation dateInfoOf := (dateInfoOf hours sessionDuration).
Local Abbreviation Spare := (spare hours sessionDuration).
Local Abbreviation FirstSlot := (firstSlot hours sessionDuration).
Local Abbreviation NoSlot := (noSlot hours sessionDuration).

Lemma firstFree_None (a : Agenda) (l : list DateInfo) (i : nat) :
  firstFree a l i = None →
  Forall (λ y, maxSessions y ≤ sessionsOn a (date y)) l.
Proof.
  revert i. induction l as [|x l IH]; intros i; simpl; [constructor|].
  destruct (Z.ltb_spec (sessionsOn a (date x)) (maxSessions x)); [done|].
  intros H'. constructor; [done|]. by eapply IH.
Qed.

Lemma firstFree_Some (a : Agenda) (l : list DateInfo) (i j : nat) (d : Z) :
  firstFree a l i = Some (j, d) →
  ∃ l1 x l2, l = l1 ++ x :: l2 ∧ j = (i + length l1)%nat ∧ date x = d
             ∧ sessionsOn a d < maxSessions x
             ∧ Forall (λ y, maxSessions y ≤ sessionsOn a (date y)) l1.
Proof.
  revert i. induction l as [|x l IH]; intros i; simpl; [done|].
  destruct (Z.ltb_spec (sessionsOn a (date x)) (maxSessions x)).
  - intros [= <- <-]. exists [], x, l. simpl. split_and!; try done; lia.
  - intros (l1 & y & l2 & -> & -> & ? & ? & ?)%IH.
    exists (x :: l1), y, l2. simpl. split_and!; try done; try lia.
    by constructor.
Qed.

(** The search over a sorted list that holds exactly the dates of
    [s .. e] satisfying [ok]. *)
Lemma firstFree_slot (a : Agenda) (ok : Z → Prop) (s e : Z) (l : list DateInfo) :
  (∀ info, info ∈ l ↔ ∃ d, info = dateInfoOf d ∧ s ≤ d ≤ e ∧ ok d) →
  StronglySorted (λ x y, date x < date y) l →
  match firstFree a l 0 with
  | Some (j, d) => FirstSlot a ok s e d ∧ l !! j = Some (dateInfoOf d)
  | None => NoSlot a ok s e
  end.
Proof.
  intros Hl Hs. destruct (firstFree a l 0) as [[j d]|] eqn:E.
  - apply firstFree_Some in E as (l1 & x & l2 & -> & -> & Hx & Hfree & Hfull).
    assert (Hin : x ∈ l1 ++ x :: l2) by (apply elem_of_app; right; left).
    apply Hl in Hin as (d0 & -> & Hr & Hok). simpl in Hx. subst d0.
    split.
    + split_and!; try done; try lia.
      intros d' Hd' Hok' Hsp.
      assert (Hin' : dateInfoOf d' ∈ l1 ++ dateInfoOf d :: l2).
      { apply Hl. exists d'. split_and!; try done; lia. }
      apply elem_of_app in Hin' as [Hin'|Hin'].
      * rewrite Forall_forall in Hfull. apply Hfull in Hin'. simpl in Hin'.
        unfold spare in Hsp. lia.
      * assert (date (dateInfoOf d) ≤ date (dateInfoOf d')); [|simpl in *; lia].
        apply elem_of_cons in Hin' as [->|Hin']; [done|].
        apply StronglySorted_app_1_r in Hs. inversion Hs as [|? ? ? Hall]; subst.
        rewrite Forall_forall in Hall. apply Hall in Hin'. lia.
    + simpl. rewrite lookup_app_r by lia.
      by replace (length l1 - length l1)%nat with 0%nat by lia.
  - apply firstFree_None in E. intros d' Hd' Hok' Hsp.
    assert (Hin' : dateInfoOf d' ∈ l) by (apply Hl; eauto).
    rewrite Forall_forall in E. apply E in Hin'. simpl in Hin'.
    unfold spare in Hsp. lia.
Qed.

Lemma filter_sorted (P : DateInfo → Prop) `{!∀ x, Decision (P x)} (l : list DateInfo) :
  StronglySorted (λ x y, date x < date y) l →
  StronglySorted (λ x y, date x < date y) (filter P l).
Proof.
  induction 1 as [|x l Hl IH Hx]; [constructor|].
  rewrite filter_cons. destruct (decide (P x)); [|done].
  constructor; [done|]. apply Forall_forall. intros y Hy.
  apply list_elem_of_filter in Hy as [_ Hy].
  rewrite Forall_forall in Hx. by apply Hx.
Qed.

Lemma saturdays_elem (s e : Z) (info : DateInfo) :
  info ∈ filter (λ i, dayOfWeek i = 6) (computeDates s e false)
  ↔ ∃ d, info = dateInfoOf d ∧ s ≤ d ≤ e ∧ reviewDay hours d.
Proof.
  rewrite list_elem_of_filter, computeDates_elem. unfold reviewDay, eligible. split.
  - intros (Hsat & d & -> & ? & ? & _). exists d. done.
  - intros (d & -> & ? & ? & ?). split; [done|]. exists d. done.
Qed.

Lemma sundays_elem (s e : Z) (info : DateInfo) :
  info ∈ filter (λ i, dayOfWeek i = 0) (computeDates s e false)
  ↔ ∃ d, info = dateInfoOf d ∧ s ≤ d ≤ e ∧ available hours d ∧ getDay d = 0.
Proof.
  rewrite list_elem_of_filter, computeDates_elem. unfold eligible. split.
  - intros (Hsat & d & -> & ? & ? & _). exists d. done.
  - intros (d & -> & ? & ? & ?). split; [done|]. exists d. done.
Qed.

(** What a slot search returns on a coherent cache. *)
Lemma findNextAvailableSlot_spec (st : RunState) (from s : Z) (w : bool) :
  cache_ok from (availableDatesCache st) → from ≤ s →
  let r := findNextAvailableSlot hours sessionDuration examDate st s w in
  agenda r.2 = agenda st
  ∧ cache_ok from (availableDatesCache r.2)
  ∧ availableDatesCache r.2 !! (s, examDate, w) = Some (computeDates s examDate w)
  ∧ match r.1 with
    | Some (j, d) =>
        FirstSlot (agenda st) (eligible hours w) s examDate d
        ∧ computeDates s examDate w !! j = Some (dateInfoOf d)
    | None => NoSlot (agenda st) (eligible hours w) s examDate
    end.
Proof.
  intros Hok Hs. unfold findNextAvailableSlot.
  pose proof (getAvailableDates_fst hours sessionDuration from _ s examDate w Hok Hs) as H1.
  pose proof (getAvailableDates_snd hours sessionDuration from _ s examDate w Hok) as H2.
  assert (H3 : (getAvailableDates hours sessionDuration (availableDatesCache st)
                  s examDate w).2 !! (s, examDate, w)
               = Some (computeDates s examDate w)).
  { unfold getAvailableDates.
    destruct (availableDatesCache st !! (s, examDate, w)) as [l|] eqn:E; simpl.
    - rewrite E. f_equal. by eapply Hok.
    - by rewrite lookup_insert_eq. }
  destruct (getAvailableDates _ _ _ _ _ _) as [dates c]. simpl in *. subst dates.
  split_and!; try done.
  apply firstFree_slot.
  - intros info. apply computeDates_elem.
  - apply computeDates_sorted.
Qed.

Lemma getNextSaturdayForReview_spec (st : RunState) (from s : Z) :
  cache_ok from (availableDatesCache st) → from ≤ s →
  let r := getNextSaturdayForReview hours sessionDuration examDate st s in
  agenda r.2 = agenda st
  ∧ cache_ok from (availableDatesCache r.2)
  ∧ match r.1 with
    | Some d => FirstSlot (agenda st) (reviewDay hours) s examDate d
    | None => NoSlot (agenda st) (reviewDay hours) s examDate
    end.
Proof.
  intros Hok Hs. unfold getNextSaturdayForReview.
  pose proof (getAvailableDates_fst hours sessionDuration from _ s examDate false Hok Hs) as H1.
  pose proof (getAvailableDates_snd hours sessionDuration from _ s examDate false Hok) as H2.
  destruct (getAvailableDates _ _ _ _ _ _) as [dates c]. simpl in *. subst dates.
  split_and!; try done.
  pose proof (firstFree_slot (agenda st) (reviewDay hours) s examDate
                (filter (λ i, dayOfWeek i = 6) (computeDates s examDate false))
                (saturdays_elem s examDate)
                (filter_sorted _ _ (computeDates_sorted _ _ _ _ _))) as Hf.
  destruct (firstFree _ _ _) as [[j d]|]; simpl; [apply Hf|done].
Qed.

End SlotFacts.

Section AgendaFacts.

Lemma sessionsOn_push_eq (a : Agenda) (d : Z) (s : Session) :
  sessionsOn (agenda_push a d s) d = sessionsOn a d + 1.
Proof.
  unfold sessionsOn. induction a as [|[d' l] a IH]; simpl.
  - by rewrite Z.eqb_refl.
  - destruct (Z.eqb_spec d d') as [->|Hne]; simpl.
    + rewrite Z.eqb_refl, length_app. simpl. lia.
    + destruct (Z.eqb_spec d d'); [done|]. apply IH.
Qed.

Lemma sessionsOn_push_ne (a : Agenda) (d d' : Z) (s : Session) :
  d ≠ d' → sessionsOn (agenda_push a d s) d' = sessionsOn a d'.
Proof.
  intros Hne. unfold sessionsOn. induction a as [|[d0 l] a IH]; simpl.
  - destruct (Z.eqb_spec d' d); [congruence|done].
  - destruct (Z.eqb_spec d d0) as [->|Hne0]; simpl.
    + destruct (Z.eqb_spec d' d0); [congruence|done].
    + destruct (Z.eqb_spec d' d0); [done|]. apply IH.
Qed.

Lemma sessionsOn_nonneg (a : Agenda) (d : Z) : 0 ≤ sessionsOn a d.
Proof. unfold sessionsOn. destruct (agenda_get a d); lia. Qed.

Lemma sessionsOn_push_le (a : Agenda) (d d' : Z) (s : Session) :
  sessionsOn a d' ≤ sessionsOn (agenda_push a d s) d'.
Proof.
  destruct (decide (d = d')) as [->|Hne].
  - rewrite sessionsOn_push_eq. lia.
  - rewrite sessionsOn_push_ne by done. lia.
Qed.

Lemma agenda_sessions_push (a : Agenda) (d : Z) (s : Session) :
  agenda_sessions (agenda_push a d s) ≡ₚ s :: agenda_sessions a.
Proof.
  unfold agenda_sessions. induction a as [|[d' l] a IH]; simpl; [done|].
  destruct (d =? d'); simpl.
  - rewrite <- app_assoc. simpl. by rewrite <- Permutation_middle.
  - rewrite IH. by rewrite <- Permutation_middle.
Qed.

Lemma elem_of_agenda_push (a : Agenda) (d : Z) (s x : Session) :
  x ∈ agenda_sessions (agenda_push a d s) ↔ x = s ∨ x ∈ agenda_sessions a.
Proof. rewrite agenda_sessions_push. apply elem_of_cons. Qed.

End AgendaFacts.



Section PlacedFacts.

Context (G G' : Agenda → Z → SessionDraft → Prop).

Lemma Placed_trans (a b c : Agenda) : Placed G a b → Placed G b c → Placed G a c.
Proof. induction 1; [done|]. intros Hc. eapply Placed_step; eauto. Qed.

Lemma Placed_mono (a b : Agenda) :
  (∀ a d s, G a d s → G' a d s) → Placed G a b → Placed G' a b.
Proof. intros Himp. induction 1; [constructor|]. eapply Placed_step; eauto. Qed.

Lemma Placed_one (a : Agenda) (d : Z) (s : SessionDraft) :
  G a d s → Placed G a (agenda_push a d {| draft := s; session_date := d |}).
Proof. intros Hg. eapply Placed_step; [done|constructor]. Qed.

(** Whatever holds of the agenda and is kept by every guarded insertion
    holds at the end. *)
Lemma Placed_invariant (I : Agenda → Prop) (a b : Agenda) :
  (∀ a d s, I a → G a d s →
            I (agenda_push a d {| draft := s; session_date := d |})) →
  Placed G a b → I a → I b.
Proof. intros Hstep. induction 1; [done|]. intros Ha. eauto. Qed.

End PlacedFacts.

Section PhaseFacts.

Context (hours : list Q) (sessionDuration today examDate : Z).

Local Abbreviation ok st := (cache_ok hours sessionDuration today (availableDatesCache st)).
Local Abbreviation PhaseOf G := (Phase hours sessionDuration today G).
Local Abbreviation reviewG := (reviewGuard hours sessionDuration today examDate).
Local Abbreviation newTopicG := (newTopicGuard hours sessionDuration today examDate).
Local Abbreviation contentG := (contentGuard hours sessionDuration today examDate).
Local Abbreviation mockG := (mockGuard hours sessionDuration today examDate).
Local Abbreviation essayG := (essayGuard hours today examDate).

Lemma Phase_refl G (st : RunState) : ok st → PhaseOf G st st.
Proof. intros Hok. split; [constructor|done]. Qed.

Lemma Phase_trans G (st1 st2 st3 : RunState) :
  PhaseOf G st1 st2 → PhaseOf G st2 st3 → PhaseOf G st1 st3.
Proof. intros [H1 _] [H2 H3]. split; [by eapply Placed_trans|done]. Qed.

Lemma Phase_mono G G' (st1 st2 : RunState) :
  (∀ a d s, G a d s → G' a d s) → PhaseOf G st1 st2 → PhaseOf G' st1 st2.
Proof. intros Himp [H1 H2]. split; [by eapply Placed_mono|done]. Qed.

Lemma Phase_foldl {A} G (f : RunState → A → RunState) (l : list A) (st : RunState) :
  (∀ st x, x ∈ l → ok st → PhaseOf G st (f st x)) →
  ok st → PhaseOf G st (foldl f st l).
Proof.
  revert st. induction l as [|x l IH]; intros st Hf Hok; simpl.
  - by apply Phase_refl.
  - eapply Phase_trans.
    + apply Hf; [by left|done].
    + apply IH.
      * intros st' y Hy. apply Hf. by right.
      * apply Hf; [by left|done].
Qed.

(** The tail shared by both review steps. *)
Lemma review_step_phase (topic : Topic) (target k : Z) (st : RunState) :
  ok st → today ≤ target →
  PhaseOf reviewG st
    (let '(reviewDay, st1) :=
       getNextSaturdayForReview hours sessionDuration examDate st target in
     match reviewDay with
     | Some d => addSessionToAgenda st1 d (reviewDraft topic k)
     | None => st1
     end).
Proof.
  intros Hok Ht.
  pose proof (getNextSaturdayForReview_spec hours sessionDuration examDate
                st today target Hok Ht) as (Hag & Hok' & Hr).
  destruct (getNextSaturdayForReview _ _ _ _ _) as [[d|] st1]; simpl in *.
  - split; simpl; [|done]. rewrite Hag. apply Placed_one.
    destruct Hr as (? & ? & ? & _). split_and!; eauto; lia.
  - split; [|done]. rewrite Hag. constructor.
Qed.

Lemma completedReview_phase (topic : Topic) (X k : Z) (st : RunState) :
  ok st →
  PhaseOf reviewG st (completedReview hours sessionDuration today examDate topic X st k).
Proof.
  intros Hok. unfold completedReview.
  destruct (Z.leb_spec today (X + k)); simpl; [|by apply Phase_refl].
  destruct (X + k <=? examDate); [|by apply Phase_refl].
  by apply review_step_phase.
Qed.

Lemma cascadeReview_phase (topic : Topic) (X k : Z) (st : RunState) :
  ok st → today ≤ X → 0 ≤ k →
  PhaseOf reviewG st (cascadeReview hours sessionDuration examDate topic X st k).
Proof.
  intros Hok HX Hk. unfold cascadeReview.
  destruct (X + k <=? examDate); [|by apply Phase_refl].
  apply review_step_phase; [done|lia].
Qed.

Lemma completedReviews_phase (completedTopics : list Topic) (st : RunState) :
  ok st →
  PhaseOf reviewG st
    (completedReviews hours sessionDuration today examDate st completedTopics).
Proof.
  intros Hok. unfold completedReviews. apply Phase_foldl; [|done].
  intros st' topic _ Hok'. destruct (completion_date topic) as [X|].
  - apply Phase_foldl; [|done]. intros st'' k _ Hok''.
    by apply completedReview_phase.
  - by apply Phase_refl.
Qed.

Lemma offsets_nonneg (k : Z) : k ∈ [7; 14; 28] → 0 ≤ k.
Proof. rewrite !elem_of_cons, elem_of_nil. lia. Qed.

Lemma cascade_phase (topic : Topic) (X : Z) (st : RunState) :
  ok st → today ≤ X →
  PhaseOf reviewG st
    (foldl (cascadeReview hours sessionDuration examDate topic X) st [7; 14; 28]).
Proof.
  intros Hok HX. apply Phase_foldl; [|done].
  intros st' k Hk Hok'. apply cascadeReview_phase; [done|done|].
  by apply offsets_nonneg.
Qed.

Lemma addSession_phase G (st : RunState) (d : Z) (s : SessionDraft) :
  ok st → G (agenda st) d s → PhaseOf G st (addSessionToAgenda st d s).
Proof. intros Hok Hg. split; [by apply Placed_one|done]. Qed.

Lemma newTopicsLoop_phase (ts : list Topic) (st : RunState) (cur : Z) (last : option Z) :
  ok st → today ≤ cur → (∀ d, last = Some d → today ≤ d) →
  let r := newTopicsLoop hours sessionDuration examDate ts st cur last in
  PhaseOf contentG st r.1 ∧ ∀ d, r.2 = Some d → today ≤ d.
Proof.
  revert st cur last. induction ts as [|topic ts IH]; intros st cur last Hok Hcur Hlast; simpl.
  - split; [by apply Phase_refl|done].
  - pose proof (findNextAvailableSlot_spec hours sessionDuration examDate
                  st today cur true Hok Hcur) as (Hag & Hok' & _ & Hr).
    destruct (findNextAvailableSlot _ _ _ _ _ _) as [[[j d]|] st1]; simpl in *.
    + destruct Hr as [(Hrange & Hel & Hsp & _) _].
      assert (Hd : today ≤ d) by lia.
      set (st2 := addSessionToAgenda st1 d (newTopicDraft topic)).
      assert (H2 : PhaseOf contentG st st2).
      { split; [|done]. simpl. rewrite Hag. apply Placed_one. left.
        split_and!; eauto; lia. }
      assert (H3 : PhaseOf contentG st2
                (foldl (cascadeReview hours sessionDuration examDate topic d) st2 [7; 14; 28])).
      { eapply Phase_mono; [|apply cascade_phase; [apply H2|done]].
        intros ? ? ? ?. by right. }
      destruct (IH (foldl (cascadeReview hours sessionDuration examDate topic d) st2 [7; 14; 28])
                   d (Some d)) as [H4 H5]; [apply H3|done|by intros ? [= <-]|].
      split; [|done].
      eapply Phase_trans; [apply H2|]. eapply Phase_trans; [apply H3|apply H4].
    + split; [|done]. split; [|done]. rewrite Hag. constructor.
Qed.

Lemma directedGroups_phase (name : string) (n : nat) (groups : list (list string))
    (i : nat) (st : RunState) (cur : Z) :
  ok st → today ≤ cur →
  let r := directedGroups hours sessionDuration examDate name n groups i st cur in
  PhaseOf mockG st r.1 ∧ today ≤ r.2.
Proof.
  revert i st cur. induction groups as [|g groups IH]; intros i st cur Hok Hcur; simpl.
  - split; [by apply Phase_refl|done].
  - pose proof (findNextAvailableSlot_spec hours sessionDuration examDate
                  st today cur false Hok Hcur) as (Hag & Hok' & _ & Hr).
    destruct (findNextAvailableSlot _ _ _ _ _ _) as [[[j d]|] st1]; simpl in *.
    + destruct Hr as [(Hrange & [Hav _] & Hsp & _) _].
      set (st2 := addSessionToAgenda st1 d (directedDraft name n i g)).
      assert (H2 : PhaseOf mockG st st2).
      { split; [|done]. simpl. rewrite Hag. apply Placed_one.
        split_and!; eauto; lia. }
      destruct (IH (S i) st2 (d + 3)) as [H4 H5]; [apply H2|lia|].
      split; [|done]. eapply Phase_trans; [apply H2|apply H4].
    + split; [|done]. split; [|done]. rewrite Hag. constructor.
Qed.

Lemma directedPhase_phase (st : RunState) (ms : Z) (allTopics : list Topic) :
  ok st → today ≤ ms →
  PhaseOf mockG st (directedPhase hours sessionDuration examDate st ms allTopics).
Proof.
  intros Hok Hms. unfold directedPhase.
  generalize (subjectsReadyForSim allTopics). intros l.
  assert (H : ∀ acc, ok acc.1 → today ≤ acc.2 →
              PhaseOf mockG acc.1
                (foldl (directedSubject hours sessionDuration examDate) acc l).1).
  { induction l as [|e l IH]; intros acc Ha Hc; simpl.
    - by apply Phase_refl.
    - unfold directedSubject at 2.
      destruct (directedGroups_phase e.1
                  (length (chunks (length (completed e.2)) (completed e.2)))
                  (chunks (length (completed e.2)) (completed e.2)) 0
                  acc.1 acc.2 Ha Hc) as [H1 H2].
      eapply Phase_trans; [apply H1|]. apply IH; [apply H1|done]. }
  by apply (H (st, ms)).
Qed.

Lemma basicFullMockPhase_phase (st : RunState) (ms : Z) :
  ok st → today ≤ ms →
  PhaseOf mockG st (basicFullMockPhase hours sessionDuration examDate st ms).
Proof.
  intros Hok Hms. unfold basicFullMockPhase.
  assert (Hs : today ≤ ms + 7) by lia.
  pose proof (findNextAvailableSlot_spec hours sessionDuration examDate
                st today (ms + 7) false Hok Hs) as (Hag & Hok' & _ & Hr).
  destruct (findNextAvailableSlot _ _ _ _ _ _) as [[[j d]|] st1]; simpl in *.
  - destruct Hr as [(Hrange & [Hav _] & Hsp & _) _].
    split; [|done]. simpl. rewrite Hag. apply Placed_one.
    split_and!; eauto; lia.
  - split; [|done]. rewrite Hag. constructor.
Qed.

(** The recurring loop advances a cached [Date] in place; the list it
    belongs to is keyed by a start date the loop has already left behind,
    so every later search still reads coherent lists. *)
Lemma recurringLoop_placed (fuel : nat) (st : RunState) (next : Z) :
  cache_ok hours sessionDuration next (availableDatesCache st) → today ≤ next →
  Placed mockG (agenda st)
         (agenda (recurringLoop hours sessionDuration examDate fuel st next)).
Proof.
  revert st next. induction fuel as [|fuel IH]; intros st next Hok Hn; simpl.
  - constructor.
  - pose proof (findNextAvailableSlot_spec hours sessionDuration examDate
                  st next next false Hok (Z.le_refl _)) as (Hag & Hok' & Hkey & Hr).
    destruct (findNextAvailableSlot _ _ _ _ _ _) as [[[j d]|] st1]; simpl in *.
    + destruct Hr as [(Hrange & [Hav _] & Hsp & _) Hj].
      apply (Placed_step _ (agenda st) d recurringFullMockDraft).
      { split_and!; [done|by right|lia|lia|done|done]. }
      rewrite <- Hag.
      set (st2 := addSessionToAgenda st1 d recurringFullMockDraft).
      set (st3 := setDateInCache st2 (next, examDate, false) j (d + 3)).
      assert (Ha3 : agenda st3 = agenda st2).
      { subst st3. unfold setDateInCache.
        destruct (availableDatesCache st2 !! _) as [l|]; [|done].
        by destruct (l !! j). }
      assert (Hok3 : cache_ok hours sessionDuration (d + 3) (availableDatesCache st3)).
      { subst st3. unfold setDateInCache.
        destruct (availableDatesCache st2 !! _) as [l|] eqn:El;
          [|eapply cache_ok_weaken; [|apply Hok']; lia].
        destruct (l !! j); [|eapply cache_ok_weaken; [|apply Hok']; lia].
        simpl. intros s e w l' Hl' Hs.
        rewrite lookup_insert_ne in Hl' by (intros [= ? ? ?]; lia).
        eapply Hok'; [done|lia]. }
      specialize (IH st3 (d + 3) Hok3 ltac:(lia)).
      by rewrite Ha3 in IH.
    + rewrite Hag. constructor.
Qed.

Lemma examSimulation_placed (st : RunState) (ms : Z)
    (pendingTopics completedTopics allTopics : list Topic) :
  ok st → today ≤ ms →
  Placed mockG (agenda st)
    (agenda (examSimulation hours sessionDuration examDate st ms
               pendingTopics completedTopics allTopics)).
Proof.
  intros Hok Hms.
  unfold examSimulation, directedStage, basicFullMockStage, recurringStage.
  destruct (simGate pendingTopics completedTopics allTopics); [|constructor].
  pose proof (directedPhase_phase st ms allTopics Hok Hms) as [H1 Hok1].
  pose proof (basicFullMockPhase_phase _ ms Hok1 Hms) as [H2 Hok2].
  eapply Placed_trans; [apply H1|]. eapply Placed_trans; [apply H2|].
  apply recurringLoop_placed; [|lia].
  eapply cache_ok_weaken; [|apply Hok2]. lia.
Qed.

End PhaseFacts.

Section RunFacts.

Context (hours : list Q) (sessionDuration today examDate : Z).

Local Abbreviation ok st := (cache_ok hours sessionDuration today (availableDatesCache st)).
Local Abbreviation PhaseOf G := (Phase hours sessionDuration today G).
Local Abbreviation essayG := (essayGuard hours today examDate).
Local Abbreviation anyG := (anyGuard hours sessionDuration today examDate).

Lemma essay_fold (l : list DateInfo) (st : RunState) :
  StronglySorted (λ x y, date x < date y) l →
  (∀ x, x ∈ l → today ≤ date x ≤ examDate ∧ available hours (date x)
                ∧ getDay (date x) = 0) →
  (∀ x, x ∈ l → sessionsOn (agenda st) (date x) = 0) →
  ok st →
  PhaseOf essayG st
    (foldl (λ st dateInfo, addSessionToAgenda st (date dateInfo) essayDraft) st l).
Proof.
  intros Hs. revert st. induction Hs as [|x l Hl IH Hx]; intros st Hp Hz Hok; simpl.
  - by apply Phase_refl.
  - apply Phase_trans with (st2 := addSessionToAgenda st (date x) essayDraft).
    + apply addSession_phase; [done|].
      destruct (Hp x) as (? & ? & ?); [by left|].
      split_and!; try done; try lia. apply Hz. by left.
    + apply IH; [| |done].
      * intros y Hy. apply Hp. by right.
      * intros y Hy. simpl. rewrite sessionsOn_push_ne.
        -- apply Hz. by right.
        -- rewrite Forall_forall in Hx. apply Hx in Hy. lia.
Qed.

Lemma essayPhase_phase (st : RunState) :
  ok st → (∀ d, sessionsOn (agenda st) d = 0) →
  PhaseOf essayG st (essayPhase hours sessionDuration today examDate st).
Proof.
  intros Hok Hz. unfold essayPhase.
  pose proof (getAvailableDates_fst hours sessionDuration today _ today examDate false
                Hok (Z.le_refl _)) as H1.
  pose proof (getAvailableDates_snd hours sessionDuration today _ today examDate false
                Hok) as H2.
  destruct (getAvailableDates _ _ _ _ _ _) as [dates c]. simpl in *. subst dates.
  split.
  - apply (essay_fold _ {| agenda := agenda st; availableDatesCache := c |}); try done.
    + apply filter_sorted, computeDates_sorted.
    + intros x (d & -> & ? & ? & ?)%sundays_elem. done.
  - apply (essay_fold _ {| agenda := agenda st; availableDatesCache := c |}); try done.
    + apply filter_sorted, computeDates_sorted.
    + intros x (d & -> & ? & ? & ?)%sundays_elem. done.
Qed.

(** Every insertion of a generate run is a guarded one. *)
Lemma scheduleRun_placed (hasEssay : bool) (allTopics completedTopics : list Topic)
    (rnd : nat → nat) :
  Placed (anyG hasEssay) []
    (agenda (scheduleRun hours sessionDuration today examDate hasEssay
               allTopics completedTopics rnd)).
Proof.
  unfold scheduleRun.
  set (st1 := if hasEssay then essayPhase hours sessionDuration today examDate emptyRun
              else emptyRun).
  assert (H1 : PhaseOf (anyG hasEssay) emptyRun st1).
  { subst st1. destruct hasEssay.
    - eapply Phase_mono; [|apply essayPhase_phase; [apply cache_ok_empty|done]].
      intros ? ? ? ?. left. done.
    - apply Phase_refl, cache_ok_empty. }
  set (st2 := completedReviews hours sessionDuration today examDate st1 completedTopics).
  assert (H2 : PhaseOf (anyG hasEssay) st1 st2).
  { eapply Phase_mono; [|apply completedReviews_phase, H1].
    intros ? ? ? ?. right. by left. }
  pose proof (newTopicsLoop_phase hours sessionDuration today examDate
                (uniqueInOrder (shuffle rnd (weightedTopics (pendingOf allTopics))))
                st2 today None (proj2 H2) (Z.le_refl _) ltac:(done)) as [H3 Hlast].
  destruct (newTopicsLoop _ _ _ _ _ _ _) as [st3 last]. simpl in *.
  assert (H3' : PhaseOf (anyG hasEssay) st2 st3).
  { eapply Phase_mono; [|apply H3]. intros ? ? ? [?|?]; [right; right; by left|right; by left]. }
  assert (H123 : Placed (anyG hasEssay) [] (agenda st3)).
  { eapply Placed_trans; [apply H1|]. eapply Placed_trans; [apply H2|apply H3']. }
  destruct (length (pendingOf allTopics) =? 0)%nat; [|done].
  eapply Placed_trans; [apply H123|].
  eapply Placed_mono;
    [|apply (examSimulation_placed hours sessionDuration today examDate); [apply H3|]].
  - intros ? ? ? ?. right. right. by right.
  - unfold maintenanceStart. destruct last as [d|]; [|lia].
    specialize (Hlast d eq_refl). lia.
Qed.

Lemma anyGuard_range (hasEssay : bool) (a : Agenda) (d : Z) (s : SessionDraft) :
  anyG hasEssay a d s → today ≤ d ≤ examDate.
Proof. intros [[_ H]|[H|[H|H]]]; [apply H|apply H|apply H|apply H]. Qed.

Lemma scheduleRun_range (hasEssay : bool) (allTopics completedTopics : list Topic)
    (rnd : nat → nat) (s : Session) :
  s ∈ agenda_sessions (agenda (scheduleRun hours sessionDuration today examDate hasEssay
                                 allTopics completedTopics rnd)) →
  today ≤ session_date s ≤ examDate.
Proof.
  revert s.
  apply (Placed_invariant (anyG hasEssay)
           (λ a, ∀ s, s ∈ agenda_sessions a → today ≤ session_date s ≤ examDate)
           [] _); [|apply scheduleRun_placed|by intros s ?%elem_of_nil].
  intros a d x Ha Hg s [->|Hs]%elem_of_agenda_push; [|by apply Ha].
  simpl. by eapply anyGuard_range.
Qed.

End RunFacts.

Section StoreFacts.

Lemma elem_of_insertSessions (planId : Z) (l : list Session) (rows : list SessionRow)
    (r : SessionRow) :
  r ∈ foldl (insertSession planId) rows l →
  r ∈ rows
  ∨ ∃ s, s ∈ l ∧ study_plan_id r = planId
         ∧ row_session_date r = session_date s
         ∧ row_session_type r = sessionType (draft s)
         ∧ row_topic_id r = topicId (draft s)
         ∧ row_status r = Pendente.
Proof.
  revert rows. induction l as [|s l IH]; intros rows; simpl; [by left|].
  intros [Hr|(s' & ? & ?)]%IH.
  - unfold insertSession in Hr. apply elem_of_app in Hr as [Hr|Hr]; [by left|].
    apply list_elem_of_singleton in Hr as ->. right. exists s. simpl.
    split_and!; try done. by left.
  - right. exists s'. split; [by right|done].
Qed.

Lemma elem_of_deleteSessionsOfPlan (db : Db) (planId : Z) (r : SessionRow) :
  r ∈ study_sessions (deleteSessionsOfPlan db planId)
  ↔ r ∈ study_sessions db ∧ study_plan_id r ≠ planId.
Proof. simpl. rewrite list_elem_of_filter. tauto. Qed.

End StoreFacts.

(** C9 — Date-range invariant.  Whenever generate is not refused, every
    session row the store then holds for the plan — all of them created by
    this run, whatever their type and whatever the shuffle drew — is dated
    between today and the plan's exam date, both included. *)
Theorem generated_dates_in_range
    (db : Db) (planId userId : Z) (req : GenerateRequest) (today : Z)
    (rnd : nat → nat) (plan : PlanRow) (r : SessionRow) :
  selectPlan db planId = Some plan →
  (generate db planId userId req today rnd).1 ≠ NoStudyHours →
  r ∈ study_sessions (generate db planId userId req today rnd).2 →
  study_plan_id r = planId →
  today ≤ row_session_date r ≤ exam_date plan.
Proof.
  unfold generate, updatePlanSettings. intros -> Hresp.
  destruct (totalWeeklyHours (req_study_hours_per_day req) =? 0); [done|].
  destruct (length (allTopicsQuery (deleteSessionsOfPlan db planId) planId) =? 0)%nat.
  - simpl. intros [_ Hne]%elem_of_deleteSessionsOfPlan Heq. done.
  - cbn [snd insertSessions study_sessions].
    intros [Hr|(s & Hs & _ & -> & _)]%elem_of_insertSessions Heq.
    + apply elem_of_deleteSessionsOfPlan in Hr as [_ Hne]. done.
    + by eapply scheduleRun_range.
Qed.

(** C1 — Capacity invariant, at the essay insertions.  With essay practice
    on, one hour on Sundays and ninety-minute sessions, a Sunday holds
    [floor(60 / 90) = 0] sessions; the run still puts the essay session on
    the first Sunday, so that date carries one session against a capacity
    of zero. *)
Theorem essay_exceeds_capacity :
  let db' := (generate essayDb 1 7 (sampleRequest shortSundays 90) monday (λ _, 0%nat)).2 in
  capacity shortSundays 90 sunday = 0
  ∧ countSessionsOn db' 1 sunday = 1
  ∧ row_session_type <$> filter (λ r, row_session_date r = sunday) (study_sessions db')
    = [Redacao].
Proof. vm_compute. done. Qed.

(** C2 — Preview/commit agreement, on a Sunday with study hours.  With four
    hours on every day and one overdue session, the preview run on a Sunday
    announces that Sunday as the new date, while the commit run at the same
    moment skips Sundays and stores the Monday after it; the postponement
    counter goes from 0 to 1 and the preview leaves the store as it was. *)
Theorem preview_and_commit_disagree_on_sunday :
  (replanPreviewRoute overdueDb 1 7 sunday).2 = overdueDb
  ∧ (∃ e, (replanPreviewRoute overdueDb 1 7 sunday).1 = OverduePreview 1 [e] 1
          ∧ sessionId e = 1 ∧ newDate e = sunday)
  ∧ row_session_date <$> study_sessions (replanRoute overdueDb 1 7 sunday).2
    = [sunday + 1]
  ∧ postponement_count <$> study_plans (replanRoute overdueDb 1 7 sunday).2 = [1].
Proof.
  split; [reflexivity|]. split; [|split; reflexivity].
  eexists. split; [vm_compute; reflexivity|]. split; reflexivity.
Qed.

(** C3 — Configuration-error law, on fractional hours.  Half an hour from
    Monday to Friday sums to two and a half weekly hours, yet every entry
    parses to 0 and the route answers with the configuration error; the
    stored sessions are left as they were. *)
Theorem fractional_hours_are_refused (today : Z) (rnd : nat → nat) :
  (foldr Qplus 0 halfHours == 5 # 2)%Q
  ∧ generate plannedDb 1 7 (sampleRequest halfHours 50) today rnd
    = (NoStudyHours, plannedDb).
Proof. split; reflexivity. Qed.

Section SortFacts.

Context {A : Type} (leb : A → A → bool).

Lemma insert_by_perm (x : A) (l : list A) : insert_by leb x l ≡ₚ x :: l.
Proof.
  induction l as [|y l IH]; simpl; [done|].
  destruct (leb x y); [done|]. rewrite IH. apply Permutation_swap.
Qed.

Lemma sort_by_perm (l : list A) : sort_by leb l ≡ₚ l.
Proof.
  unfold sort_by. induction l as [|x l IH]; simpl; [done|].
  by rewrite insert_by_perm, IH.
Qed.

Lemma sort_by_length (l : list A) : length (sort_by leb l) = length l.
Proof. by rewrite sort_by_perm. Qed.

Lemma elem_of_sort_by (l : list A) (x : A) : x ∈ sort_by leb l ↔ x ∈ l.
Proof. by rewrite sort_by_perm. Qed.

Hypothesis leb_total : ∀ a b, leb a b = false → leb b a = true.

Lemma insert_by_sorted (x : A) (l : list A) :
  Sorted (λ a b, leb a b = true) l →
  Sorted (λ a b, leb a b = true) (insert_by leb x l).
Proof.
  induction 1 as [|y l Hl IH Hy]; simpl.
  - repeat constructor.
  - destruct (leb x y) eqn:E.
    + constructor; [by constructor|by constructor].
    + constructor; [done|].
      destruct l as [|z l]; simpl in *.
      * constructor. by apply leb_total.
      * destruct (leb x z) eqn:E'.
        -- constructor. by apply leb_total.
        -- inversion Hy; subst. by constructor.
Qed.

Lemma sort_by_sorted (l : list A) : Sorted (λ a b, leb a b = true) (sort_by leb l).
Proof.
  unfold sort_by. induction l as [|x l IH]; simpl; [constructor|].
  by apply insert_by_sorted.
Qed.

End SortFacts.

Lemma filter_none {A} (P : A → Prop) `{!∀ x, Decision (P x)} (l : list A) :
  (∀ x, x ∈ l → ¬ P x) → filter P l = [].
Proof.
  induction l as [|x l IH]; intros Hl; [done|].
  rewrite filter_cons. destruct (decide (P x)) as [Hx|_].
  - exfalso. eapply Hl; [by left|done].
  - apply IH. intros y Hy. apply Hl. by right.
Qed.

(** C10 — Generate on a plan without topics.  When the plan exists, the
    hours check passes and the plan has no topic, the route answers with the
    success-style "no topics" message and commits the store in which every
    session of the plan has been deleted and every other row is kept; if the
    plan had sessions, the store has changed. *)
Theorem generate_without_topics_wipes_calendar
    (db : Db) (planId userId : Z) (req : GenerateRequest) (today : Z)
    (rnd : nat → nat) (plan : PlanRow) :
  selectPlan db planId = Some plan →
  totalWeeklyHours (req_study_hours_per_day req) ≠ 0 →
  (∀ t, t ∈ topics db → topic_plan_id t ≠ planId) →
  generate db planId userId req today rnd
  = (NoTopicsFound, deleteSessionsOfPlan db planId)
  ∧ study_plans (deleteSessionsOfPlan db planId) = study_plans db
  ∧ topics (deleteSessionsOfPlan db planId) = topics db
  ∧ (∀ r, r ∈ study_sessions (deleteSessionsOfPlan db planId)
          ↔ r ∈ study_sessions db ∧ study_plan_id r ≠ planId)
  ∧ ((∃ r, r ∈ study_sessions db ∧ study_plan_id r = planId) →
     deleteSessionsOfPlan db planId ≠ db).
Proof.
  intros Hplan Hhours Htopics. split_and!; try done.
  - unfold generate, updatePlanSettings. rewrite Hplan.
    apply Z.eqb_neq in Hhours. rewrite Hhours.
    assert (Hnone : allTopicsQuery (deleteSessionsOfPlan db planId) planId = []).
    { unfold allTopicsQuery. simpl.
      assert (Hf : filter (λ t, topic_plan_id t = planId) (topics db) = []).
      { apply filter_none. intros t Ht. by apply Htopics. }
      by rewrite Hf. }
    by rewrite Hnone.
  - intros r. apply elem_of_deleteSessionsOfPlan.
  - intros (r & Hr & Hp) Heq.
    rewrite <- Heq in Hr. apply elem_of_deleteSessionsOfPlan in Hr as [_ Hne]. done.
Qed.

Lemma generate_without_topics_wipes_calendar_witness :
  generate emptiedDb 1 7 (sampleRequest defaultHours 50) monday (λ _, 0%nat)
  = (NoTopicsFound, deleteSessionsOfPlan emptiedDb 1)
  ∧ study_sessions (deleteSessionsOfPlan emptiedDb 1) = []
  ∧ deleteSessionsOfPlan emptiedDb 1 ≠ emptiedDb.
Proof.
  destruct (generate_without_topics_wipes_calendar emptiedDb 1 7
              (sampleRequest defaultHours 50) monday (λ _, 0%nat)
              (samplePlan defaultHours 50 false))
    as (H1 & _ & _ & _ & H5).
  - reflexivity.
  - vm_compute. discriminate.
  - intros t Ht. vm_compute in Ht. inversion Ht.
  - split; [exact H1|]. split; [reflexivity|].
    apply H5. exists (sampleRow 1 (monday + 1)). split; [|reflexivity].
    vm_compute. left.
Defined.

Section GateFacts.

Lemma simGate_iff (pendingTopics completedTopics allTopics : list Topic) :
  allTopics ≠ [] →
  simGate pendingTopics completedTopics allTopics = true
  ↔ pendingTopics = []
    ∧ (19 * length allTopics ≤ 20 * length completedTopics)%nat.
Proof.
  intros Hne. unfold simGate, progressPercentage.
  rewrite andb_true_iff, Nat.eqb_eq, Qle_bool_iff, length_zero_iff_nil.
  assert (Ha : 0 < Z.of_nat (length allTopics)).
  { destruct allTopics; [done|]. simpl. lia. }
  destruct (Z.of_nat (length allTopics)) as [|p|p] eqn:Ea; try lia.
  assert (Hq : (95 # 100 <= inject_Z (Z.of_nat (length completedTopics)) / inject_Z (Z.pos p))%Q
               ↔ 19 * Z.pos p ≤ 20 * Z.of_nat (length completedTopics)).
  { unfold Qle, Qdiv, Qmult, Qinv, inject_Z. simpl. lia. }
  rewrite Hq. split; intros [? ?]; (split; [done|lia]).
Qed.

Lemma firstSlot_ext (hours : list Q) (sessionDuration : Z) (a : Agenda)
    (ok ok' : Z → Prop) (s e d : Z) :
  (∀ d, ok d ↔ ok' d) →
  firstSlot hours sessionDuration a ok s e d →
  firstSlot hours sessionDuration a ok' s e d.
Proof.
  intros Hext (Hr & Hk & Hsp & Hfirst).
  split; [done|]. split; [by apply Hext|]. split; [done|].
  intros d' ? ?%Hext. by apply Hfirst.
Qed.

Lemma noSlot_ext (hours : list Q) (sessionDuration : Z) (a : Agenda)
    (ok ok' : Z → Prop) (s e : Z) :
  (∀ d, ok d ↔ ok' d) →
  noSlot hours sessionDuration a ok s e → noSlot hours sessionDuration a ok' s e.
Proof. intros Hext Hno d' ? ?%Hext. by apply Hno. Qed.

Lemma eligible_false (hours : list Q) (d : Z) :
  eligible hours false d ↔ available hours d.
Proof. unfold eligible. split; [by intros [? _]|]. intros ?. split; [done|]. done. Qed.

End GateFacts.

(** The basic full mock block behind its gate: one full-mock session on the
    first date on or after [maintenanceStart + 7], up to the exam date, that
    has a positive hour allocation and room, or nothing when no such date
    exists. *)
Lemma basicFullMockPhase_outcome
    (hours : list Q) (sessionDuration examDate : Z) (st : RunState)
    (maintenanceStartDate : Z) :
  cache_ok hours sessionDuration (maintenanceStartDate + 7) (availableDatesCache st) →
  let st' := basicFullMockPhase hours sessionDuration examDate st
               maintenanceStartDate in
  (∃ d, firstSlot hours sessionDuration (agenda st) (available hours)
                  (maintenanceStartDate + 7) examDate d
        ∧ agenda st'
          = agenda_push (agenda st) d
              {| draft := basicFullMockDraft; session_date := d |})
  ∨ (noSlot hours sessionDuration (agenda st) (available hours)
            (maintenanceStartDate + 7) examDate
     ∧ agenda st' = agenda st).
Proof.
  intros Hok st'. subst st'. unfold basicFullMockPhase.
  pose proof (findNextAvailableSlot_spec hours sessionDuration examDate st
                (maintenanceStartDate + 7) (maintenanceStartDate + 7) false
                Hok (Z.le_refl _)) as (Hag & _ & _ & Hr).
  destruct (findNextAvailableSlot _ _ _ _ _ _) as [[[j d]|] st1]; simpl in *.
  - left. exists d. rewrite Hag. split; [|done].
    eapply firstSlot_ext; [|apply Hr]. apply eligible_false.
  - right. split; [|done]. eapply noSlot_ext; [|apply Hr]. apply eligible_false.
Qed.

(** C6, as stated, fails in both directions.  With a single topic, done and
    dated, fewer than three topics are completed and the basic full mock is
    still placed, on [maintenanceStart + 7]; with four topics marked done of
    which three carry a completion date, three topics are completed and
    slots are free, yet no full mock is placed. *)
Lemma basic_full_mock_ignores_three_topic_threshold :
  let one := [sampleTopic 1 Concluido (Some (monday - 10))] in
  let three := [sampleTopic 1 Concluido (Some (monday - 10));
                sampleTopic 2 Concluido (Some (monday - 10));
                sampleTopic 3 Concluido (Some (monday - 10))] in
  let four := three ++ [sampleTopic 4 Concluido None] in
  ((length one < 3)%nat
   ∧ {| draft := basicFullMockDraft; session_date := monday + 8 |}
     ∈ agenda_sessions
         (agenda (scheduleRun defaultHours 50 monday (monday + 30) false
                    one one (λ _, 0%nat))))
  ∧ ((3 ≤ length three)%nat
     ∧ Forall (λ s, sessionType (draft s) ≠ SimuladoCompleto)
         (agenda_sessions
            (agenda (scheduleRun defaultHours 50 monday (monday + 30) false
                       four three (λ _, 0%nat))))).
Proof.
  split; (split; [vm_compute; lia|]).
  - apply list_elem_of_In. vm_compute. repeat (first [left; reflexivity | right]).
  - apply Forall_forall. intros s Hs. apply list_elem_of_In in Hs.
    vm_compute in Hs.
    repeat (destruct Hs as [<-|Hs]; [discriminate|]). destruct Hs.
Qed.

Section PreviewFacts.

Context (studyHoursPerDay : list Q) (sessionDuration examDate : Z).

Lemma previewSlot_Some (fuel : nat) (cur : Z) (counts : gmap Z Z) (d cur' : Z) :
  previewSlot studyHoursPerDay sessionDuration examDate fuel cur counts = (Some d, cur') →
  cur' = d ∧ cur ≤ d ≤ examDate.
Proof.
  revert cur. induction fuel as [|fuel IH]; intros cur; simpl; [done|].
  destruct (Z.leb_spec cur examDate); [|done].
  destruct (Qpositive _).
  - destruct (Qle_bool _ _).
    + intros [= <- <-]. lia.
    + intros ?%IH. lia.
  - intros ?%IH. lia.
Qed.

Lemma previewSlot_None (fuel : nat) (cur : Z) (counts : gmap Z Z) (cur' : Z) :
  previewSlot studyHoursPerDay sessionDuration examDate fuel cur counts = (None, cur') →
  (Z.to_nat (examDate - cur + 1) ≤ fuel)%nat →
  examDate < cur'.
Proof.
  revert cur. induction fuel as [|fuel IH]; intros cur; simpl.
  - intros [= <-]. lia.
  - destruct (Z.leb_spec cur examDate); [|intros [= <-]; lia].
    destruct (Qpositive _).
    + destruct (Qle_bool _ _); [done|].
      intros H' Hf. apply (IH _ H'). lia.
    + intros H' Hf. apply (IH _ H'). lia.
Qed.

Lemma previewLoop_past (l : list SessionRow) (cur : Z) (counts : gmap Z Z) :
  examDate < cur →
  previewLoop studyHoursPerDay sessionDuration examDate l cur counts = [].
Proof.
  revert counts. induction l as [|s l IH]; intros counts Hc; simpl; [done|].
  replace (Z.to_nat (examDate - cur + 1)) with 0%nat by lia. simpl. by apply IH.
Qed.

Lemma previewFits_test (counts : gmap Z Z) (d : Z) :
  Qpositive (hoursFor studyHoursPerDay (getDay d))
  && Qle_bool (inject_Z (default 0%Z (counts !! d)) * inject_Z sessionDuration
               + inject_Z sessionDuration)%Q
              (minutesOf (hoursFor studyHoursPerDay (getDay d))) = true
  ↔ previewFits studyHoursPerDay sessionDuration counts d.
Proof.
  unfold previewFits, available.
  rewrite andb_true_iff, Qpositive_iff, Qle_bool_iff.
  assert (Heq : (inject_Z (default 0%Z (counts !! d)) * inject_Z sessionDuration
                 + inject_Z sessionDuration
                 == inject_Z ((default 0 (counts !! d) + 1) * sessionDuration)%Z)%Q).
  { rewrite inject_Z_mult, inject_Z_plus. change (inject_Z 1) with 1%Q. ring. }
  by rewrite Heq.
Qed.

Lemma previewSlot_first (fuel : nat) (cur : Z) (counts : gmap Z Z) (d cur' : Z) :
  previewSlot studyHoursPerDay sessionDuration examDate fuel cur counts = (Some d, cur') →
  previewFits studyHoursPerDay sessionDuration counts d
  ∧ ∀ d', cur ≤ d' < d → ¬ previewFits studyHoursPerDay sessionDuration counts d'.
Proof.
  revert cur. induction fuel as [|fuel IH]; intros cur; simpl; [done|].
  destruct (Z.leb_spec cur examDate); [|done].
  pose proof (previewFits_test counts cur) as Ht.
  destruct (Qpositive _); simpl in Ht.
  - destruct (Qle_bool _ _).
    + intros [= <- <-]. split; [by apply Ht|]. intros; lia.
    + intros [Hf Hn]%IH. split; [done|]. intros d' Hd'.
      destruct (decide (d' = cur)) as [->|]; [|apply Hn; lia].
      intros Hc. by apply Ht in Hc.
  - intros [Hf Hn]%IH. split; [done|]. intros d' Hd'.
    destruct (decide (d' = cur)) as [->|]; [|apply Hn; lia].
    intros Hc. by apply Ht in Hc.
Qed.

Lemma previewSlot_none (fuel : nat) (cur : Z) (counts : gmap Z Z) (cur' : Z) :
  previewSlot studyHoursPerDay sessionDuration examDate fuel cur counts = (None, cur') →
  (Z.to_nat (examDate - cur + 1) ≤ fuel)%nat →
  ∀ d', cur ≤ d' ≤ examDate → ¬ previewFits studyHoursPerDay sessionDuration counts d'.
Proof.
  revert cur. induction fuel as [|fuel IH]; intros cur; simpl.
  - intros _ Hf d' Hd'. lia.
  - destruct (Z.leb_spec cur examDate); [|intros _ _ d' Hd'; lia].
    pose proof (previewFits_test counts cur) as Ht.
    destruct (Qpositive _); simpl in Ht.
    + destruct (Qle_bool _ _); [done|].
      intros H' Hf d' Hd'.
      destruct (decide (d' = cur)) as [->|]; [|apply (IH _ H'); lia].
      intros Hc. by apply Ht in Hc.
    + intros H' Hf d' Hd'.
      destruct (decide (d' = cur)) as [->|]; [|apply (IH _ H'); lia].
      intros Hc. by apply Ht in Hc.
Qed.

(** The preview loop gives every session in turn the first date that takes
    it, and stops at the first session that finds none. *)
Lemma previewLoop_trace (l : list SessionRow) (cur : Z) (counts : gmap Z Z) :
  PreviewTrace studyHoursPerDay sessionDuration examDate l cur counts
    (previewLoop studyHoursPerDay sessionDuration examDate l cur counts).
Proof.
  revert cur counts. induction l as [|s l IH]; intros cur counts; simpl.
  - constructor.
  - destruct (previewSlot _ _ _ _ _ _) as [[d|] cur'] eqn:E.
    + pose proof (previewSlot_first _ _ _ _ _ E) as [Hf Hn].
      apply previewSlot_Some in E as [-> Hd].
      by apply PreviewTrace_found.
    + pose proof (previewSlot_none _ _ _ _ E ltac:(lia)) as Hn.
      apply previewSlot_None in E; [|lia].
      rewrite previewLoop_past by done. by apply PreviewTrace_exhausted.
Qed.

(** The entries stand for a prefix of the overdue sessions, in order. *)
Lemma previewLoop_prefix (l : list SessionRow) (cur : Z) (counts : gmap Z Z) :
  let es := previewLoop studyHoursPerDay sessionDuration examDate l cur counts in
  (length es ≤ length l)%nat
  ∧ (λ e, (sessionId e, originalDate e)) <$> es
    = (λ r, (row_id r, row_session_date r)) <$> take (length es) l
  ∧ Forall (λ e, cur ≤ newDate e ≤ examDate) es.
Proof.
  revert cur counts. induction l as [|s l IH]; intros cur counts; simpl.
  - split_and!; [done|done|constructor].
  - destruct (previewSlot _ _ _ _ _ _) as [[d|] cur'] eqn:E.
    + apply previewSlot_Some in E as [-> Hd].
      destruct (IH d (<[d:=default 0 (counts !! d) + 1]> counts)) as (H1 & H2 & H3).
      remember (previewLoop studyHoursPerDay sessionDuration examDate l d
                  (<[d:=default 0 (counts !! d) + 1]> counts)) as es.
      split_and!.
      * simpl. lia.
      * cbn [length take]. rewrite !fmap_cons. by rewrite H2.
      * constructor; [simpl; lia|].
        eapply Forall_impl; [apply H3|]. simpl. intros; lia.
    + apply previewSlot_None in E; [|lia].
      rewrite previewLoop_past by done. simpl. split_and!; [lia|done|constructor].
Qed.

End PreviewFacts.

Lemma Sorted_weaken {A} (R R' : A → A → Prop) (l : list A) :
  (∀ a b, R a b → R' a b) → Sorted R l → Sorted R' l.
Proof.
  intros Himp. induction 1 as [|x l Hl IH Hx]; constructor; [done|].
  destruct Hx; constructor. by apply Himp.
Qed.

Lemma byDateThenId_total (a b : SessionRow) :
  byDateThenId a b = false → byDateThenId b a = true.
Proof. unfold byDateThenId. lia. Qed.

Lemma byDateThenId_spec (a b : SessionRow) :
  byDateThenId a b = true
  ↔ row_session_date a < row_session_date b
    ∨ (row_session_date a = row_session_date b ∧ row_id a ≤ row_id b).
Proof. unfold byDateThenId. lia. Qed.

(** C7, as stated, fails: six overdue sessions, all of which find a date,
    give a response that lists five entries. *)
Lemma replan_preview_lists_five_of_six :
  ∃ l, (replanPreviewRoute sixOverdueDb 1 7 sunday).1 = OverduePreview 6 l 6
       ∧ length l = 5%nat
       ∧ length (overdueQuery sixOverdueDb 1 sunday) = 6%nat.
Proof. eexists. split; [vm_compute; reflexivity|]. split; reflexivity. Qed.

Section IntroductionFacts.

Lemma newTopicIds_push_new (a : Agenda) (d : Z) (t : Topic) :
  newTopicIds (agenda_push a d {| draft := newTopicDraft t; session_date := d |})
  ≡ₚ topic_id t :: newTopicIds a.
Proof. unfold newTopicIds. by rewrite agenda_sessions_push. Qed.

Lemma newTopicIds_push_other (a : Agenda) (d : Z) (s : SessionDraft) :
  sessionType s ≠ NovoTopico →
  newTopicIds (agenda_push a d {| draft := s; session_date := d |})
  ≡ₚ newTopicIds a.
Proof.
  intros Hs. unfold newTopicIds. rewrite agenda_sessions_push. simpl.
  by destruct (decide (sessionType s = NovoTopico)).
Qed.

Lemma Placed_newTopicIds (G : Agenda → Z → SessionDraft → Prop) (a b : Agenda) :
  (∀ a d s, G a d s → sessionType s ≠ NovoTopico) →
  Placed G a b → newTopicIds b ≡ₚ newTopicIds a.
Proof.
  intros HG. induction 1 as [|a d s a' Hg _ IH]; [done|].
  rewrite IH. apply newTopicIds_push_other. by eapply HG.
Qed.

Lemma Placed_sessionsOn_le (G : Agenda → Z → SessionDraft → Prop) (a b : Agenda)
    (d : Z) :
  Placed G a b → sessionsOn a d ≤ sessionsOn b d.
Proof.
  induction 1 as [|a d' s a' _ _ IH]; [lia|].
  etrans; [|apply IH]. apply sessionsOn_push_le.
Qed.

(** *** The weighted list and its shuffle *)

Lemma elem_of_weightedTopics (pendingTopics : list Topic) (t : Topic) :
  t ∈ weightedTopics pendingTopics ↔ t ∈ pendingTopics ∧ priority t ≠ 0%nat.
Proof.
  unfold weightedTopics. rewrite list_elem_of_In, in_flat_map. split.
  - intros (x & Hx & Ht). apply list_elem_of_In in Hx, Ht.
    apply elem_of_replicate in Ht as [-> ?]. done.
  - intros [Ht Hp]. exists t. rewrite <- !list_elem_of_In.
    split; [done|]. by apply elem_of_replicate.
Qed.

Lemma swap_perm (w : list Topic) (i j : nat) : swap w i j ≡ₚ w.
Proof.
  unfold swap. destruct (w !! i) as [wi|] eqn:Ei; [|done].
  destruct (w !! j) as [wj|] eqn:Ej; [|done].
  by apply Permutation_insert_swap.
Qed.

Lemma fisherYates_perm (rnd : nat → nat) (i : nat) (w : list Topic) :
  fisherYates rnd i w ≡ₚ w.
Proof.
  revert w. induction i as [|i IH]; intros w; simpl; [done|].
  by rewrite IH, swap_perm.
Qed.

Lemma shuffle_perm (rnd : nat → nat) (w : list Topic) : shuffle rnd w ≡ₚ w.
Proof. apply fisherYates_perm. Qed.

(** *** De-duplication through the [Map] *)

Lemma firstOccurrences_elem (l : list Z) (y : Z) : y ∈ firstOccurrences l ↔ y ∈ l.
Proof.
  induction l as [|x l IH]; simpl; [done|].
  rewrite !elem_of_cons, list_elem_of_filter, IH.
  destruct (decide (y = x)); tauto.
Qed.

Lemma firstOccurrences_NoDup (l : list Z) : NoDup (firstOccurrences l).
Proof.
  induction l as [|x l IH]; simpl; constructor.
  - rewrite list_elem_of_filter. by intros [? _].
  - by apply NoDup_filter.
Qed.

Lemma map_set_keys (m : list (Z * Topic)) (k : Z) (v : Topic) :
  (map_set m k v).*1 = if decide (k ∈ m.*1) then m.*1 else m.*1 ++ [k].
Proof.
  induction m as [|[k' v'] m IH]; [done|].
  cbn [map_set]. destruct (Z.eqb_spec k k') as [->|Hne]; rewrite !fmap_cons; cbn [fst].
  - clear IH. case_decide as H; [done|]. exfalso. apply H. by left.
  - rewrite IH. clear IH.
    destruct (decide (k ∈ m.*1)) as [Hin|Hnin];
      destruct (decide (k ∈ k' :: m.*1)) as [Hin'|Hnin']; try done.
    + exfalso. apply Hnin'. by right.
    + apply elem_of_cons in Hin' as [?|?]; done.
Qed.

Lemma map_set_ids (m : list (Z * Topic)) (item : Topic) :
  Forall (λ e, topic_id e.2 = e.1) m →
  Forall (λ e, topic_id e.2 = e.1) (map_set m (topic_id item) item).
Proof.
  induction 1 as [|[k' v'] m Hk Hm IH]; simpl.
  - by repeat constructor.
  - destruct (Z.eqb_spec (topic_id item) k') as [<-|Hne]; constructor; done.
Qed.

Lemma foldl_map_set_ids (w : list Topic) (m : list (Z * Topic)) :
  Forall (λ e, topic_id e.2 = e.1) m →
  Forall (λ e, topic_id e.2 = e.1)
         (foldl (λ m item, map_set m (topic_id item) item) m w).
Proof.
  revert m. induction w as [|x w IH]; intros m Hm; simpl; [done|].
  by apply IH, map_set_ids.
Qed.

Lemma foldl_map_set_keys (w : list Topic) (m : list (Z * Topic)) :
  (foldl (λ m item, map_set m (topic_id item) item) m w).*1
  = m.*1 ++ filter (λ y, y ∉ m.*1) (firstOccurrences (topic_id <$> w)).
Proof.
  revert m. induction w as [|x w IH]; intros m; simpl.
  - by rewrite filter_nil, app_nil_r.
  - rewrite IH, map_set_keys. rewrite filter_cons.
    destruct (decide (topic_id x ∈ m.*1)) as [Hin|Hnin].
    + destruct (decide (topic_id x ∉ m.*1)); [done|].
      f_equal. rewrite list_filter_filter. apply list_filter_iff.
      intros y. split; [|tauto]. intros Hy. split; [done|]. by intros ->.
    + destruct (decide (topic_id x ∉ m.*1)); [|done].
      rewrite <- app_assoc. simpl. do 2 f_equal.
      rewrite list_filter_filter. apply list_filter_iff.
      intros y. rewrite elem_of_app, list_elem_of_singleton. tauto.
Qed.

Lemma filter_all {A} (P : A → Prop) `{!∀ x, Decision (P x)} (l : list A) :
  (∀ x, P x) → filter P l = l.
Proof.
  intros HP. induction l as [|x l IH]; [done|].
  rewrite filter_cons. destruct (decide (P x)); [by rewrite IH|].
  exfalso. auto.
Qed.

Lemma uniqueInOrder_ids (w : list Topic) :
  topic_id <$> uniqueInOrder w = firstOccurrences (topic_id <$> w).
Proof.
  unfold uniqueInOrder.
  pose proof (foldl_map_set_ids w [] ltac:(constructor)) as Hids.
  pose proof (foldl_map_set_keys w []) as Hkeys. simpl in Hkeys.
  rewrite filter_all in Hkeys by (intros y ?%elem_of_nil; done).
  rewrite <- Hkeys.
  generalize dependent (foldl (λ m item, map_set m (topic_id item) item) [] w).
  intros m Hm _. induction Hm as [|[k v] m Hk Hm IH]; [done|].
  rewrite !fmap_cons. simpl in Hk. cbn [fst snd]. by rewrite Hk, IH.
Qed.

End IntroductionFacts.

Section IntroductionRun.

Context (hours : list Q) (sessionDuration today examDate : Z).

Local Abbreviation ok st := (cache_ok hours sessionDuration today (availableDatesCache st)).
Local Abbreviation reviewG := (reviewGuard hours sessionDuration today examDate).
Local Abbreviation mockG := (mockGuard hours sessionDuration today examDate).
Local Abbreviation essayG := (essayGuard hours today examDate).
Local Abbreviation Spare := (spare hours sessionDuration).

Lemma reviewGuard_not_new (a : Agenda) (d : Z) (s : SessionDraft) :
  reviewG a d s → sessionType s ≠ NovoTopico.
Proof. intros [(t & k & ->) _]. done. Qed.

Lemma essayGuard_not_new (a : Agenda) (d : Z) (s : SessionDraft) :
  essayG a d s → sessionType s ≠ NovoTopico.
Proof. intros [-> _]. done. Qed.

Lemma mockGuard_not_new (a : Agenda) (d : Z) (s : SessionDraft) :
  mockG a d s → sessionType s ≠ NovoTopico.
Proof. intros (_ & [H|H] & _); by rewrite H. Qed.

Lemma not_spare_mono (G : Agenda → Z → SessionDraft → Prop) (a b : Agenda) (d : Z) :
  Placed G a b → ¬ Spare a d → ¬ Spare b d.
Proof.
  intros Hp Hn Hs. apply Hn. unfold spare in *.
  pose proof (Placed_sessionsOn_le G a b d Hp). lia.
Qed.

(** The new-topic loop introduces an initial run of the ordered topics, one
    session each, and stops short only when no available weekday from
    today to the exam has room. *)
Lemma newTopicsLoop_ids (ts : list Topic) (st : RunState) (cur : Z) (last : option Z) :
  ok st → today ≤ cur →
  (∀ d, today ≤ d < cur → eligible hours true d → ¬ Spare (agenda st) d) →
  let r := newTopicsLoop hours sessionDuration examDate ts st cur last in
  ∃ n, (n ≤ length ts)%nat
       ∧ newTopicIds (agenda r.1)
         ≡ₚ (topic_id <$> take n ts) ++ newTopicIds (agenda st)
       ∧ (n = length ts
          ∨ weekdaysExhausted hours sessionDuration today examDate (agenda r.1)).
Proof.
  revert st cur last. induction ts as [|topic ts IH]; intros st cur last Hok Hcur Hfull.
  - exists 0%nat. simpl. split_and!; [lia|done|by left].
  - cbn [newTopicsLoop].
    pose proof (findNextAvailableSlot_spec hours sessionDuration examDate
                  st today cur true Hok Hcur) as (Hag & Hok' & _ & Hr).
    destruct (findNextAvailableSlot _ _ _ _ _ _) as [[[j d]|] st1]; simpl in Hag, Hok', Hr.
    + destruct Hr as [(Hrange & Hel & Hsp & Hfirst) _].
      set (st2 := addSessionToAgenda st1 d (newTopicDraft topic)).
      set (st3 := foldl (cascadeReview hours sessionDuration examDate topic d) st2 [7; 14; 28]).
      assert (Hd : today ≤ d) by lia.
      destruct (cascade_phase hours sessionDuration today examDate topic d st2 Hok' Hd)
        as [Hp3 Hok3]. fold st3 in Hp3, Hok3.
      assert (Hfull3 : ∀ d', today ≤ d' < d → eligible hours true d' →
                             ¬ Spare (agenda st3) d').
      { intros d' Hd' He'. eapply not_spare_mono; [apply Hp3|].
        subst st2. simpl. rewrite Hag. intros Hs. unfold spare in Hs.
        pose proof (sessionsOn_push_le (agenda st) d d'
                      {| draft := newTopicDraft topic; session_date := d |}) as Hle.
        destruct (decide (d' < cur)) as [Hlt|Hge].
        - apply (Hfull d'); [lia|done|]. unfold spare. lia.
        - apply (Hfirst d'); [lia|done|]. unfold spare. lia. }
      destruct (IH st3 d (Some d) Hok3 Hd Hfull3) as (n & Hn & Hids & Hend).
      exists (S n). simpl. split_and!; [lia| |].
      * rewrite Hids.
        rewrite (Placed_newTopicIds _ _ _ reviewGuard_not_new Hp3).
        subst st2. simpl. rewrite Hag, newTopicIds_push_new.
        by rewrite <- Permutation_middle.
      * destruct Hend as [->|Hex]; [by left|by right].
    + exists 0%nat. simpl. split_and!; [lia|by rewrite Hag|]. right.
      rewrite Hag. intros d' Hd' He'.
      destruct (decide (d' < cur)) as [Hlt|Hge].
      * apply Hfull; [lia|done].
      * apply Hr; [lia|done].
Qed.

End IntroductionRun.

(** C8 — Unique introduction.  In one generate run the new-topic sessions
    carry pairwise distinct topics, each of them a topic not marked done;
    the ordered list the run walks is the shuffled weighted list with every
    id kept at its first occurrence, and the shuffle only permutes the
    weighted list.  With every priority at least 1, each pending topic gets
    its new-topic session (hence exactly one), unless no available weekday
    from today to the exam date has room left. *)
Theorem unique_introduction
    (hours : list Q) (sessionDuration today examDate : Z) (hasEssay : bool)
    (allTopics completedTopics : list Topic) (rnd : nat → nat) :
  (∀ t, t ∈ pendingOf allTopics → (1 ≤ priority t)%nat) →
  let weighted := weightedTopics (pendingOf allTopics) in
  let run := scheduleRun hours sessionDuration today examDate hasEssay
               allTopics completedTopics rnd in
  NoDup (newTopicIds (agenda run))
  ∧ (∀ tid, tid ∈ newTopicIds (agenda run) →
            ∃ t, t ∈ pendingOf allTopics ∧ topic_id t = tid)
  ∧ shuffle rnd weighted ≡ₚ weighted
  ∧ topic_id <$> uniqueInOrder (shuffle rnd weighted)
    = firstOccurrences (topic_id <$> shuffle rnd weighted)
  ∧ ((∀ t, t ∈ pendingOf allTopics → topic_id t ∈ newTopicIds (agenda run))
     ∨ weekdaysExhausted hours sessionDuration today examDate (agenda run)).
Proof.
  intros Hprio weighted run.
  set (ordered := uniqueInOrder (shuffle rnd weighted)).
  assert (Hord : topic_id <$> ordered = firstOccurrences (topic_id <$> shuffle rnd weighted))
    by apply uniqueInOrder_ids.
  assert (Hmem : ∀ tid, tid ∈ topic_id <$> ordered
                        ↔ ∃ t, t ∈ pendingOf allTopics ∧ topic_id t = tid).
  { intros tid. rewrite Hord, firstOccurrences_elem, list_elem_of_fmap. split.
    - intros (t & -> & Ht). rewrite shuffle_perm in Ht.
      apply elem_of_weightedTopics in Ht as [Ht _]. eauto.
    - intros (t & Ht & <-). exists t. split; [done|]. rewrite shuffle_perm.
      apply elem_of_weightedTopics. split; [done|]. specialize (Hprio t Ht). lia. }
  (* the state the new-topic loop starts from *)
  set (st1 := if hasEssay then essayPhase hours sessionDuration today examDate emptyRun
              else emptyRun).
  assert (H1 : Phase hours sessionDuration today (essayGuard hours today examDate)
                     emptyRun st1).
  { subst st1. destruct hasEssay.
    - apply essayPhase_phase; [apply cache_ok_empty|done].
    - apply Phase_refl, cache_ok_empty. }
  set (st2 := completedReviews hours sessionDuration today examDate st1 completedTopics).
  pose proof (completedReviews_phase hours sessionDuration today examDate
                completedTopics st1 (proj2 H1)) as H2. fold st2 in H2.
  assert (Hids2 : newTopicIds (agenda st2) = []).
  { apply Permutation_nil_r.
    rewrite (Placed_newTopicIds _ _ _
               (reviewGuard_not_new hours sessionDuration today examDate) (proj1 H2)).
    by rewrite (Placed_newTopicIds _ _ _
                  (essayGuard_not_new hours today examDate) (proj1 H1)). }
  destruct (newTopicsLoop_ids hours sessionDuration today examDate ordered st2 today None
              (proj2 H2) (Z.le_refl _) ltac:(intros; lia)) as (n & Hn & Hids & Hend).
  rewrite Hids2, app_nil_r in Hids.
  pose proof (newTopicsLoop_phase hours sessionDuration today examDate ordered st2 today None
                (proj2 H2) (Z.le_refl _) ltac:(done)) as [H3 Hlast].
  (* the agenda the run ends with holds the same new-topic sessions *)
  assert (Hrun : newTopicIds (agenda run) ≡ₚ topic_id <$> take n ordered
                 ∧ (pendingOf allTopics ≠ [] →
                    agenda run
                    = agenda (newTopicsLoop hours sessionDuration examDate
                                ordered st2 today None).1)).
  { subst run. unfold scheduleRun. fold weighted. fold ordered. fold st1. fold st2.
    destruct (newTopicsLoop hours sessionDuration examDate ordered st2 today None)
      as [st3 last]. simpl in *.
    destruct (length (pendingOf allTopics) =? 0)%nat eqn:E.
    - split.
      + rewrite <- Hids.
        apply (Placed_newTopicIds _ _ _
                 (mockGuard_not_new hours sessionDuration today examDate)).
        apply examSimulation_placed; [apply H3|].
        unfold maintenanceStart. destruct last as [d|]; [|lia].
        specialize (Hlast d eq_refl). lia.
      + intros Hne. apply Nat.eqb_eq, length_zero_iff_nil in E. done.
    - done. }
  destruct Hrun as [Hrun Hsame].
  split_and!.
  - rewrite Hrun, fmap_take, Hord.
    eapply sublist_NoDup; [apply firstOccurrences_NoDup|apply sublist_take].
  - intros tid Htid. rewrite Hrun in Htid. apply Hmem.
    rewrite fmap_take in Htid. apply elem_of_take in Htid as (i & Hi & _).
    by eapply list_elem_of_lookup_2.
  - apply shuffle_perm.
  - done.
  - destruct (decide (pendingOf allTopics = [])) as [Hnil|Hne].
    + left. rewrite Hnil. by intros t ?%elem_of_nil.
    + destruct Hend as [->|Hex].
      * left. intros t Ht. rewrite Hrun, firstn_all. apply Hmem. eauto.
      * right. by rewrite (Hsame Hne).
Qed.

Section CapacityFacts.

Context (hours : list Q) (sessionDuration today examDate : Z).

Local Abbreviation anyG := (anyGuard hours sessionDuration today examDate).

(** Each bucket of the agenda holds exactly the sessions of its date. *)
Lemma Placed_sessionsDated (G : Agenda → Z → SessionDraft → Prop) (a : Agenda) :
  Placed G [] a → ∀ d, sessionsOn a d = sessionsDated (agenda_sessions a) d.
Proof.
  intros Hp. apply (Placed_invariant G
    (λ a, ∀ d, sessionsOn a d = sessionsDated (agenda_sessions a) d) [] a); [|done|done].
  clear. intros a d0 s Ha _ d. unfold sessionsDated.
  rewrite agenda_sessions_push, filter_cons. simpl.
  destruct (decide (d0 = d)) as [->|Hne].
  - rewrite sessionsOn_push_eq, Ha. unfold sessionsDated. simpl. lia.
  - rewrite sessionsOn_push_ne, Ha by done. done.
Qed.

Lemma anyGuard_bound (hasEssay : bool) (a : Agenda) :
  Placed (anyG hasEssay) [] a →
  ∀ d, sessionsOn a d
       ≤ Z.max (capacity hours sessionDuration d) (essayAllowance hasEssay d).
Proof.
  intros Hp. apply (Placed_invariant (anyG hasEssay)
    (λ a, ∀ d, sessionsOn a d
               ≤ Z.max (capacity hours sessionDuration d) (essayAllowance hasEssay d))
    [] a); [|done|].
  - clear. intros a d0 s Ha Hg d.
    destruct (decide (d0 = d)) as [->|Hne];
      [|rewrite sessionsOn_push_ne by done; apply Ha].
    rewrite sessionsOn_push_eq.
    destruct Hg as [[-> (_ & _ & _ & Hsun & Hz)]|[H|[H|H]]].
    + unfold essayAllowance. rewrite Hz, Hsun. simpl. lia.
    + destruct H as (_ & _ & _ & Hsp). unfold spare in Hsp. lia.
    + destruct H as (_ & _ & _ & Hsp). unfold spare in Hsp. lia.
    + destruct H as (_ & _ & _ & _ & Hsp). unfold spare in Hsp. lia.
  - intros d. unfold essayAllowance, sessionsOn. simpl. destruct (hasEssay && _); lia.
Qed.

(** Where the capacity invariant does hold: every date of a run's agenda
    holds no session, or at most its capacity, or — on a Sunday of a plan
    with essay practice — the single essay session. *)
Lemma scheduleRun_capacity (hasEssay : bool) (allTopics completedTopics : list Topic)
    (rnd : nat → nat) (d : Z) :
  let n := sessionsDated
             (agenda_sessions
                (agenda (scheduleRun hours sessionDuration today examDate hasEssay
                           allTopics completedTopics rnd))) d in
  n ≤ capacity hours sessionDuration d
  ∨ n = 0
  ∨ (hasEssay = true ∧ getDay d = 0 ∧ n = 1).
Proof.
  intros n.
  pose proof (scheduleRun_placed hours sessionDuration today examDate hasEssay
                allTopics completedTopics rnd) as Hp.
  pose proof (anyGuard_bound hasEssay _ Hp d) as Hb.
  rewrite (Placed_sessionsDated _ _ Hp d) in Hb. fold n in Hb.
  assert (0 ≤ n) by (subst n; unfold sessionsDated; lia).
  unfold essayAllowance in Hb.
  destruct hasEssay; simpl in Hb; [|lia].
  destruct (Z.eqb_spec (getDay d) 0); lia.
Qed.

End CapacityFacts.

Lemma countSessionsOn_inserted (planId d : Z) (l : list Session) (rows : list SessionRow) :
  length (filter (λ r, study_plan_id r = planId ∧ row_session_date r = d)
                 (foldl (insertSession planId) rows l))
  = (length (filter (λ r, study_plan_id r = planId ∧ row_session_date r = d) rows)
     + length (filter (λ s, session_date s = d) l))%nat.
Proof.
  revert rows. induction l as [|s l IH]; intros rows; simpl; [lia|].
  rewrite IH. unfold insertSession at 1. rewrite filter_app, length_app.
  rewrite filter_cons, filter_nil. simpl. rewrite (filter_cons _ s).
  destruct (decide (session_date s = d)) as [Hd|Hd].
  - destruct (decide (planId = planId ∧ session_date s = d)) as [_|Hn]; [simpl; lia|].
    exfalso. by apply Hn.
  - destruct (decide (planId = planId ∧ session_date s = d)) as [[_ ?]|_]; [done|].
    simpl. lia.
Qed.

(** X1 — Capacity at the store.  After a completed generate run, the
    number of rows the plan holds on a date is at most the date's capacity
    (the minutes of the weekday over the session length, rounded down as
    the run computes it),
    unless the date holds no row of the plan or the row is the lone essay
    of an essay Sunday. *)
Lemma generated_capacity
    (db : Db) (planId userId : Z) (req : GenerateRequest) (today : Z)
    (rnd : nat → nat) (plan : PlanRow) (db' : Db) (d : Z) :
  selectPlan db planId = Some plan →
  generate db planId userId req today rnd = (ScheduleCommitted, db') →
  let c := countSessionsOn db' planId d in
  c ≤ capacity (req_study_hours_per_day req)
               (orDefault (req_session_duration_minutes req) 50) d
  ∨ c = 0
  ∨ (has_essay plan = true ∧ getDay d = 0 ∧ c = 1).
Proof.
  unfold generate, updatePlanSettings. intros ->.
  destruct (totalWeeklyHours (req_study_hours_per_day req) =? 0); [done|].
  destruct (length (allTopicsQuery (deleteSessionsOfPlan db planId) planId) =? 0)%nat;
    [done|].
  intros [= <-]. set (c := countSessionsOn _ planId d).
  assert (Hc : c = sessionsDated
                     (agenda_sessions
                        (agenda (scheduleRun (req_study_hours_per_day req)
                                   (orDefault (req_session_duration_minutes req) 50)
                                   today (exam_date plan) (has_essay plan)
                                   (allTopicsQuery (deleteSessionsOfPlan db planId) planId)
                                   (completedTopicsQuery (deleteSessionsOfPlan db planId) planId)
                                   rnd))) d).
  { subst c. unfold countSessionsOn, sessionsDated. cbn [insertSessions study_sessions].
    rewrite countSessionsOn_inserted.
    rewrite (filter_none _ (study_sessions (deleteSessionsOfPlan db planId))); [done|].
    intros r [_ Hne]%elem_of_deleteSessionsOfPlan [Heq _]. done. }
  rewrite Hc. apply scheduleRun_capacity.
Qed.

Section ConfigurationFacts.

Lemma parseInt10_whole (h : Q) (z : Z) :
  0 ≤ z < 2 ^ 53 → (h == inject_Z z)%Q → parseInt10 h = z.
Proof.
  intros Hz Hh. unfold parseInt10.
  pose proof (inject_Z_nonneg z ltac:(lia)) as Hz0.
  destruct (Qeq_bool h 0) eqn:E0.
  { apply Qeq_bool_iff in E0. rewrite Hh in E0.
    unfold Qeq in E0. simpl in E0. lia. }
  apply Qeq_bool_neq in E0.
  assert (1 ≤ z) as Hz1.
  { destruct (Z.eq_dec z 0) as [->|]; [|lia]. exfalso. by apply E0. }
  apply inject_Z_ge_1 in Hz1.
  assert (Qabs h == inject_Z z)%Q as Ha by (rewrite Hh; by apply Qabs_pos).
  assert (Qle_bool (roundNearest (1 # 1000000)) (Qabs h) = true) as ->.
  { apply Qle_bool_iff. rewrite Ha.
    assert (roundNearest (1 # 1000000) <= 1)%Q
      by (apply Qle_bool_iff; vm_compute; reflexivity).
    lra. }
  assert (Qle_bool (10 ^ 21) (Qabs h) = false) as ->.
  { destruct (Qle_bool _ _) eqn:E; [|done]. apply Qle_bool_iff in E.
    assert (2 ^ 53 <= 10 ^ 21)%Q as Hp
      by (apply Qle_bool_iff; vm_compute; reflexivity).
    assert (inject_Z z < 2 ^ 53)%Q
      by (rewrite <- two_Z, <- Zlt_Qlt by done; lia).
    rewrite Ha in E. lra. }
  cbn [andb negb].
  assert (Qle_bool 0 h = true) as -> by (apply Qle_bool_iff; by rewrite Hh).
  rewrite (Qfloor_comp _ _ Ha). apply Qfloor_Z.
Qed.

Lemma parsedHours_whole (z : Z) :
  0 ≤ z < 2 ^ 53 → parsedHours (inject_Z z) = z.
Proof.
  intros Hz. unfold parsedHours, overflows, toDouble.
  pose proof (roundNearest_Z z Hz) as Hr.
  pose proof (inject_Z_nonneg z ltac:(lia)) as Hz0.
  assert (Qle_bool (2 ^ 1024) (Qabs (roundNearest (inject_Z z))) = false)
    as ->.
  { destruct (Qle_bool _ _) eqn:E; [|done]. apply Qle_bool_iff in E.
    rewrite Hr, Qabs_pos in E by done.
    pose proof (two_lt 53 1024 ltac:(done)) as Hp.
    rewrite <- (two_Z 53) in Hp by done.
    assert (inject_Z z < inject_Z (2 ^ 53))%Q by (rewrite <- Zlt_Qlt; lia).
    lra. }
  by apply parseInt10_whole.
Qed.

Lemma addNumbers_exact (sum n : Z) :
  0 ≤ sum + n < 2 ^ 53 → addNumbers sum n = sum + n.
Proof.
  intros H. unfold addNumbers.
  rewrite (Qfloor_comp _ _ (roundNearest_Z _ H)). apply Qfloor_Z.
Qed.

Lemma totalWeeklyHours_whole (zs : list Z) :
  Forall (λ z, 0 ≤ z) zs → foldr Z.add 0 zs < 2 ^ 53 →
  totalWeeklyHours (inject_Z <$> zs) = foldr Z.add 0 zs.
Proof.
  intros Hzs Hsum. unfold totalWeeklyHours.
  assert (H : ∀ acc, 0 ≤ acc → acc + foldr Z.add 0 zs < 2 ^ 53 →
                foldl (λ sum h, addNumbers sum (parsedHours h)) acc
                      (inject_Z <$> zs)
                = acc + foldr Z.add 0 zs).
  { clear Hsum. induction Hzs as [|z zs Hz Hzs IH]; intros acc Hacc Hsum;
      simpl in *; [lia|].
    assert (0 ≤ foldr Z.add 0 zs) as Hs0.
    { clear -Hzs. induction Hzs; simpl; lia. }
    rewrite parsedHours_whole, addNumbers_exact by lia.
    rewrite IH by lia. lia. }
  by rewrite H.
Qed.

Lemma weekly_total_whole (zs : list Z) :
  (foldr Qplus 0 (inject_Z <$> zs) == inject_Z (foldr Z.add 0%Z zs))%Q.
Proof.
  induction zs as [|z zs IH]; simpl; [reflexivity|].
  by rewrite IH, inject_Z_plus.
Qed.

(** X9 — The configuration error.  For an existing plan the error is
    raised exactly when the hours the handler parses sum to zero, and the
    refused run returns the store untouched.  Each entry counts for the
    whole number [parseInt] reads off its print: on whole-number hours from
    0 on whose weekly total is below [2 ^ 53] the parsed sum is the total,
    and is zero exactly when the total is; half an hour counts for nothing,
    and [1e-7] hours and [1e21] hours, which print as [1e-7] and [1e+21],
    count for one hour each. *)
Lemma configuration_error_law
    (db : Db) (planId userId : Z) (req : GenerateRequest) (today : Z)
    (rnd : nat → nat) (plan : PlanRow) :
  selectPlan db planId = Some plan →
  ((generate db planId userId req today rnd).1 = NoStudyHours
   ↔ totalWeeklyHours (req_study_hours_per_day req) = 0)
  ∧ ((generate db planId userId req today rnd).1 = NoStudyHours →
     (generate db planId userId req today rnd).2 = db)
  ∧ (∀ zs, req_study_hours_per_day req = inject_Z <$> zs →
           Forall (λ z, 0 ≤ z) zs → foldr Z.add 0 zs < 2 ^ 53 →
           totalWeeklyHours (req_study_hours_per_day req) = foldr Z.add 0 zs
           ∧ (totalWeeklyHours (req_study_hours_per_day req) = 0
              ↔ (foldr Qplus 0 (req_study_hours_per_day req) == 0)%Q))
  ∧ parsedHours (1 # 2) = 0
  ∧ parsedHours (1 # 10000000) = 1
  ∧ parsedHours (inject_Z (10 ^ 21)) = 1.
Proof.
  intros Hplan.
  assert (∀ zs, req_study_hours_per_day req = inject_Z <$> zs →
           Forall (λ z, 0 ≤ z) zs → foldr Z.add 0 zs < 2 ^ 53 →
           totalWeeklyHours (req_study_hours_per_day req) = foldr Z.add 0 zs
           ∧ (totalWeeklyHours (req_study_hours_per_day req) = 0
              ↔ (foldr Qplus 0 (req_study_hours_per_day req) == 0)%Q))
    as Hwhole.
  { intros zs -> Hzs Hsum.
    rewrite totalWeeklyHours_whole, weekly_total_whole by done.
    split; [done|]. split; [by intros ->|].
    intros Hq. unfold Qeq in Hq. simpl in Hq. lia. }
  assert (parsedHours (1 # 2) = 0 ∧ parsedHours (1 # 10000000) = 1
          ∧ parsedHours (inject_Z (10 ^ 21)) = 1) as Hsamples
    by (vm_compute; done).
  unfold generate, updatePlanSettings. rewrite Hplan.
  destruct (Z.eqb_spec (totalWeeklyHours (req_study_hours_per_day req)) 0) as [Hz|Hnz].
  - split_and!; [done|done|done|apply Hsamples..].
  - split_and!; [|by destruct (length _ =? 0)%nat|done|apply Hsamples..].
    split; [|done].
    by destruct (length _ =? 0)%nat.
Qed.

End ConfigurationFacts.

Section AgreementFacts.

Context (hours : list Q) (sessionDuration examDate planId today : Z).

Hypothesis duration_positive : 0 < sessionDuration.
Hypothesis no_sunday_hours : Qpositive (hoursFor hours 0) = false.
Hypothesis hours_in_range : Forall (λ h, (h <= 2 ^ 46)%Q) hours.

Lemma hoursFor_in_range (dow : Z) : (hoursFor hours dow <= 2 ^ 46)%Q.
Proof.
  unfold hoursFor. rewrite <- (two_Z 46) by done.
  apply toDouble_le; [done|]. rewrite two_Z by done.
  destruct (nth_in_or_default (Z.to_nat dow) hours 0%Q) as [Hin| ->]; [|done].
  rewrite Forall_forall in hours_in_range. apply hours_in_range.
  by apply list_elem_of_In.
Qed.

(** The two capacity tests say the same of a date with positive hours. *)
Lemma capacity_tests_agree (h : Q) (c : Z) :
  Qpositive h = true → (h <= 2 ^ 46)%Q → 0 ≤ c →
  Qle_bool (inject_Z c * inject_Z sessionDuration + inject_Z sessionDuration)
           (minutesOf h)
  = Qpositive (minutesOf h)
    && (c <? Qfloor (roundNearest (minutesOf h / inject_Z sessionDuration))).
Proof.
  intros Hh Hr Hc. apply Qpositive_iff in Hh.
  assert (Hh0 : (0 <= h)%Q) by by apply Qlt_le_weak.
  change (Qfloor (roundNearest (minutesOf h / inject_Z sessionDuration)))
    with (maxSessionsFor h sessionDuration).
  assert (Heq : (inject_Z c * inject_Z sessionDuration + inject_Z sessionDuration
                 == inject_Z ((c + 1) * sessionDuration))%Q).
  { rewrite inject_Z_mult, inject_Z_plus. change (inject_Z 1) with 1%Q. ring. }
  pose proof (maxSessionsFor_le h sessionDuration (c + 1) Hh0 Hr ltac:(lia))
    as Hle.
  apply eq_true_iff_eq.
  rewrite andb_true_iff, Qle_bool_iff, Z.ltb_lt, Heq, Qpositive_iff, <- Hle.
  split; [|intros [_ ?]; lia].
  intros H. split; [|lia]. apply Hle in H.
  pose proof (inject_Z_ge_1 ((c + 1) * sessionDuration) ltac:(nia)). lra.
Qed.

Lemma minutesOf_nonpositive (h : Q) :
  Qpositive h = false → Qpositive (minutesOf h) = false.
Proof.
  intros Hh. destruct (Qpositive (minutesOf h)) eqn:E; [|done].
  apply Qpositive_iff in E.
  assert (¬ (0 < h)%Q) as Hn by (rewrite <- Qpositive_iff; congruence).
  apply Qnot_lt_le in Hn.
  pose proof (roundNearest_nonpos (h * 60) ltac:(lra)) as Hr.
  unfold minutesOf in E. lra.
Qed.

(** On coherent counts the commit search finds what the preview finds. *)
Lemma slots_agree (fuel : nat) (cur : Z) (counts : gmap Z Z) (db : Db) :
  countsAgree planId today examDate counts db → today ≤ cur →
  replanSlot hours sessionDuration examDate planId fuel cur db
  = (previewSlot hours sessionDuration examDate fuel cur counts).1.
Proof.
  intros Hagree. revert cur. induction fuel as [|fuel IH]; intros cur Hcur; simpl; [done|].
  destruct (Z.leb_spec cur examDate) as [Hle|Hgt]; [|done].
  destruct (Z.eqb_spec (getDay cur) 0) as [Hsun|Hnsun].
  - rewrite Hsun, no_sunday_hours. apply IH. lia.
  - destruct (Qpositive (hoursFor hours (getDay cur))) eqn:Hpos.
    + rewrite (Hagree cur) by lia.
      rewrite (capacity_tests_agree _ _ Hpos (hoursFor_in_range _))
        by (unfold countSessionsOn; lia).
      destruct (_ && _); [done|]. apply IH. lia.
    + rewrite (minutesOf_nonpositive _ Hpos). simpl. apply IH. lia.
Qed.

End AgreementFacts.

Section CountFacts.

Context (planId : Z).

Lemma sessionCounts_fold (from to d : Z) (rows : list SessionRow) (m : gmap Z Z) :
  from ≤ d ≤ to →
  default 0
    (foldl (λ (m : gmap Z Z) r,
              if decide (study_plan_id r = planId
                         ∧ from ≤ row_session_date r ∧ row_session_date r ≤ to)
              then <[row_session_date r := default 0 (m !! row_session_date r) + 1]> m
              else m) m rows !! d)
  = default 0 (m !! d)
    + Z.of_nat (length (filter (λ r, study_plan_id r = planId ∧ row_session_date r = d)
                               rows)).
Proof.
  intros Hd. revert m. induction rows as [|r rows IH]; intros m; simpl; [lia|].
  rewrite IH, filter_cons.
  destruct (decide (study_plan_id r = planId ∧ row_session_date r = d)) as [[Hp Hr]|Hn].
  - destruct (decide (_ ∧ _)) as [_|Hn]; [|exfalso; apply Hn; split; [done|lia]].
    rewrite Hr, lookup_insert_eq. simpl. lia.
  - destruct (decide (_ ∧ _)) as [[Hp _]|_]; [|done].
    rewrite lookup_insert_ne; [done|]. intros Hr. apply Hn. done.
Qed.

Lemma sessionCountsQuery_agree (db : Db) (from to : Z) :
  countsAgree planId from to (sessionCountsQuery db planId from to) db.
Proof.
  intros d Hd. unfold sessionCountsQuery, countSessionsOn.
  rewrite sessionCounts_fold by done. by rewrite lookup_empty.
Qed.

Lemma updateSessionDate_ids (db : Db) (sid d : Z) :
  row_id <$> study_sessions (updateSessionDate db sid d) = row_id <$> study_sessions db.
Proof.
  simpl. induction (study_sessions db) as [|r rows IH]; [done|].
  rewrite !fmap_cons. cbn [map]. rewrite <- IH. f_equal.
  by destruct (row_id r =? sid).
Qed.

Lemma updateSessionDate_other (db : Db) (sid d : Z) (r : SessionRow) :
  r ∈ study_sessions db → row_id r ≠ sid →
  r ∈ study_sessions (updateSessionDate db sid d).
Proof.
  intros Hr Hne. simpl. apply list_elem_of_In, in_map_iff. exists r.
  apply list_elem_of_In in Hr. split; [|done].
  destruct (Z.eqb_spec (row_id r) sid); done.
Qed.

Lemma updateSessionDate_moved (db : Db) (d : Z) (s : SessionRow) :
  s ∈ study_sessions db →
  ∃ r, r ∈ study_sessions (updateSessionDate db (row_id s) d)
       ∧ row_id r = row_id s ∧ row_session_date r = d.
Proof.
  intros Hs. eexists. split; [|split].
  - simpl. apply list_elem_of_In, in_map_iff. exists s.
    apply list_elem_of_In in Hs. split; [reflexivity|done].
  - rewrite Z.eqb_refl. done.
  - rewrite Z.eqb_refl. done.
Qed.

Lemma count_unmoved (sid d d' : Z) (rows : list SessionRow) :
  (∀ r, r ∈ rows → row_id r ≠ sid) →
  map (λ r, if row_id r =? sid
            then {| row_id := row_id r; study_plan_id := study_plan_id r;
                    row_topic_id := row_topic_id r;
                    row_subject_name := row_subject_name r;
                    row_topic_description := row_topic_description r;
                    row_session_date := d;
                    row_session_type := row_session_type r;
                    row_status := row_status r |}
            else r) rows = rows.
Proof.
  intros Hne. induction rows as [|r rows IH]; [done|]. simpl.
  destruct (Z.eqb_spec (row_id r) sid) as [He|_].
  - exfalso. eapply Hne; [by left|done].
  - f_equal. apply IH. intros x Hx. apply Hne. by right.
Qed.

(** Moving one session of the plan from a date other than [d'] onto [d]
    adds one to the count of [d] and leaves every other count as it was. *)
Lemma countSessionsOn_update (db : Db) (s : SessionRow) (d d' : Z) :
  NoDup (row_id <$> study_sessions db) →
  s ∈ study_sessions db → study_plan_id s = planId → row_session_date s ≠ d' →
  countSessionsOn (updateSessionDate db (row_id s) d) planId d'
  = countSessionsOn db planId d' + (if decide (d = d') then 1 else 0).
Proof.
  intros Hnd Hs Hp Hdate. unfold countSessionsOn. cbn [updateSessionDate study_sessions].
  apply list_elem_of_split in Hs as (l1 & l2 & Hrows). rewrite Hrows in *.
  rewrite fmap_app, fmap_cons in Hnd.
  apply NoDup_app in Hnd as (_ & Hl1 & Hl2). apply NoDup_cons in Hl2 as [Hl2 _].
  rewrite map_app. cbn [map]. rewrite Z.eqb_refl.
  rewrite (count_unmoved (row_id s) d d' l1), (count_unmoved (row_id s) d d' l2).
  - rewrite !filter_app, !length_app, !filter_cons. cbn [study_plan_id row_session_date].
    destruct (decide (study_plan_id s = planId ∧ row_session_date s = d')) as [[_ ?]|_];
      [done|].
    destruct (decide (d = d')) as [->|Hne].
    + destruct (decide (study_plan_id s = planId ∧ d' = d')) as [_|Hn];
        [simpl; lia|exfalso; by apply Hn].
    + destruct (decide (study_plan_id s = planId ∧ d = d')) as [[_ ?]|_]; [done|].
      simpl. lia.
  - intros r Hr Heq. apply Hl2. rewrite <- Heq. apply list_elem_of_fmap. eauto.
  - intros r Hr Heq. apply (Hl1 (row_id r)).
    + apply list_elem_of_fmap. eauto.
    + rewrite Heq. by left.
Qed.

End CountFacts.

(** C7, as the code has it — Preview listing.  For a plan with overdue work
    the preview answers with [count], the number of pending sessions dated
    before today, and computes an entry [{sessionId, originalDate, newDate}]
    for an initial run of those sessions taken in order of original date then
    id — the sessions that found a date before the exam; [totalToReplan] is
    the number of such entries and the response lists the first five of them
    at most.  The entries are those of the search: starting today, with the
    number of sessions the plan holds on each date from today to the exam,
    every overdue session in turn gets the first date, from the date the
    search stands on up to the exam date, whose weekday has study hours and
    whose minutes take the sessions counted there and one more; the search
    stays on that date, which counts one session more from then on, and the
    first session that finds no date ends the listing.  The store is
    returned as it was. *)
Theorem replan_preview_listing
    (db : Db) (planId userId todayStr : Z) (plan : PlanRow) :
  selectPlanOfUser db planId userId = Some plan →
  overdueQuery db planId todayStr ≠ [] →
  let overdue := overdueQuery db planId todayStr in
  ∃ entries,
    replanPreviewRoute db planId userId todayStr
    = (OverduePreview (length overdue) (take 5 entries) (length entries), db)
    ∧ (length entries ≤ length overdue)%nat
    ∧ (λ e, (sessionId e, originalDate e)) <$> entries
      = (λ r, (row_id r, row_session_date r)) <$> take (length entries) overdue
    ∧ Forall (λ e, todayStr ≤ newDate e ≤ exam_date plan) entries
    ∧ overdue ≡ₚ filter (λ r, study_plan_id r = planId ∧ row_status r = Pendente
                              ∧ row_session_date r < todayStr) (study_sessions db)
    ∧ Sorted (λ a b, row_session_date a < row_session_date b
                     ∨ (row_session_date a = row_session_date b ∧ row_id a ≤ row_id b))
             overdue
    ∧ PreviewTrace (study_hours_per_day plan)
        (orDefault (session_duration_minutes plan) 50) (exam_date plan)
        overdue todayStr
        (sessionCountsQuery db planId todayStr (exam_date plan)) entries
    ∧ countsAgree planId todayStr (exam_date plan)
        (sessionCountsQuery db planId todayStr (exam_date plan)) db.
Proof.
  intros Hplan Hne overdue.
  set (entries := previewLoop (study_hours_per_day plan)
                    (orDefault (session_duration_minutes plan) 50) (exam_date plan)
                    overdue todayStr
                    (sessionCountsQuery db planId todayStr (exam_date plan))).
  exists entries.
  destruct (previewLoop_prefix (study_hours_per_day plan)
              (orDefault (session_duration_minutes plan) 50) (exam_date plan)
              overdue todayStr
              (sessionCountsQuery db planId todayStr (exam_date plan)))
    as (H1 & H2 & H3).
  split_and!; try done.
  - unfold replanPreviewRoute. rewrite Hplan. fold overdue.
    destruct (length overdue =? 0)%nat eqn:E; [|done].
    apply Nat.eqb_eq, length_zero_iff_nil in E. done.
  - apply sort_by_perm.
  - eapply Sorted_weaken; [|apply sort_by_sorted, byDateThenId_total].
    intros a b. apply byDateThenId_spec.
  - apply previewLoop_trace.
  - apply sessionCountsQuery_agree.
Qed.

Section LoopAgreement.

Context (hours : list Q) (sessionDuration examDate planId today : Z).

Hypothesis duration_positive : 0 < sessionDuration.
Hypothesis no_sunday_hours : Qpositive (hoursFor hours 0) = false.
Hypothesis hours_in_range : Forall (λ h, (h <= 2 ^ 46)%Q) hours.

(** Off Sundays the commit loop stores, for every session the preview
    placed, the date the preview computed; it keeps every other row, every
    row id and the plans table. *)
Lemma loops_agree (l : list SessionRow) (cur : Z) (counts : gmap Z Z) (db : Db) :
  NoDup (row_id <$> study_sessions db) →
  NoDup (row_id <$> l) →
  (∀ s, s ∈ l → s ∈ study_sessions db ∧ study_plan_id s = planId
                ∧ row_session_date s < today) →
  today ≤ cur →
  countsAgree planId today examDate counts db →
  let db' := replanLoop hours sessionDuration examDate planId l cur db in
  Forall (λ e, ∃ r, r ∈ study_sessions db' ∧ row_id r = sessionId e
                    ∧ row_session_date r = newDate e)
         (previewLoop hours sessionDuration examDate l cur counts)
  ∧ (∀ r, r ∈ study_sessions db → row_id r ∉ row_id <$> l → r ∈ study_sessions db')
  ∧ row_id <$> study_sessions db' = row_id <$> study_sessions db
  ∧ study_plans db' = study_plans db.
Proof.
  revert cur counts db.
  induction l as [|s l IH]; intros cur counts db Hnd Hl Hin Hcur Hagree; simpl.
  - split_and!; [constructor|done|done|done].
  - unfold findNextAvailableSlotDb.
    rewrite (slots_agree hours sessionDuration examDate planId today
               duration_positive no_sunday_hours hours_in_range
               _ cur counts db Hagree Hcur).
    destruct (previewSlot _ _ _ _ _ _) as [[d|] cur'] eqn:E; simpl.
    + apply previewSlot_Some in E as [-> Hd].
      apply NoDup_cons in Hl as [Hs Hl].
      destruct (Hin s ltac:(by left)) as (Hsdb & Hsp & Hsd).
      set (db1 := updateSessionDate db (row_id s) d).
      destruct (IH d (<[d:=default 0 (counts !! d) + 1]> counts) db1) as (H1 & H2 & H3 & H4).
      * subst db1. by rewrite updateSessionDate_ids.
      * done.
      * intros x Hx. destruct (Hin x ltac:(by right)) as (? & ? & ?).
        split_and!; try done. apply updateSessionDate_other; [done|].
        intros Heq. apply Hs. rewrite <- Heq. apply list_elem_of_fmap. eauto.
      * lia.
      * intros d' Hd'. subst db1.
        rewrite (countSessionsOn_update planId db s d d') by (try done; lia).
        destruct (decide (d = d')) as [->|Hne].
        -- rewrite lookup_insert_eq. simpl. rewrite <- (Hagree d') by lia. done.
        -- rewrite lookup_insert_ne by done. rewrite (Hagree d') by lia. lia.
      * split_and!.
        -- constructor; [|done]. simpl.
           destruct (updateSessionDate_moved db d s Hsdb) as (r & Hr & Hid & Hdate).
           exists r. split_and!; try done. apply H2; [done|]. by rewrite Hid.
        -- intros r Hr Hnin. apply H2.
           ++ apply updateSessionDate_other; [done|].
              intros Heq. apply Hnin. rewrite Heq. left.
           ++ intros Hr'. apply Hnin. by right.
        -- rewrite H3. subst db1. apply updateSessionDate_ids.
        -- by rewrite H4.
    + apply previewSlot_None in E; [|lia].
      rewrite previewLoop_past by done.
      split_and!; [constructor|done|done|done].
Qed.

End LoopAgreement.

Lemma NoDup_fmap_filter {A B} (f : A → B) (P : A → Prop) `{!∀ x, Decision (P x)}
    (l : list A) :
  NoDup (f <$> l) → NoDup (f <$> filter P l).
Proof.
  intros Hnd. eapply sublist_NoDup; [done|]. apply fmap_sublist, sublist_filter.
Qed.

(** X10 — Where preview and commit agree.  When Sunday carries no study
    hours and no weekday more than [2 ^ 46] of them, so that the minutes of
    a day are a double below [2 ^ 52] (and row ids are unique, as a primary
    key is), the commit run right after a preview stores, for every session
    the preview placed, exactly the previewed date, keeps the row ids
    unique, and adds one to the plan's postponement counter and to no
    other. *)
Lemma preview_commit_agree_off_sundays
    (db : Db) (planId userId todayStr : Z) (plan : PlanRow) :
  selectPlanOfUser db planId userId = Some plan →
  NoDup (row_id <$> study_sessions db) →
  0 ≤ session_duration_minutes plan →
  Qpositive (hoursFor (study_hours_per_day plan) 0) = false →
  Forall (λ h, (h <= 2 ^ 46)%Q) (study_hours_per_day plan) →
  overdueQuery db planId todayStr ≠ [] →
  let db' := (replanRoute db planId userId todayStr).2 in
  ∃ entries,
    (replanPreviewRoute db planId userId todayStr).1
    = OverduePreview (length (overdueQuery db planId todayStr)) (take 5 entries)
                     (length entries)
    ∧ Forall (λ e, ∃ r, r ∈ study_sessions db' ∧ row_id r = sessionId e
                        ∧ row_session_date r = newDate e) entries
    ∧ NoDup (row_id <$> study_sessions db')
    ∧ postponement_count <$> study_plans db'
      = (λ p, if plan_id p =? planId then postponement_count p + 1
              else postponement_count p) <$> study_plans db.
Proof.
  intros Hplan Hnd Hdur Hsun Hrange Hne db'.
  set (overdue := overdueQuery db planId todayStr) in *.
  set (dur := orDefault (session_duration_minutes plan) 50).
  assert (Hdpos : 0 < dur).
  { subst dur. unfold orDefault.
    destruct (Z.eqb_spec (session_duration_minutes plan) 0); lia. }
  assert (Hperm : overdue ≡ₚ filter (λ r, study_plan_id r = planId ∧ row_status r = Pendente
                                          ∧ row_session_date r < todayStr)
                                    (study_sessions db)) by apply sort_by_perm.
  destruct (loops_agree (study_hours_per_day plan) dur (exam_date plan) planId todayStr
              Hdpos Hsun Hrange overdue todayStr
              (sessionCountsQuery db planId todayStr (exam_date plan)) db)
    as (H1 & _ & H3 & H4).
  - done.
  - rewrite Hperm. by apply NoDup_fmap_filter.
  - intros s Hs. rewrite Hperm in Hs. apply list_elem_of_filter in Hs as [(? & _ & ?) ?].
    done.
  - lia.
  - apply sessionCountsQuery_agree.
  - assert (Hlen : (length overdue =? 0)%nat = false).
    { apply Nat.eqb_neq. intros ?%length_zero_iff_nil. done. }
    exists (previewLoop (study_hours_per_day plan) dur (exam_date plan) overdue todayStr
              (sessionCountsQuery db planId todayStr (exam_date plan))).
    subst db'. unfold replanPreviewRoute, replanRoute. rewrite Hplan.
    fold overdue. rewrite Hlen. fold dur.
    cbn [fst snd bumpPostponement study_sessions study_plans].
    split_and!; [done|done|by rewrite H3|].
    rewrite H4. clear. induction (study_plans db) as [|p ps IH]; [done|].
    cbn [map]. rewrite !fmap_cons, IH. f_equal. by destruct (plan_id p =? planId).
Qed.

Section ReviewDays.

Context (hours : list Q) (sessionDuration today examDate : Z).

(** Across a whole run, every review session sits on a Saturday with study
    hours, between today and the exam date. *)
Lemma scheduleRun_reviews_on_saturdays (hasEssay : bool)
    (allTopics completedTopics : list Topic) (rnd : nat → nat) (s : Session) (k : Z) :
  s ∈ agenda_sessions (agenda (scheduleRun hours sessionDuration today examDate hasEssay
                                 allTopics completedTopics rnd)) →
  sessionType (draft s) = Revisao k →
  getDay (session_date s) = 6 ∧ available hours (session_date s)
  ∧ today ≤ session_date s ≤ examDate.
Proof.
  revert s.
  apply (Placed_invariant (anyGuard hours sessionDuration today examDate hasEssay)
           (λ a, ∀ s, s ∈ agenda_sessions a → sessionType (draft s) = Revisao k →
                      getDay (session_date s) = 6 ∧ available hours (session_date s)
                      ∧ today ≤ session_date s ≤ examDate)
           [] _); [|apply scheduleRun_placed|by intros s ?%elem_of_nil].
  intros a d x Ha Hg s [->|Hs]%elem_of_agenda_push Hty; [|by apply Ha].
  simpl in *. destruct Hg as [[_ [-> _]]|[H|[H|H]]].
  - done.
  - destruct H as (_ & ? & [? ?] & _). done.
  - destruct H as [(t & ->) _]. done.
  - destruct H as (_ & [H|H] & _); rewrite H in Hty; done.
Qed.

End ReviewDays.

(** The groups of four cover the completed topics, in order. *)
Lemma chunks_concat (fuel : nat) (l : list string) :
  (length l ≤ fuel)%nat → concat (chunks fuel l) = l.
Proof.
  revert l. induction fuel as [|fuel IH]; intros l Hl.
  - destruct l; [done|simpl in Hl; lia].
  - destruct l as [|x l]; [done|].
    cbn [chunks concat]. rewrite IH; [apply take_drop|].
    rewrite length_drop. simpl in *. lia.
Qed.


Section TraceFacts.

Context (hours : list Q) (sessionDuration today examDate : Z).
Context (hasEssay : bool) (pendingTopics completedTopics allTopics : list Topic).

Local Abbreviation ok st := (cache_ok hours sessionDuration today (availableDatesCache st)).
Local Abbreviation PhaseOf G := (Phase hours sessionDuration today G).
Local Abbreviation reviewS :=
  (reviewStep hours sessionDuration today examDate pendingTopics completedTopics).
Local Abbreviation newTopicS :=
  (newTopicStep hours sessionDuration today examDate pendingTopics).
Local Abbreviation runS :=
  (runStep hours sessionDuration today examDate hasEssay pendingTopics completedTopics
           allTopics).
Local Abbreviation origin := (reviewOrigin pendingTopics completedTopics).

Lemma Placed_elem (G : Agenda → Z → SessionDraft → Prop) (a b : Agenda) (s : Session) :
  Placed G a b → s ∈ agenda_sessions a → s ∈ agenda_sessions b.
Proof.
  induction 1 as [|a d x a' _ _ IH]; [done|].
  intros Hs. apply IH, elem_of_agenda_push. by right.
Qed.

(** A fold of phases, each step knowing how the state it starts from was
    reached. *)
Lemma Phase_foldl_from {A} G (f : RunState → A → RunState) (l : list A)
    (st0 : RunState) :
  (∀ st x, x ∈ l → PhaseOf G st0 st → PhaseOf G st (f st x)) →
  ok st0 → PhaseOf G st0 (foldl f st0 l).
Proof.
  intros Hf Hok.
  assert (H : ∀ st, PhaseOf G st0 st → PhaseOf G st0 (foldl f st l)).
  { clear Hok. induction l as [|x l IH]; intros st Hst; simpl; [done|].
    apply IH.
    - intros st' y Hy. apply Hf. by right.
    - eapply Phase_trans; [apply Hst|]. apply Hf; [by left|done]. }
  apply H. by apply Phase_refl.
Qed.

Lemma review_step_traced (topic : Topic) (target k : Z) (st : RunState) :
  ok st → today ≤ target → k ∈ [7; 14; 28] →
  (∀ d, target ≤ d → origin (agenda st) topic k d) →
  PhaseOf reviewS st
    (let '(reviewDay, st1) :=
       getNextSaturdayForReview hours sessionDuration examDate st target in
     match reviewDay with
     | Some d => addSessionToAgenda st1 d (reviewDraft topic k)
     | None => st1
     end).
Proof.
  intros Hok Ht Hk Horigin.
  pose proof (getNextSaturdayForReview_spec hours sessionDuration examDate
                st today target Hok Ht) as (Hag & Hok' & Hr).
  destruct (getNextSaturdayForReview _ _ _ _ _) as [[d|] st1]; simpl in *.
  - split; simpl; [|done]. rewrite Hag. apply Placed_one.
    destruct Hr as (? & ? & ? & _). exists topic, k.
    split_and!; try done; try lia. apply Horigin. lia.
  - split; [|done]. rewrite Hag. constructor.
Qed.

Lemma completedReviews_traced (l : list Topic) (st : RunState) :
  l ⊆ completedTopics → ok st →
  PhaseOf reviewS st (completedReviews hours sessionDuration today examDate st l).
Proof.
  intros Hl Hok. unfold completedReviews. apply Phase_foldl; [|done].
  intros st' topic Hin Hok'. destruct (completion_date topic) as [X|] eqn:EX.
  - apply Phase_foldl; [|done]. intros st'' k Hk Hok''.
    unfold completedReview.
    destruct (Z.leb_spec today (X + k)); simpl; [|by apply Phase_refl].
    destruct (X + k <=? examDate); [|by apply Phase_refl].
    apply review_step_traced; [done|done|done|].
    intros d Hd. left. split; [by apply Hl|]. exists X. done.
  - by apply Phase_refl.
Qed.

Lemma cascade_traced (topic : Topic) (X : Z) (st : RunState) :
  ok st → today ≤ X → topic ∈ pendingTopics →
  {| draft := newTopicDraft topic; session_date := X |} ∈ agenda_sessions (agenda st) →
  PhaseOf reviewS st
    (foldl (cascadeReview hours sessionDuration examDate topic X) st [7; 14; 28]).
Proof.
  intros Hok HX Hp Hs0. apply Phase_foldl_from; [|done].
  intros st' k Hk [Hplaced Hok']. unfold cascadeReview.
  destruct (X + k <=? examDate); [|by apply Phase_refl].
  pose proof (offsets_nonneg k Hk).
  apply review_step_traced; [done|lia|done|].
  intros d Hd. right. split; [done|].
  exists {| draft := newTopicDraft topic; session_date := X |}.
  split_and!; [by eapply Placed_elem|done|simpl; lia].
Qed.

Lemma newTopicsLoop_traced (ts : list Topic) (st : RunState) (cur : Z) (last : option Z) :
  ts ⊆ pendingTopics → ok st → today ≤ cur →
  PhaseOf (λ a d s, newTopicS a d s ∨ reviewS a d s) st
    (newTopicsLoop hours sessionDuration examDate ts st cur last).1.
Proof.
  revert st cur last. induction ts as [|topic ts IH]; intros st cur last Hts Hok Hcur; simpl.
  - by apply Phase_refl.
  - pose proof (findNextAvailableSlot_spec hours sessionDuration examDate
                  st today cur true Hok Hcur) as (Hag & Hok' & _ & Hr).
    destruct (findNextAvailableSlot _ _ _ _ _ _) as [[[j d]|] st1]; simpl in *.
    + destruct Hr as [(Hrange & Hel & Hsp & _) _].
      assert (Hd : today ≤ d) by lia.
      set (st2 := addSessionToAgenda st1 d (newTopicDraft topic)).
      assert (H2 : PhaseOf (λ a d s, newTopicS a d s ∨ reviewS a d s) st st2).
      { split; [|done]. simpl. rewrite Hag. apply Placed_one. left.
        exists topic. split_and!; try done; try lia. apply Hts. by left. }
      assert (H3 : PhaseOf (λ a d s, newTopicS a d s ∨ reviewS a d s) st2
                (foldl (cascadeReview hours sessionDuration examDate topic d) st2 [7; 14; 28])).
      { eapply Phase_mono; [|apply cascade_traced; [apply H2|done| |]].
        - intros ? ? ? ?. by right.
        - apply Hts. by left.
        - subst st2. simpl. apply elem_of_agenda_push. by left. }
      eapply Phase_trans; [apply H2|]. eapply Phase_trans; [apply H3|].
      apply IH; [|apply H3|done].
      intros t Ht. apply Hts. by right.
    + split; [|done]. rewrite Hag. constructor.
Qed.

Lemma elem_of_map_set (m : list (Z * Topic)) (k : Z) (v x : Topic) :
  x ∈ (map_set m k v).*2 → x = v ∨ x ∈ m.*2.
Proof.
  induction m as [|[k' v'] m IH]; cbn [map_set].
  - rewrite fmap_cons, elem_of_cons. simpl. intros [->|?]; [by left|by right].
  - destruct (k =? k'); rewrite !fmap_cons, !elem_of_cons; cbn [snd].
    + intros [->|?]; [by left|right; by right].
    + intros [->|[->|?]%IH]; [right; by left|by left|right; by right].
Qed.

Lemma elem_of_uniqueInOrder (w : list Topic) (x : Topic) :
  x ∈ uniqueInOrder w → x ∈ w.
Proof.
  unfold uniqueInOrder.
  assert (H : ∀ m, x ∈ (foldl (λ m item, map_set m (topic_id item) item) m w).*2 →
                   x ∈ m.*2 ∨ x ∈ w).
  { induction w as [|y w IH]; intros m; simpl; [by left|].
    intros [[->|?]%elem_of_map_set|?]%IH.
    - right. by left.
    - by left.
    - right. by right. }
  intros [Hx|Hx]%H; [|done]. by apply elem_of_nil in Hx.
Qed.

Lemma examSimulation_skipped (st : RunState) (ms : Z) (pend compl all : list Topic) :
  simGate pend compl all = false →
  examSimulation hours sessionDuration examDate st ms pend compl all = st.
Proof.
  intros H. unfold examSimulation, directedStage, basicFullMockStage, recurringStage.
  by rewrite H.
Qed.

End TraceFacts.

Section TracedRun.

Context (hours : list Q) (sessionDuration today examDate : Z).

(** Every insertion of a generate run, with where it comes from. *)
Lemma scheduleRun_traced (hasEssay : bool) (allTopics completedTopics : list Topic)
    (rnd : nat → nat) :
  Placed (runStep hours sessionDuration today examDate hasEssay
                  (pendingOf allTopics) completedTopics allTopics) []
    (agenda (scheduleRun hours sessionDuration today examDate hasEssay
               allTopics completedTopics rnd)).
Proof.
  set (G := runStep hours sessionDuration today examDate hasEssay
              (pendingOf allTopics) completedTopics allTopics).
  unfold scheduleRun.
  set (st1 := if hasEssay then essayPhase hours sessionDuration today examDate emptyRun
              else emptyRun).
  assert (H1 : Phase hours sessionDuration today G emptyRun st1).
  { subst st1. destruct hasEssay.
    - eapply Phase_mono; [|apply essayPhase_phase; [apply cache_ok_empty|done]].
      intros ? ? ? ?. left. done.
    - apply Phase_refl, cache_ok_empty. }
  set (st2 := completedReviews hours sessionDuration today examDate st1 completedTopics).
  assert (H2 : Phase hours sessionDuration today G st1 st2).
  { eapply Phase_mono;
      [|apply (completedReviews_traced hours sessionDuration today examDate
                 (pendingOf allTopics) completedTopics); [done|apply H1]].
    intros ? ? ? ?. right. by left. }
  set (order := uniqueInOrder (shuffle rnd (weightedTopics (pendingOf allTopics)))).
  assert (Horder : order ⊆ pendingOf allTopics).
  { intros t Ht. subst order. apply elem_of_uniqueInOrder in Ht.
    rewrite shuffle_perm in Ht. by apply elem_of_weightedTopics in Ht as [? _]. }
  pose proof (newTopicsLoop_traced hours sessionDuration today examDate
                (pendingOf allTopics) completedTopics order st2 today None
                Horder (proj2 H2) (Z.le_refl _)) as H3.
  pose proof (newTopicsLoop_phase hours sessionDuration today examDate
                order st2 today None (proj2 H2) (Z.le_refl _) ltac:(done)) as [_ Hlast].
  destruct (newTopicsLoop _ _ _ _ _ _ _) as [st3 last]. simpl in *.
  assert (H3' : Phase hours sessionDuration today G st2 st3).
  { eapply Phase_mono; [|apply H3]. intros ? ? ? [?|?]; [right; right; by left|right; by left]. }
  assert (H123 : Placed G [] (agenda st3)).
  { eapply Placed_trans; [apply H1|]. eapply Placed_trans; [apply H2|apply H3']. }
  destruct (Nat.eqb_spec (length (pendingOf allTopics)) 0) as [Hlen|Hlen]; [|done].
  destruct (simGate (pendingOf allTopics) completedTopics allTopics) eqn:Hgate;
    [|by rewrite examSimulation_skipped].
  eapply Placed_trans; [apply H123|].
  eapply Placed_mono;
    [|apply (examSimulation_placed hours sessionDuration today examDate); [apply H3|]].
  - intros ? ? ? ?. right. right. right.
    split_and!; [by apply length_zero_iff_nil|done|done].
  - unfold maintenanceStart. destruct last as [d|]; [|lia].
    specialize (Hlast d eq_refl). lia.
Qed.

End TracedRun.

Section OriginFacts.

Context (hours : list Q) (sessionDuration today examDate : Z).

Lemma getDay_range (d : Z) : 0 ≤ getDay d ≤ 6.
Proof. unfold getDay. pose proof (Z.mod_pos_bound (d + 4) 7). lia. Qed.

Lemma reviewOrigin_push (pend compl : list Topic) (a : Agenda) (d0 : Z) (x : Session)
    (topic : Topic) (k d : Z) :
  reviewOrigin pend compl a topic k d →
  reviewOrigin pend compl (agenda_push a d0 x) topic k d.
Proof.
  intros [?|(? & s0 & ? & ? & ?)]; [by left|right].
  split; [done|]. exists s0. split_and!; try done.
  apply elem_of_agenda_push. by right.
Qed.

Lemma scheduleRun_sessions (hasEssay : bool) (allTopics completedTopics : list Topic)
    (rnd : nat → nat) (s : Session) :
  let a := agenda (scheduleRun hours sessionDuration today examDate hasEssay
                     allTopics completedTopics rnd) in
  s ∈ agenda_sessions a →
  sessionOrigin hours today examDate hasEssay (pendingOf allTopics) completedTopics
                allTopics a s.
Proof.
  intros a. subst a. revert s.
  apply (Placed_invariant
           (runStep hours sessionDuration today examDate hasEssay
                    (pendingOf allTopics) completedTopics allTopics)
           (λ a, ∀ s, s ∈ agenda_sessions a →
                      sessionOrigin hours today examDate hasEssay (pendingOf allTopics)
                                    completedTopics allTopics a s)
           [] _); [|apply scheduleRun_traced|by intros s ?%elem_of_nil].
  intros a d x Ha Hg s [->|Hs]%elem_of_agenda_push.
  - unfold sessionOrigin. simpl.
    destruct Hg as [[He (-> & ? & ? & ? & _)]|[H|[H|H]]].
    + split; [lia|]. split; [done|]. left. done.
    + destruct H as (topic & k & -> & ? & ? & [? ?] & _ & Ho).
      split; [lia|]. split; [done|]. right. left. exists topic, k.
      split; [done|]. split; [done|]. split; [done|]. by apply reviewOrigin_push.
    + destruct H as (topic & -> & ? & ? & [? Hwd] & _).
      split; [lia|]. split; [done|]. right. right. left. exists topic.
      split; [done|]. split; [done|].
      pose proof (getDay_range d). destruct (Hwd eq_refl). lia.
    + destruct H as (? & ? & ? & ? & ? & ? & _).
      split; [lia|]. split; [done|]. right. right. right. done.
  - destruct (Ha s Hs) as (? & ? & Hcase). split; [done|]. split; [done|].
    destruct Hcase as [?|[(topic & k & ? & ? & ? & ?)|[?|?]]];
      [by left| |right; right; by left|right; right; by right].
    right. left. exists topic, k.
    split; [done|]. split; [done|]. split; [done|]. by apply reviewOrigin_push.
Qed.

End OriginFacts.

Section GenerateRows.

Lemma insertSessions_row (planId : Z) (l : list Session) (rows : list SessionRow)
    (r : SessionRow) :
  r ∈ foldl (insertSession planId) rows l →
  r ∈ rows ∨ ∃ s, s ∈ l ∧ rowOf planId s r.
Proof.
  revert rows. induction l as [|s l IH]; intros rows; simpl; [by left|].
  intros [Hr|(s' & ? & ?)]%IH.
  - unfold insertSession in Hr. apply elem_of_app in Hr as [Hr|Hr]; [by left|].
    apply list_elem_of_singleton in Hr as ->. right. exists s.
    split; [by left|]. done.
  - right. exists s'. split; [by right|done].
Qed.

Lemma insertSessions_mono (planId : Z) (l : list Session) (rows : list SessionRow)
    (r : SessionRow) :
  r ∈ rows → r ∈ foldl (insertSession planId) rows l.
Proof.
  revert rows. induction l as [|s l IH]; intros rows Hr; simpl; [done|].
  apply IH. unfold insertSession. apply elem_of_app. by left.
Qed.

Lemma insertSessions_session (planId : Z) (l : list Session) (rows : list SessionRow)
    (s : Session) :
  s ∈ l → ∃ r, r ∈ foldl (insertSession planId) rows l ∧ rowOf planId s r.
Proof.
  revert rows. induction l as [|x l IH]; intros rows; [by intros ?%elem_of_nil|].
  intros [->|Hs]%elem_of_cons; simpl; [|by apply IH].
  eexists. split.
  - apply insertSessions_mono. unfold insertSession. apply elem_of_app. right. by left.
  - done.
Qed.

Lemma elem_of_allTopicsQuery (db : Db) (planId : Z) (t : Topic) :
  t ∈ allTopicsQuery db planId ↔ t ∈ topics db ∧ topic_plan_id t = planId.
Proof. unfold allTopicsQuery. rewrite elem_of_sort_by, list_elem_of_filter. tauto. Qed.

Lemma elem_of_completedTopicsQuery (db : Db) (planId : Z) (t : Topic) :
  t ∈ completedTopicsQuery db planId
  ↔ t ∈ topics db ∧ topic_plan_id t = planId ∧ status t = Concluido
    ∧ is_Some (completion_date t).
Proof. unfold completedTopicsQuery. rewrite elem_of_sort_by, list_elem_of_filter. tauto. Qed.

Lemma elem_of_pendingOf (l : list Topic) (t : Topic) :
  t ∈ pendingOf l ↔ t ∈ l ∧ status t ≠ Concluido.
Proof. unfold pendingOf. rewrite list_elem_of_filter. tauto. Qed.

(** The rows a plan holds after a run that was not refused are the rows of
    the run's sessions, and every session of the run has its row. *)
Lemma generate_rows
    (db : Db) (planId userId : Z) (req : GenerateRequest) (today : Z)
    (rnd : nat → nat) (plan : PlanRow) (r : SessionRow) :
  selectPlan db planId = Some plan →
  (generate db planId userId req today rnd).1 ≠ NoStudyHours →
  r ∈ study_sessions (generate db planId userId req today rnd).2 →
  study_plan_id r = planId →
  let l := agenda_sessions
             (agenda (scheduleRun (req_study_hours_per_day req)
                        (orDefault (req_session_duration_minutes req) 50) today
                        (exam_date plan) (has_essay plan)
                        (allTopicsQuery db planId) (completedTopicsQuery db planId) rnd)) in
  (∃ s, s ∈ l ∧ rowOf planId s r)
  ∧ (∀ s, s ∈ l →
          ∃ r0, r0 ∈ study_sessions (generate db planId userId req today rnd).2
                ∧ rowOf planId s r0).
Proof.
  unfold generate, updatePlanSettings. intros -> Hresp.
  destruct (totalWeeklyHours (req_study_hours_per_day req) =? 0); [done|].
  destruct (length (allTopicsQuery (deleteSessionsOfPlan db planId) planId) =? 0)%nat.
  - simpl. intros [_ Hne]%elem_of_deleteSessionsOfPlan Heq. done.
  - cbn [snd insertSessions study_sessions].
    intros [Hr|Hs]%insertSessions_row Heq.
    + apply elem_of_deleteSessionsOfPlan in Hr as [_ Hne]. done.
    + split; [done|]. intros s Hs0. by apply insertSessions_session.
Qed.

End GenerateRows.

Section CompletedRun.

Context (hours : list Q) (sessionDuration today examDate : Z).


End CompletedRun.


(** X2 — Each kind of session on its kind of day.  After a generate run
    that was not refused for lack of study hours, every row of the plan is
    pending, lies on a date whose weekday has study hours, and sits on the
    weekday of its type: a new topic from Monday to Friday, a review on a
    Saturday, an essay on a Sunday and only in a plan with essay practice;
    a mock exam names no topic. *)
Theorem generated_sessions_fit_their_days
    (db : Db) (planId userId : Z) (req : GenerateRequest) (today : Z)
    (rnd : nat → nat) (plan : PlanRow) (r : SessionRow) :
  selectPlan db planId = Some plan →
  (generate db planId userId req today rnd).1 ≠ NoStudyHours →
  r ∈ study_sessions (generate db planId userId req today rnd).2 →
  study_plan_id r = planId →
  available (req_study_hours_per_day req) (row_session_date r)
  ∧ dayFits (has_essay plan) (row_session_type r) (row_topic_id r) (row_session_date r)
  ∧ row_status r = Pendente.
Proof.
  intros Hplan Hresp Hr Hid.
  destruct (generate_rows db planId userId req today rnd plan r Hplan Hresp Hr Hid)
    as [(s & Hs & _ & Htid & _ & _ & Hdate & Hty & Hst) _].
  apply scheduleRun_sessions in Hs as (_ & Hav & Hcase).
  rewrite Hdate, Hty, Htid. split_and!; try done.
  destruct Hcase as [(? & -> & ?)|[(topic & k & -> & _ & ? & _)
                    |[(topic & -> & _ & ?)|(_ & _ & ? & [->| ->])]]]; simpl; done.
Qed.

(** X5 — Mock exams wait for the syllabus.  If the plan holds a mock exam,
    directed or full, after a generate run that was not refused, then every
    topic of the plan was completed when the run began, and at least 95% of
    the plan's topics were completed with a completion date. *)
Theorem mock_exams_wait_for_the_syllabus
    (db : Db) (planId userId : Z) (req : GenerateRequest) (today : Z)
    (rnd : nat → nat) (plan : PlanRow) (r : SessionRow) :
  selectPlan db planId = Some plan →
  (generate db planId userId req today rnd).1 ≠ NoStudyHours →
  r ∈ study_sessions (generate db planId userId req today rnd).2 →
  study_plan_id r = planId →
  row_session_type r = SimuladoDirecionado ∨ row_session_type r = SimuladoCompleto →
  (∀ t, t ∈ topics db → topic_plan_id t = planId → status t = Concluido)
  ∧ (19 * length (allTopicsQuery db planId)
     ≤ 20 * length (completedTopicsQuery db planId))%nat.
Proof.
  intros Hplan Hresp Hr Hid Hmock.
  destruct (generate_rows db planId userId req today rnd plan r Hplan Hresp Hr Hid)
    as [(s & Hs & _ & _ & _ & _ & _ & Hty & _) _].
  apply scheduleRun_sessions in Hs as (_ & _ & Hcase).
  rewrite Hty in Hmock.
  destruct Hcase as [(? & Hd & ?)|[(topic & k & Hd & _)
                    |[(topic & Hd & _)|(Hpend & Hgate & _)]]];
    try (rewrite Hd in Hmock; simpl in Hmock; by destruct Hmock).
  assert (Hne : allTopicsQuery db planId ≠ []).
  { intros Hnil. revert Hresp Hr. unfold generate, updatePlanSettings. rewrite Hplan.
    destruct (totalWeeklyHours (req_study_hours_per_day req) =? 0); [done|].
    change (allTopicsQuery (deleteSessionsOfPlan db planId) planId)
      with (allTopicsQuery db planId).
    rewrite Hnil. simpl.
    intros _ [Hne _]%list_elem_of_filter. done. }
  apply simGate_iff in Hgate as [_ Hlen]; [|done].
  split; [|done].
  intros t Ht Htp. destruct (decide (status t = Concluido)) as [|Hst]; [done|].
  assert (Hin : t ∈ pendingOf (allTopicsQuery db planId)).
  { apply elem_of_pendingOf. split; [|done]. by apply elem_of_allTopicsQuery. }
  rewrite Hpend in Hin. by apply elem_of_nil in Hin.
Qed.

(** X3 — Reviews follow the study day.  After a generate run that was not
    refused, every review row of the plan has an offset of 7, 14 or 28 days
    and names a topic of the plan, which is either a completed topic whose
    completion date lies at least that many days before the review, or a
    topic not yet completed whose new-topic row, written by the same run,
    lies at least that many days before the review. *)
Theorem reviews_follow_their_study_day
    (db : Db) (planId userId : Z) (req : GenerateRequest) (today : Z)
    (rnd : nat → nat) (plan : PlanRow) (r : SessionRow) (k : Z) :
  selectPlan db planId = Some plan →
  (generate db planId userId req today rnd).1 ≠ NoStudyHours →
  r ∈ study_sessions (generate db planId userId req today rnd).2 →
  study_plan_id r = planId →
  row_session_type r = Revisao k →
  k ∈ [7; 14; 28]
  ∧ ∃ t, t ∈ topics db ∧ topic_plan_id t = planId
         ∧ row_topic_id r = Some (topic_id t)
         ∧ ((status t = Concluido
             ∧ ∃ X, completion_date t = Some X ∧ X + k ≤ row_session_date r)
            ∨ (status t ≠ Concluido
               ∧ ∃ r0, r0 ∈ study_sessions (generate db planId userId req today rnd).2
                       ∧ study_plan_id r0 = planId
                       ∧ row_session_type r0 = NovoTopico
                       ∧ row_topic_id r0 = Some (topic_id t)
                       ∧ row_session_date r0 + k ≤ row_session_date r)).
Proof.
  intros Hplan Hresp Hr Hid Hrev.
  destruct (generate_rows db planId userId req today rnd plan r Hplan Hresp Hr Hid)
    as [(s & Hs & _ & Htid & _ & _ & Hdate & Hty & _) Hrows].
  apply scheduleRun_sessions in Hs as (_ & _ & Hcase).
  rewrite Hty in Hrev. rewrite Htid, Hdate.
  destruct Hcase as [(? & Hd & ?)|[(topic & k' & Hd & Hk & _ & Ho)
                    |[(topic & Hd & _)|(_ & _ & _ & [Hd|Hd])]]];
    try (rewrite Hd in Hrev; simpl in Hrev; done).
  rewrite Hd in Hrev |- *. simpl in Hrev. injection Hrev as ->.
  split; [done|]. exists topic. simpl.
  destruct Ho as [[Hc HX]|(Hp & s0 & Hs0 & Hd0 & Hle)].
  - apply elem_of_completedTopicsQuery in Hc as (? & ? & ? & _).
    split_and!; try done. left. done.
  - apply elem_of_pendingOf in Hp as [[? ?]%elem_of_allTopicsQuery ?].
    split_and!; try done. right. split; [done|].
    destruct (Hrows s0 Hs0) as (r0 & Hr0 & ? & Ht0 & _ & _ & Hdate0 & Hty0 & _).
    exists r0. rewrite Hd0 in Ht0, Hty0. simpl in *.
    split_and!; try done. lia.
Qed.

(** X4 — Generated rows copy the plan's topics.  After a generate run that
    was not refused, a row of the plan that names a topic names a topic of
    that plan and carries its subject name and description; it is a review,
    or the new-topic session of a topic that is not completed.  A row that
    names no topic is an essay or a mock exam. *)
Theorem generated_rows_copy_plan_topics
    (db : Db) (planId userId : Z) (req : GenerateRequest) (today : Z)
    (rnd : nat → nat) (plan : PlanRow) (r : SessionRow) :
  selectPlan db planId = Some plan →
  (generate db planId userId req today rnd).1 ≠ NoStudyHours →
  r ∈ study_sessions (generate db planId userId req today rnd).2 →
  study_plan_id r = planId →
  match row_topic_id r with
  | Some tid =>
      ∃ t, t ∈ topics db ∧ topic_plan_id t = planId ∧ topic_id t = tid
           ∧ row_subject_name r = subject_name t
           ∧ row_topic_description r = description t
           ∧ (row_session_type r = NovoTopico ∧ status t ≠ Concluido
              ∨ ∃ k, row_session_type r = Revisao k)
  | None =>
      row_session_type r = Redacao ∨ row_session_type r = SimuladoDirecionado
      ∨ row_session_type r = SimuladoCompleto
  end.
Proof.
  intros Hplan Hresp Hr Hid.
  destruct (generate_rows db planId userId req today rnd plan r Hplan Hresp Hr Hid)
    as [(s & Hs & _ & Htid & Hname & Hdesc & _ & Hty & _) _].
  apply scheduleRun_sessions in Hs as (_ & _ & Hcase).
  rewrite Htid, Hname, Hdesc, Hty.
  destruct Hcase as [(? & -> & ?)|[(topic & k & -> & _ & _ & Ho)
                    |[(topic & -> & Hp & _)|(_ & _ & -> & Hmock)]]]; simpl.
  - by left.
  - assert (Ht : topic ∈ topics db ∧ topic_plan_id topic = planId).
    { destruct Ho as [[Hc _]|[Hp _]].
      - apply elem_of_completedTopicsQuery in Hc as (? & ? & _). done.
      - apply elem_of_pendingOf in Hp as [?%elem_of_allTopicsQuery _]. done. }
    exists topic. split_and!; try done; try apply Ht. right. by exists k.
  - apply elem_of_pendingOf in Hp as [[? ?]%elem_of_allTopicsQuery ?].
    exists topic. split_and!; try done. by left.
  - right. done.
Qed.

Section FrameFacts.

Lemma insertSessions_others (planId : Z) (l : list Session) (rows : list SessionRow) :
  filter (λ r, study_plan_id r ≠ planId) (foldl (insertSession planId) rows l)
  = filter (λ r, study_plan_id r ≠ planId) rows.
Proof.
  revert rows. induction l as [|s l IH]; intros rows; simpl; [done|].
  rewrite IH. unfold insertSession. rewrite filter_app, filter_cons, filter_nil. simpl.
  destruct (decide (planId ≠ planId)); [done|]. by rewrite app_nil_r.
Qed.

Lemma filter_twice_none (planId : Z) (rows : list SessionRow) :
  filter (λ r, study_plan_id r = planId) (filter (λ r, study_plan_id r ≠ planId) rows)
  = [].
Proof.
  apply filter_none. intros r [? _]%list_elem_of_filter. done.
Qed.

Lemma filter_twice_same (planId : Z) (rows : list SessionRow) :
  filter (λ r, study_plan_id r ≠ planId) (filter (λ r, study_plan_id r ≠ planId) rows)
  = filter (λ r, study_plan_id r ≠ planId) rows.
Proof.
  rewrite list_filter_filter. apply list_filter_iff. tauto.
Qed.

End FrameFacts.

(** X8 — What generate leaves alone.  Whatever its outcome, the route
    leaves the plans, the topics, and the sessions of every other plan as
    they were.  A run commits sessions only for a plan that has a topic;
    the "no topics" outcome leaves the plan without sessions and is given
    only when the plan has no topic; a plan that is not found and the
    configuration error leave the whole store as it was. *)
Theorem generate_touches_only_the_plan_calendar
    (db : Db) (planId userId : Z) (req : GenerateRequest) (today : Z) (rnd : nat → nat) :
  let out := generate db planId userId req today rnd in
  study_plans out.2 = study_plans db
  ∧ topics out.2 = topics db
  ∧ filter (λ r, study_plan_id r ≠ planId) (study_sessions out.2)
    = filter (λ r, study_plan_id r ≠ planId) (study_sessions db)
  ∧ match out.1 with
    | ScheduleCommitted =>
        filter (λ t, topic_plan_id t = planId) (topics db) ≠ []
    | NoTopicsFound =>
        filter (λ r, study_plan_id r = planId) (study_sessions out.2) = []
        ∧ filter (λ t, topic_plan_id t = planId) (topics db) = []
    | PlanNotFound | NoStudyHours => out.2 = db
    end.
Proof.
  unfold generate, updatePlanSettings.
  destruct (selectPlan db planId) as [plan|]; [|done].
  destruct (totalWeeklyHours (req_study_hours_per_day req) =? 0); [done|].
  change (allTopicsQuery (deleteSessionsOfPlan db planId) planId)
    with (allTopicsQuery db planId).
  destruct (Nat.eqb_spec (length (allTopicsQuery db planId)) 0) as [Hz|Hnz].
  - cbn [fst snd deleteSessionsOfPlan study_plans topics study_sessions].
    split_and!; try done.
    + apply filter_twice_same.
    + apply filter_twice_none.
    + unfold allTopicsQuery in Hz. rewrite sort_by_length in Hz.
      by apply length_zero_iff_nil.
  - cbn [fst snd insertSessions deleteSessionsOfPlan study_plans topics study_sessions].
    split_and!; try done.
    + rewrite insertSessions_others. apply filter_twice_same.
    + intros Hnil. apply Hnz. unfold allTopicsQuery.
      by rewrite sort_by_length, Hnil.
Qed.

Section TallyFacts.

Lemma tally_keys (m : list (string * SubjectData)) (t : Topic) :
  (tally m t).*1
  = if decide (subject_name t ∈ m.*1) then m.*1 else m.*1 ++ [subject_name t].
Proof.
  induction m as [|[n d] m IH]; [done|].
  cbn [tally]. destruct (String.eqb_spec n (subject_name t)) as [->|Hne];
    rewrite !fmap_cons; cbn [fst].
  - clear IH. case_decide as H; [done|]. exfalso. apply H. by left.
  - rewrite IH. clear IH.
    destruct (decide (subject_name t ∈ m.*1)) as [Hin|Hnin];
      destruct (decide (subject_name t ∈ n :: m.*1)) as [Hin'|Hnin']; try done.
    + exfalso. apply Hnin'. by right.
    + apply elem_of_cons in Hin' as [?|?]; done.
Qed.

Lemma countTopic_stats (l : list Topic) (t : Topic) :
  countTopic t (subjectStats l (subject_name t)) = subjectStats (l ++ [t]) (subject_name t).
Proof.
  unfold countTopic, subjectStats. cbn [completed total].
  rewrite !filter_app, !filter_cons, !filter_nil.
  destruct (decide (subject_name t = subject_name t)); [|done].
  rewrite length_app. simpl.
  destruct (decide (status t = Concluido)) as [Hs|Hs].
  - destruct (decide (subject_name t = subject_name t ∧ status t = Concluido)) as [_|Hn];
      [|exfalso; by apply Hn].
    rewrite fmap_app. simpl. f_equal. lia.
  - destruct (decide (subject_name t = subject_name t ∧ status t = Concluido)) as [[_ ?]|_];
      [done|].
    rewrite app_nil_r. f_equal. lia.
Qed.

Lemma subjectStats_other (l : list Topic) (t : Topic) (n : string) :
  n ≠ subject_name t → subjectStats (l ++ [t]) n = subjectStats l n.
Proof.
  intros Hne. unfold subjectStats.
  rewrite !filter_app, !filter_cons, !filter_nil.
  destruct (decide (subject_name t = n)); [done|].
  destruct (decide (subject_name t = n ∧ status t = Concluido)) as [[? _]|_]; [done|].
  by rewrite !app_nil_r.
Qed.

Lemma subjectStats_nil (n : string) :
  subjectStats [] n = {| completed := []; total := 0 |}.
Proof. done. Qed.

Lemma subjectStats_absent (l : list Topic) (n : string) :
  n ∉ subject_name <$> l → subjectStats l n = {| completed := []; total := 0 |}.
Proof.
  intros Hn. unfold subjectStats.
  rewrite (filter_none (λ t, subject_name t = n ∧ status t = Concluido)),
          (filter_none (λ t, subject_name t = n)); [done| |].
  - intros t Ht Heq. apply Hn. apply list_elem_of_fmap. eauto.
  - intros t Ht [Heq _]. apply Hn. apply list_elem_of_fmap. eauto.
Qed.

Lemma tally_stats (l : list Topic) (m : list (string * SubjectData)) (t : Topic) :
  NoDup m.*1 →
  Forall (λ e, e.2 = subjectStats l e.1) m →
  (subject_name t ∉ m.*1 →
   subjectStats l (subject_name t) = {| completed := []; total := 0 |}) →
  Forall (λ e, e.2 = subjectStats (l ++ [t]) e.1) (tally m t).
Proof.
  intros Hnd Hm. induction Hm as [|[n d] m Hd Hm IH]; intros Hnew; cbn [tally].
  - repeat constructor. simpl.
    rewrite <- countTopic_stats, Hnew; [done|]. by intros ?%elem_of_nil.
  - simpl in Hd. rewrite fmap_cons in Hnd. apply NoDup_cons in Hnd as [Hn Hnd].
    destruct (String.eqb_spec n (subject_name t)) as [->|Hne].
    + constructor.
      * simpl. by rewrite Hd, countTopic_stats.
      * apply Forall_forall. intros [n' d'] Hin.
        rewrite Forall_forall in Hm. specialize (Hm _ Hin). simpl in *.
        rewrite subjectStats_other; [done|].
        intros ->. apply Hn. apply list_elem_of_fmap. by exists (subject_name t, d').
    + constructor.
      * simpl. by rewrite subjectStats_other.
      * apply IH; [done|]. intros Hnin. apply Hnew.
        rewrite fmap_cons. intros [?|?]%elem_of_cons; [|done]. simpl in *. congruence.
Qed.

Lemma subjectCompletionMap_spec (l0 l : list Topic) (m : list (string * SubjectData)) :
  NoDup m.*1 →
  (∀ n, n ∈ m.*1 ↔ n ∈ subject_name <$> l0) →
  Forall (λ e, e.2 = subjectStats l0 e.1) m →
  let m' := foldl tally m l in
  NoDup m'.*1
  ∧ (∀ n, n ∈ m'.*1 ↔ n ∈ subject_name <$> (l0 ++ l))
  ∧ Forall (λ e, e.2 = subjectStats (l0 ++ l) e.1) m'.
Proof.
  revert l0 m. induction l as [|t l IH]; intros l0 m Hnd Hkeys Hm; simpl.
  - by rewrite app_nil_r.
  - replace (l0 ++ t :: l) with ((l0 ++ [t]) ++ l) by by rewrite <- app_assoc.
    apply IH.
    + rewrite tally_keys. case_decide as Hin; [done|].
      apply NoDup_app. split_and!; [done| |apply NoDup_singleton].
      intros n Hn ->%list_elem_of_singleton. done.
    + intros n. rewrite tally_keys, fmap_app, elem_of_app. simpl.
      rewrite list_elem_of_singleton, <- Hkeys.
      case_decide as Hin; [|by rewrite elem_of_app, list_elem_of_singleton].
      split; [by left|]. intros [?| ->]; done.
    + apply tally_stats; [done|done|].
      intros Hnin. apply subjectStats_absent. by rewrite <- Hkeys.
Qed.

End TallyFacts.

(** X6 — The subjects that get directed mocks.  [subjectsReadyForSim] lists
    exactly the subjects with two completed topics or more, each once, with
    the descriptions of its completed topics in query order and the number
    of its topics, by descending number of completed topics. *)
Theorem directed_mock_subjects (allTopics : list Topic) :
  let ready := subjectsReadyForSim allTopics in
  NoDup ready.*1
  ∧ (∀ name data,
       (name, data) ∈ ready
       ↔ data = subjectStats allTopics name ∧ (2 ≤ length (completed data))%nat)
  ∧ Sorted (λ a b, (length (completed b.2) ≤ length (completed a.2))%nat) ready.
Proof.
  intros ready. subst ready. unfold subjectsReadyForSim.
  destruct (subjectCompletionMap_spec [] allTopics []) as (Hnd & Hkeys & Hstats);
    [constructor|done|constructor|].
  simpl in Hkeys, Hstats. fold (subjectCompletionMap allTopics) in *.
  split_and!.
  - rewrite sort_by_perm. by apply NoDup_fmap_filter.
  - intros name data. rewrite elem_of_sort_by, list_elem_of_filter. simpl.
    rewrite Forall_forall in Hstats. split.
    + intros [? Hin]. split; [|done]. by apply (Hstats _ Hin).
    + intros [-> Hlen]. split; [done|].
      assert (Hin : name ∈ (subjectCompletionMap allTopics).*1).
      { apply Hkeys. destruct (decide (name ∈ subject_name <$> allTopics)) as [|Hn]; [done|].
        rewrite (subjectStats_absent _ _ Hn) in Hlen. simpl in Hlen. lia. }
      apply list_elem_of_fmap in Hin as ([n d] & -> & Hin). simpl.
      pose proof (Hstats _ Hin) as Hd. simpl in Hd. by rewrite <- Hd.
  - eapply Sorted_weaken; [|apply sort_by_sorted].
    + intros a b H. simpl in H. by apply Nat.leb_le.
    + intros a b H. apply Nat.leb_le. apply Nat.leb_gt in H. lia.
Qed.

Section ChunkFacts.

Lemma chunks_sizes (fuel : nat) (l : list string) :
  (length l ≤ fuel)%nat →
  Forall (λ g, (1 ≤ length g ≤ 4)%nat) (chunks fuel l)
  ∧ length (chunks fuel l) = ((length l + 3) / 4)%nat.
Proof.
  revert l. induction fuel as [|fuel IH]; intros l Hl.
  - destruct l; [|simpl in Hl; lia]. split; [constructor|done].
  - destruct l as [|x l]; [split; [constructor|done]|].
    cbn [chunks]. destruct (IH (drop 4 (x :: l))) as [H1 H2].
    { rewrite length_drop. simpl in *. lia. }
    split.
    + constructor; [|done]. rewrite length_take. cbn [length]. lia.
    + cbn [length]. rewrite H2, length_drop.
      cbn [length]. 
      destruct (le_lt_dec 4 (S (length l))) as [Hge|Hlt].
      * replace (S (length l) + 3)%nat with (1 * 4 + (S (length l) - 4 + 3))%nat by lia.
        rewrite Nat.div_add_l by done. lia.
      * replace (S (length l) - 4 + 3)%nat with 3%nat by lia.
        replace ((S (length l) + 3) / 4)%nat with 1%nat; [done|].
        apply Nat.div_unique with (r := (S (length l) + 3 - 4)%nat); lia.
Qed.

End ChunkFacts.

(** X7 — Groups of four.  The completed topics of a subject are cut into
    the groups of its directed mocks without loss or reordering: the groups
    put end to end are the list, each group holds one to four topics, and
    for [n] topics there are [ceil (n / 4)] groups. *)
Theorem directed_mock_groups (topicsDone : list string) :
  let groups := chunks (length topicsDone) topicsDone in
  concat groups = topicsDone
  ∧ Forall (λ g, (1 ≤ length g ≤ 4)%nat) groups
  ∧ length groups = ((length topicsDone + 3) / 4)%nat.
Proof.
  intros groups. subst groups. split; [by apply chunks_concat|].
  by apply chunks_sizes.
Qed.

Section ReplanFrame.

Context (hours : list Q) (sessionDuration examDate planId today : Z).

Lemma Qpositive_minutes (h : Q) : Qpositive (minutesOf h) = true → (0 < h)%Q.
Proof.
  intros H. apply Qpositive_iff.
  destruct (Qpositive h) eqn:E; [done|].
  apply minutesOf_nonpositive in E. congruence.
Qed.

Lemma replanSlot_Some (fuel : nat) (cur : Z) (db : Db) (d : Z) :
  replanSlot hours sessionDuration examDate planId fuel cur db = Some d →
  cur ≤ d ≤ examDate ∧ getDay d ≠ 0 ∧ available hours d
  ∧ countSessionsOn db planId d < capacity hours sessionDuration d.
Proof.
  revert cur. induction fuel as [|fuel IH]; intros cur; cbn [replanSlot]; [done|].
  destruct (Z.leb_spec cur examDate); [|done].
  destruct (Z.eqb_spec (getDay cur) 0).
  - intros (? & ? & ? & ?)%IH. split_and!; try done; lia.
  - destruct (Qpositive _) eqn:Hpos; cbn [andb].
    + destruct (Z.ltb_spec (countSessionsOn db planId cur)
                  (Qfloor (roundNearest
                             (minutesOf (hoursFor hours (getDay cur))
                              / inject_Z sessionDuration)))).
      * intros [= <-]. split_and!; try done; try lia.
        by apply Qpositive_minutes.
      * intros (? & ? & ? & ?)%IH. split_and!; try done; lia.
    + intros (? & ? & ? & ?)%IH. split_and!; try done; lia.
Qed.

Lemma redated_redated (r : SessionRow) (d d' : Z) :
  redated (redated r d) d' = redated r d'.
Proof. done. Qed.

Lemma movedBy_update (ids : list Z) (rows0 rows : list SessionRow) (sid d : Z) :
  sid ∈ ids → today ≤ d ≤ examDate → getDay d ≠ 0 → available hours d →
  Forall2 (movedBy hours today examDate ids) rows0 rows →
  Forall2 (movedBy hours today examDate ids) rows0
          (map (λ r, if row_id r =? sid then redated r d else r) rows).
Proof.
  intros Hsid Hd Hsun Hav.
  induction 1 as [|r0 r rows0 rows Hr Hrows IH]; simpl; constructor; [|done].
  destruct (Z.eqb_spec (row_id r) sid) as [Heq|Hne]; [|done].
  right. exists d. destruct Hr as [->|(d1 & -> & ? & _)].
  - split_and!; try done; try lia. by rewrite Heq.
  - split_and!; try done; lia.
Qed.

Lemma replanLoop_frame (ids : list Z) (rows0 : list SessionRow) (l : list SessionRow)
    (cur : Z) (db : Db) :
  today ≤ cur → row_id <$> l ⊆ ids →
  Forall2 (movedBy hours today examDate ids) rows0 (study_sessions db) →
  let db' := replanLoop hours sessionDuration examDate planId l cur db in
  Forall2 (movedBy hours today examDate ids) rows0 (study_sessions db')
  ∧ study_plans db' = study_plans db ∧ topics db' = topics db.
Proof.
  revert cur db. induction l as [|s l IH]; intros cur db Hcur Hids Hrows; simpl; [done|].
  destruct (findNextAvailableSlotDb _ _ _ _ _ _) as [d|] eqn:E; [|done].
  apply replanSlot_Some in E as (Hd & Hsun & Hav & _).
  destruct (IH d (updateSessionDate db (row_id s) d)) as (H1 & H2 & H3).
  - lia.
  - intros x Hx. apply Hids. rewrite fmap_cons. by right.
  - apply (movedBy_update _ _ (study_sessions db)); try done; [|lia].
    apply Hids. rewrite fmap_cons. by left.
  - done.
Qed.

End ReplanFrame.

(** X11 — What the commit run moves.  The replan route changes session rows
    by their dates only, and only overdue ones: every row is left as it was
    or, its id being one of the overdue sessions', is moved to a date from
    today to the exam that is not a Sunday and has study hours.  Topics are
    untouched, and the plans change, by the postponement counter, only when
    there was overdue work. *)
Theorem replan_moves_only_overdue_sessions
    (db : Db) (planId userId todayStr : Z) (plan : PlanRow) :
  selectPlanOfUser db planId userId = Some plan →
  let overdue := overdueQuery db planId todayStr in
  let db' := (replanRoute db planId userId todayStr).2 in
  Forall2 (movedBy (study_hours_per_day plan) todayStr (exam_date plan)
                   (row_id <$> overdue))
          (study_sessions db) (study_sessions db')
  ∧ topics db' = topics db
  ∧ study_plans db'
    = (if decide (overdue = []) then study_plans db
       else study_plans (bumpPostponement db planId)).
Proof.
  intros Hplan overdue db'. subst db'. unfold replanRoute. rewrite Hplan.
  fold overdue.
  destruct (Nat.eqb_spec (length overdue) 0) as [Hz|Hnz].
  - apply length_zero_iff_nil in Hz. rewrite decide_True by done. simpl.
    split_and!; try done. apply Forall2_same_length_lookup. split; [done|].
    intros i x y Hx Hy. left. congruence.
  - rewrite decide_False by (intros Hnil; by rewrite Hnil in Hnz).
    destruct (replanLoop_frame (study_hours_per_day plan)
                (orDefault (session_duration_minutes plan) 50) (exam_date plan)
                planId todayStr (row_id <$> overdue) (study_sessions db) overdue
                todayStr db) as (H1 & H2 & H3).
    + lia.
    + done.
    + apply Forall2_same_length_lookup. split; [done|].
      intros i x y Hx Hy. left. congruence.
    + cbn [snd bumpPostponement study_sessions topics study_plans].
      split_and!; try done. by rewrite H2.
Qed.

Section PreviewBudget.

Context (hours : list Q) (sessionDuration examDate : Z).

Lemma previewSlot_budget (fuel : nat) (cur : Z) (counts : gmap Z Z) (d cur' : Z) :
  previewSlot hours sessionDuration examDate fuel cur counts = (Some d, cur') →
  available hours d
  ∧ (inject_Z (default 0%Z (counts !! d) + 1)%Z * inject_Z sessionDuration
     <= minutesOf (hoursFor hours (getDay d)))%Q.
Proof.
  revert cur. induction fuel as [|fuel IH]; intros cur; simpl; [done|].
  destruct (Z.leb_spec cur examDate); [|done].
  destruct (Qpositive _) eqn:Hpos.
  - destruct (Qle_bool _ _) eqn:Hle.
    + intros [= <- <-]. split; [by apply Qpositive_iff|].
      apply Qle_bool_iff in Hle. rewrite inject_Z_plus.
      eapply Qle_trans; [|apply Hle]. 
      assert (Heq : ((inject_Z (default 0%Z (counts !! cur)) + inject_Z 1)
                     * inject_Z sessionDuration
                     == inject_Z (default 0%Z (counts !! cur)) * inject_Z sessionDuration
                        + inject_Z sessionDuration)%Q) by ring.
      rewrite Heq. apply Qle_refl.
    + apply IH.
  - apply IH.
Qed.

(** Every previewed date carries, with what the counts already hold and
    what the preview itself puts there, no more minutes than the day has;
    and the new dates never move backwards. *)
Lemma previewLoop_budget (l : list SessionRow) (cur : Z) (counts : gmap Z Z) :
  let es := previewLoop hours sessionDuration examDate l cur counts in
  Sorted Z.le (newDate <$> es)
  ∧ Forall (λ e, available hours (newDate e)
                 ∧ (inject_Z (default 0%Z (counts !! newDate e)
                              + previewedOn es (newDate e))%Z
                    * inject_Z sessionDuration
                    <= minutesOf (hoursFor hours (getDay (newDate e))))%Q) es.
Proof.
  revert cur counts. induction l as [|s l IH]; intros cur counts; simpl.
  - split; constructor.
  - destruct (previewSlot _ _ _ _ _ _) as [[d|] cur'] eqn:E.
    + pose proof (previewSlot_budget _ _ _ _ _ E) as [Hav Hfit].
      apply previewSlot_Some in E as [-> Hd].
      destruct (IH d (<[d:=default 0 (counts !! d) + 1]> counts)) as (H1 & H2).
      pose proof (previewLoop_prefix hours sessionDuration examDate l d
                    (<[d:=default 0 (counts !! d) + 1]> counts)) as (_ & _ & H3).
      remember (previewLoop hours sessionDuration examDate l d
                  (<[d:=default 0 (counts !! d) + 1]> counts)) as es.
      assert (Hrest : Forall (λ e, available hours (newDate e)
                 ∧ (inject_Z (default 0%Z (counts !! newDate e)
                              + previewedOn (previewEntry s d :: es) (newDate e))%Z
                    * inject_Z sessionDuration
                    <= minutesOf (hoursFor hours (getDay (newDate e))))%Q) es).
      { eapply Forall_impl; [apply H2|]. intros e [He1 He2]. split; [done|].
        unfold previewedOn in *. rewrite filter_cons. simpl.
        destruct (decide (d = newDate e)) as [Heq|Hne].
        - rewrite <- Heq in He2 |- *. rewrite lookup_insert_eq in He2. simpl in He2.
          cbn [length]. 
          replace (default 0 (counts !! d)
                   + Z.of_nat (S (length (filter (λ e', newDate e' = d) es))))
            with (default 0 (counts !! d) + 1
                  + Z.of_nat (length (filter (λ e', newDate e' = d) es))) by lia.
          done.
        - rewrite lookup_insert_ne in He2 by done. done. }
      split.
      * rewrite fmap_cons. constructor; [done|].
        destruct es as [|e es']; [constructor|].
        rewrite fmap_cons. constructor. simpl.
        apply Forall_inv in H3. lia.
      * constructor; [|done]. simpl. split; [done|].
        unfold previewedOn. rewrite filter_cons. simpl.
        destruct (decide (d = d)) as [_|]; [|done]. cbn [length].
        destruct (filter (λ e', newDate e' = d) es) as [|e fs] eqn:Ef.
        -- simpl. done.
        -- assert (He : e ∈ filter (λ e', newDate e' = d) es) by (rewrite Ef; left).
           apply list_elem_of_filter in He as [Hed He].
           rewrite Forall_forall in Hrest. destruct (Hrest e He) as [_ Hb].
           rewrite Hed in Hb. unfold previewedOn in Hb.
           rewrite filter_cons in Hb. simpl in Hb.
           destruct (decide (d = d)) as [_|]; [|done]. cbn [length] in Hb.
           by rewrite Ef in Hb.
    + apply previewSlot_None in E; [|lia].
      rewrite previewLoop_past by done. split; constructor.
Qed.

End PreviewBudget.

(** X12 — The preview stays within the day's minutes.  With overdue work,
    the new dates of the preview never go back along the listing, each is a
    date with study hours, and the sessions the plan already holds on such
    a date together with the sessions the preview sends there take no more
    minutes than the handler counts for the weekday, the double
    [hours * 60]; on a weekday of a whole number of hours below [2 ^ 46]
    these are the minutes the weekday has. *)
Theorem replan_preview_fits_the_days
    (db : Db) (planId userId todayStr : Z) (plan : PlanRow) :
  selectPlanOfUser db planId userId = Some plan →
  overdueQuery db planId todayStr ≠ [] →
  ∃ entries,
    (replanPreviewRoute db planId userId todayStr).1
    = OverduePreview (length (overdueQuery db planId todayStr)) (take 5 entries)
                     (length entries)
    ∧ Sorted Z.le (newDate <$> entries)
    ∧ Forall (λ e,
        let h := hoursFor (study_hours_per_day plan) (getDay (newDate e)) in
        let used :=
          (inject_Z (countSessionsOn db planId (newDate e)
                     + previewedOn entries (newDate e))%Z
           * inject_Z (orDefault (session_duration_minutes plan) 50))%Q in
        available (study_hours_per_day plan) (newDate e)
        ∧ (used <= minutesOf h)%Q
        ∧ (∀ z, 0 ≤ z < 2 ^ 46 → (h == inject_Z z)%Q → (used <= h * 60)%Q))
        entries.
Proof.
  intros Hplan Hne.
  set (overdue := overdueQuery db planId todayStr) in *.
  set (counts := sessionCountsQuery db planId todayStr (exam_date plan)).
  exists (previewLoop (study_hours_per_day plan)
            (orDefault (session_duration_minutes plan) 50) (exam_date plan)
            overdue todayStr counts).
  destruct (previewLoop_budget (study_hours_per_day plan)
              (orDefault (session_duration_minutes plan) 50) (exam_date plan)
              overdue todayStr counts) as [H1 H2].
  pose proof (previewLoop_prefix (study_hours_per_day plan)
                (orDefault (session_duration_minutes plan) 50) (exam_date plan)
                overdue todayStr counts) as (_ & _ & H3).
  split_and!.
  - unfold replanPreviewRoute. rewrite Hplan. fold overdue.
    destruct (length overdue =? 0)%nat eqn:E; [|done].
    apply Nat.eqb_eq, length_zero_iff_nil in E. done.
  - done.
  - rewrite Forall_forall in H2, H3. apply Forall_forall. intros e He.
    destruct (H2 e He) as [? Hb]. unfold counts in Hb.
    rewrite (sessionCountsQuery_agree planId db todayStr (exam_date plan)
               (newDate e)) in Hb by apply (H3 e He).
    cbv zeta. split_and!; [done|done|].
    intros z Hz Hh. rewrite (minutesOf_whole _ z Hz Hh) in Hb.
    rewrite Hh. rewrite inject_Z_mult in Hb. done.
Qed.

Section StreakFacts.

Lemma elem_of_completedDatesQuery (db : Db) (planId d : Z) :
  d ∈ completedDatesQuery db planId ↔ studiedOn db planId d.
Proof.
  unfold completedDatesQuery, studiedOn.
  rewrite elem_of_sort_by, elem_of_remove_dups, list_elem_of_fmap. split.
  - intros (r & -> & [[? ?] ?]%list_elem_of_filter). exists r. done.
  - intros (r & ? & ? & ? & <-). exists r. split; [done|].
    apply list_elem_of_filter. done.
Qed.

Lemma completedDatesQuery_descending (db : Db) (planId : Z) :
  StronglySorted (λ a b, b < a) (completedDatesQuery db planId).
Proof.
  unfold completedDatesQuery.
  set (l := remove_dups _).
  assert (Hnd : NoDup (sort_by (λ a b, b <=? a) l)).
  { rewrite sort_by_perm. apply NoDup_remove_dups. }
  assert (Hs : StronglySorted (λ a b, b ≤ a) (sort_by (λ a b, b <=? a) l)).
  { apply Sorted_StronglySorted; [intros a b c; lia|].
    eapply Sorted_weaken; [|apply sort_by_sorted].
    - intros a b H. simpl in H. lia.
    - intros a b H. lia. }
  induction Hs as [|x xs Hxs IH Hall]; [constructor|].
  apply NoDup_cons in Hnd as [Hx Hnd]. constructor; [by apply IH|].
  apply Forall_forall. intros y Hy. rewrite Forall_forall in Hall.
  specialize (Hall y Hy). assert (y ≠ x) by (intros ->; done). lia.
Qed.

Lemma streakLoop_spec (rest : list Z) (cur : Z) (n : nat) :
  StronglySorted (λ a b, b < a) rest → Forall (λ y, y < cur) rest →
  let m := Z.of_nat (streakLoop cur rest n) - Z.of_nat n in
  0 ≤ m ∧ (∀ j, 1 ≤ j ≤ m → cur - j ∈ rest) ∧ cur - m - 1 ∉ rest.
Proof.
  intros Hs. revert cur n. induction Hs as [|x xs Hxs IH Hall]; intros cur n Hlt; simpl.
  - split; [lia|]. split; [intros j ?; lia|]. by intros ?%elem_of_nil.
  - apply Forall_cons in Hlt as [Hx Hlt].
    destruct (Z.eqb_spec x (cur - 1)) as [->|Hne].
    + destruct (IH (cur - 1) (S n)) as (H1 & H2 & H3).
      { eapply Forall_impl; [apply Hall|]. simpl. intros; lia. }
      split; [lia|]. split.
      * intros j Hj. destruct (decide (j = 1)) as [->|Hj1]; [by left|].
        right. replace (cur - j) with (cur - 1 - (j - 1)) by lia. apply H2. lia.
      * intros [Heq|Hin]%elem_of_cons; [lia|].
        apply H3. replace (cur - 1 - (Z.of_nat (streakLoop (cur - 1) xs (S n))
                                      - Z.of_nat (S n)) - 1)
          with (cur - (Z.of_nat (streakLoop (cur - 1) xs (S n)) - Z.of_nat n) - 1)
          by lia.
        done.
    + split; [lia|]. split; [intros j ?; lia|].
      replace (cur - (Z.of_nat n - Z.of_nat n) - 1) with (cur - 1) by lia.
      intros [Heq|Hin]%elem_of_cons; [lia|].
      rewrite Forall_forall in Hall. specialize (Hall _ Hin). lia.
Qed.

End StreakFacts.

(** X14 — The study streak.  The streak is zero exactly when the plan has a
    completed session neither today nor yesterday, or has one dated after
    today.  A positive streak of [n] starts at the latest date with a
    completed session, which is today or yesterday: each of the [n] dates
    going back from there has a completed session, and the date before them
    has none. *)
Theorem study_streak_counts_consecutive_days (db : Db) (planId today : Z) :
  let n := Z.of_nat (studyStreak today (completedDatesQuery db planId)) in
  (n = 0 ↔ (¬ studiedOn db planId today ∧ ¬ studiedOn db planId (today - 1))
           ∨ ∃ d, today < d ∧ studiedOn db planId d)
  ∧ (0 < n →
     ∃ last, (last = today ∨ last = today - 1)
             ∧ (∀ d, studiedOn db planId d → d ≤ last)
             ∧ (∀ k, 0 ≤ k < n → studiedOn db planId (last - k))
             ∧ ¬ studiedOn db planId (last - n)).
Proof.
  intros n. subst n.
  pose proof (completedDatesQuery_descending db planId) as Hs.
  pose proof (elem_of_completedDatesQuery db planId) as Hel.
  destruct (completedDatesQuery db planId) as [|last rest]; simpl.
  - split; [|lia]. split; [|done]. intros _. left.
    split; intros ?%Hel%elem_of_nil; done.
  - inversion Hs as [|? ? Hrest Hall]; subst.
    assert (Hmax : ∀ d, studiedOn db planId d → d ≤ last).
    { intros d [->|Hd]%Hel%elem_of_cons; [lia|].
      rewrite Forall_forall in Hall. specialize (Hall _ Hd). lia. }
    assert (Hlast : studiedOn db planId last) by (apply Hel; left).
    destruct (Z.eqb_spec last today) as [Ht|Ht]; simpl.
    + pose proof (streakLoop_spec rest last 1 Hrest Hall) as (H1 & H2 & H3).
      split.
      * split; [lia|]. intros [[Hn _]|(d & Hd & Hst)].
        -- exfalso. apply Hn. by rewrite <- Ht.
        -- apply Hmax in Hst. lia.
      * intros _. exists last. split; [by left|]. split; [done|]. split.
        -- intros k Hk. destruct (decide (k = 0)) as [->|Hk0].
           ++ by rewrite Z.sub_0_r.
           ++ apply Hel. right. apply H2. lia.
        -- intros [Heq|Hin]%Hel%elem_of_cons; [lia|].
           apply H3. replace (last - (Z.of_nat (streakLoop last rest 1) - Z.of_nat 1) - 1)
             with (last - Z.of_nat (streakLoop last rest 1)) by lia.
           done.
    + destruct (Z.eqb_spec last (today - 1)) as [Hy|Hy]; simpl.
      * pose proof (streakLoop_spec rest last 1 Hrest Hall) as (H1 & H2 & H3).
        split.
        -- split; [lia|]. intros [[_ Hn]|(d & Hd & Hst)].
           ++ exfalso. apply Hn. by rewrite <- Hy.
           ++ apply Hmax in Hst. lia.
        -- intros _. exists last. split; [by right|]. split; [done|]. split.
           ++ intros k Hk. destruct (decide (k = 0)) as [->|Hk0].
              ** by rewrite Z.sub_0_r.
              ** apply Hel. right. apply H2. lia.
           ++ intros [Heq|Hin]%Hel%elem_of_cons; [lia|].
              apply H3. replace (last - (Z.of_nat (streakLoop last rest 1) - Z.of_nat 1) - 1)
                with (last - Z.of_nat (streakLoop last rest 1)) by lia.
              done.
      * split; [|lia]. split; [|done]. intros _.
        destruct (Z.lt_ge_cases today last) as [Hfut|Hpast].
        -- right. exists last. done.
        -- left. split; intros ?%Hmax; lia.
Qed.

Section LevelFacts.

Lemma ascending_lookup (l : list Z) (i j : nat) (x y : Z) :
  StronglySorted Z.lt l → (i < j)%nat → l !! i = Some x → l !! j = Some y → x < y.
Proof.
  intros Hs. revert i j. induction Hs as [|a l Hs IH Ha]; intros i j Hij Hi Hj.
  - by rewrite lookup_nil in Hi.
  - destruct i as [|i], j as [|j]; try lia; simpl in *.
    + injection Hi as <-. rewrite Forall_forall in Ha. apply Ha.
      by eapply list_elem_of_lookup_2.
    + apply (IH i j); [lia|done|done].
Qed.

Lemma levels_ascending : StronglySorted Z.lt (threshold <$> levels).
Proof.
  assert (threshold <$> levels = [0; 11; 31; 51; 101; 201; 351; 501]) as -> by done.
  repeat constructor.
Qed.

Lemma levels_monotone (i j : nat) (a b : Level) :
  (i ≤ j)%nat → levels !! i = Some a → levels !! j = Some b →
  threshold a ≤ threshold b.
Proof.
  intros Hij Ha Hb. destruct (decide (i = j)) as [->|Hne].
  - rewrite Ha in Hb. injection Hb as <-. lia.
  - apply Z.lt_le_incl.
    apply (ascending_lookup (threshold <$> levels) i j); [apply levels_ascending|lia| |].
    + by rewrite list_lookup_fmap, Ha.
    + by rewrite list_lookup_fmap, Hb.
Qed.

(** The loop breaks at the last index whose threshold is reached. *)
Lemma levelLoop_spec (c : Z) (n : nat) :
  match levelLoop c n with
  | Some i =>
      (i < n)%nat ∧ (∃ l, levels !! i = Some l ∧ threshold l ≤ c)
      ∧ ∀ j l, (i < j < n)%nat → levels !! j = Some l → c < threshold l
  | None => ∀ j l, (j < n)%nat → levels !! j = Some l → c < threshold l
  end.
Proof.
  induction n as [|n IH]; cbn [levelLoop].
  - intros j l ?. lia.
  - destruct (levels !! n) as [level|] eqn:E.
    + destruct (Z.leb_spec (threshold level) c).
      * split; [lia|]. split; [by exists level|]. intros j l ?. lia.
      * destruct (levelLoop c n) as [i|].
        -- destruct IH as (? & ? & Hj). split; [lia|]. split; [done|].
           intros j l Hjn Hl. destruct (decide (j = n)) as [->|Hne].
           ++ rewrite E in Hl. by injection Hl as <-.
           ++ apply (Hj j); [lia|done].
        -- intros j l Hjn Hl. destruct (decide (j = n)) as [->|Hne].
           ++ rewrite E in Hl. by injection Hl as <-.
           ++ apply (IH j); [lia|done].
    + destruct (levelLoop c n) as [i|].
      * destruct IH as (? & ? & Hj). split; [lia|]. split; [done|].
        intros j l Hjn Hl. destruct (decide (j = n)) as [->|Hne]; [congruence|].
        apply (Hj j); [lia|done].
      * intros j l Hjn Hl. destruct (decide (j = n)) as [->|Hne]; [congruence|].
        apply (IH j); [lia|done].
Qed.

Lemma level_ladder (count : Z) :
  0 ≤ count →
  let cur := currentLevel count in
  cur ∈ levels ∧ threshold cur ≤ count
  ∧ (∀ l, l ∈ levels → threshold l ≤ count → threshold l ≤ threshold cur)
  ∧ match nextLevel count with
    | Some next =>
        next ∈ levels ∧ count < threshold next
        ∧ ∀ l, l ∈ levels → count < threshold l → threshold next ≤ threshold l
    | None => 501 ≤ count
    end.
Proof.
  intros Hc. unfold currentLevel, nextLevel.
  pose proof (levelLoop_spec count (length levels)) as Hloop.
  destruct (levelLoop count (length levels)) as [i|].
  - destruct Hloop as (Hi & (cur & Hcur & Hle) & Habove). rewrite Hcur. cbn [default].
    split_and!.
    + by eapply list_elem_of_lookup_2.
    + done.
    + intros l [j Hj]%list_elem_of_lookup Hl.
      destruct (le_lt_dec j i) as [Hji|Hij]; [by eapply levels_monotone|].
      pose proof (lookup_lt_Some _ _ _ Hj).
      specialize (Habove j l ltac:(lia) Hj). lia.
    + destruct (Nat.ltb_spec i (length levels - 1)) as [Hlt|Hge].
      * destruct (lookup_lt_is_Some_2 levels (i + 1)) as [next Hnext]; [lia|].
        rewrite Hnext. split_and!.
        -- by eapply list_elem_of_lookup_2.
        -- apply (Habove (i + 1)%nat); [lia|done].
        -- intros l [j Hj]%list_elem_of_lookup Hl.
           destruct (le_lt_dec j i) as [Hji|Hij].
           ++ pose proof (levels_monotone j i l cur Hji Hj Hcur). lia.
           ++ apply (levels_monotone (i + 1) j); [lia|done|done].
      * assert (i = 7%nat) as -> by (change (length levels) with 8%nat in *; lia).
        injection Hcur as <-. done.
  - exfalso. specialize (Hloop 0%nat firstLevel ltac:(simpl; lia) eq_refl).
    change (threshold firstLevel) with 0 in Hloop. lia.
Qed.

Lemma streakLoop_le (rest : list Z) (cur : Z) (n : nat) :
  (streakLoop cur rest n ≤ n + length rest)%nat.
Proof.
  revert cur n. induction rest as [|x rest IH]; intros cur n; simpl; [lia|].
  destruct (x =? cur - 1); [|lia]. etrans; [apply IH|]. lia.
Qed.

Lemma studyStreak_le (today : Z) (l : list Z) : (studyStreak today l ≤ length l)%nat.
Proof.
  destruct l as [|x rest]; simpl; [lia|].
  destruct (_ || _); [|lia]. apply (streakLoop_le rest x 1).
Qed.

Lemma length_remove_dups {A} `{EqDecision A} (l : list A) :
  (length (remove_dups l) ≤ length l)%nat.
Proof.
  induction l as [|x l IH]; simpl; [lia|].
  destruct (decide_rel elem_of x l); simpl; lia.
Qed.

Lemma length_omap {A B} (f : A → option B) (l : list A) :
  (length (omap f l) ≤ length l)%nat.
Proof.
  induction l as [|x l IH]; simpl; [lia|].
  change (list_omap A B f l) with (omap f l). destruct (f x); simpl; lia.
Qed.

Lemma length_filter_impl {A} (P Q : A → Prop) `{!∀ x, Decision (P x)}
    `{!∀ x, Decision (Q x)} (l : list A) :
  (∀ x, P x → Q x) → (length (filter P l) ≤ length (filter Q l))%nat.
Proof.
  intros Himp. induction l as [|x l IH]; [done|].
  rewrite !filter_cons. destruct (decide (P x)) as [HP|HP].
  - destruct (decide (Q x)) as [|HQ]; [simpl; lia|]. exfalso. auto.
  - destruct (decide (Q x)); simpl; lia.
Qed.

End LevelFacts.

(** X15 — The level ladder.  The level shown is the level with the greatest
    threshold not above the number of completed topics.  The next level is
    the one with the least threshold above that number, and the topics to
    the next level are the positive difference; from 501 topics on there is
    no next level and the distance shown is 0.  The share-progress route
    shows the same level. *)
Theorem gamification_level_and_distance
    (db : Db) (planId userId nowMs : Z) (g : Gamification) :
  gamification db planId userId nowMs = Some g →
  let c := gam_completedTopicsCount g in
  ∃ cur, cur ∈ levels ∧ gam_concurseiroLevel g = title cur
         ∧ threshold cur ≤ c
         ∧ (∀ l, l ∈ levels → threshold l ≤ c → threshold l ≤ threshold cur)
         ∧ ((∃ next, next ∈ levels ∧ gam_nextLevel g = Some (title next)
                     ∧ gam_topicsToNextLevel g = threshold next - c
                     ∧ 0 < gam_topicsToNextLevel g
                     ∧ ∀ l, l ∈ levels → c < threshold l →
                            threshold next ≤ threshold l)
            ∨ (gam_nextLevel g = None ∧ gam_topicsToNextLevel g = 0 ∧ 501 ≤ c))
         ∧ share_level <$> shareProgress db planId userId nowMs = Some (title cur).
Proof.
  unfold gamification, shareProgress.
  destruct (selectPlanOfUser db planId userId) as [plan|]; [|done].
  intros [= <-]. cbn [gam_completedTopicsCount gam_concurseiroLevel gam_nextLevel
                      gam_topicsToNextLevel fmap option_fmap option_map share_level].
  set (c := completedTopicsCountQuery db planId).
  assert (Hc : 0 ≤ c) by (subst c; unfold completedTopicsCountQuery; lia).
  destruct (level_ladder c Hc) as (H1 & H2 & H3 & H4).
  exists (currentLevel c). split_and!; try done.
  destruct (nextLevel c) as [next|].
  - left. exists next. destruct H4 as (? & ? & ?). split_and!; try done. lia.
  - right. done.
Qed.

(** X16 — The numbers of the gamification panel agree with each other: the
    streak is at most the number of study days, which is at most the number
    of completed sessions; the completed topics are at most the completed
    sessions; of today's sessions the completed ones are at most the total;
    and the experience points are at least 60 for each completed topic. *)
Theorem gamification_numbers_agree
    (db : Db) (planId userId nowMs : Z) (g : Gamification) :
  gamification db planId userId nowMs = Some g →
  Z.of_nat (gam_studyStreak g) ≤ gam_totalStudyDays g
  ∧ gam_totalStudyDays g ≤ gam_totalCompletedSessions g
  ∧ gam_completedTopicsCount g ≤ gam_totalCompletedSessions g
  ∧ 0 ≤ gam_completedTodayCount g ≤ gam_totalTodayCount g
  ∧ 60 * gam_completedTopicsCount g ≤ gam_experiencePoints g.
Proof.
  unfold gamification.
  destruct (selectPlanOfUser db planId userId) as [plan|]; [|done].
  intros [= <-]. cbn [gam_studyStreak gam_totalStudyDays gam_totalCompletedSessions
                      gam_completedTopicsCount gam_completedTodayCount
                      gam_totalTodayCount gam_experiencePoints].
  assert (H1 : Z.of_nat (studyStreak (nowMs / msPerDay) (completedDatesQuery db planId))
               ≤ uniqueStudyDaysQuery db planId).
  { unfold uniqueStudyDaysQuery.
    pose proof (studyStreak_le (nowMs / msPerDay) (completedDatesQuery db planId)) as H.
    unfold completedDatesQuery in H at 2. rewrite sort_by_length in H. lia. }
  assert (H2 : uniqueStudyDaysQuery db planId ≤ completedSessionsCountQuery db planId).
  { unfold uniqueStudyDaysQuery, completedSessionsCountQuery.
    etrans; [apply inj_le, length_remove_dups|]. by rewrite length_fmap. }
  assert (H3 : completedTopicsCountQuery db planId ≤ completedSessionsCountQuery db planId).
  { unfold completedTopicsCountQuery, completedSessionsCountQuery. apply inj_le.
    etrans; [apply length_remove_dups|]. etrans; [apply length_omap|].
    apply length_filter_impl. tauto. }
  split_and!; try done.
  - unfold todayTasksQuery. simpl. lia.
  - unfold todayTasksQuery. simpl. apply inj_le, length_filter.
  - lia.
Qed.

(** X17 — Days to the exam.  The number share-progress shows is the number
    of calendar days from the day of the request to the exam day, whatever
    the time of day of the request, and 0 from the exam day on. *)
Theorem days_to_exam_counts_calendar_days (examDate nowMs : Z) :
  daysToExam examDate nowMs = Z.max 0 (examDate - nowMs / msPerDay).
Proof.
  unfold daysToExam, ceilDiv.
  assert (HD : 0 < msPerDay) by done.
  pose proof (Z.div_mod nowMs msPerDay ltac:(lia)) as Hdm.
  pose proof (Z.mod_pos_bound nowMs msPerDay HD) as Hm.
  set (q := nowMs / msPerDay) in *. set (t := nowMs mod msPerDay) in *.
  replace (- (examDate * msPerDay - nowMs)) with (t + (q - examDate) * msPerDay) by lia.
  rewrite Z.div_add by lia. rewrite (Z.div_small t) by lia.
  destruct (Z.ltb_spec 0 (- (0 + (q - examDate)))); lia.
Qed.

Section DeletePlanFacts.

Lemma find_filter {A} (f : A → bool) (P : A → Prop) `{!∀ x, Decision (P x)}
    (l : list A) :
  (∀ x, f x = true → P x) → List.find f (filter P l) = List.find f l.
Proof.
  intros Himp. induction l as [|x l IH]; [done|].
  rewrite filter_cons. destruct (decide (P x)) as [HP|HP]; simpl.
  - by rewrite IH.
  - destruct (f x) eqn:E; [|done]. exfalso. auto.
Qed.

Lemma find_none_filter {A} (f : A → bool) (P : A → Prop) `{!∀ x, Decision (P x)}
    (l : list A) :
  (∀ x, f x = true → ¬ P x) → List.find f (filter P l) = None.
Proof.
  intros Himp. induction l as [|x l IH]; [done|].
  rewrite filter_cons. destruct (decide (P x)) as [HP|HP]; simpl; [|done].
  destruct (f x) eqn:E; [|done]. exfalso. by eapply Himp.
Qed.

Lemma filter_filter_comm {A} (P Q : A → Prop) `{!∀ x, Decision (P x)}
    `{!∀ x, Decision (Q x)} (l : list A) :
  filter P (filter Q l) = filter Q (filter P l).
Proof. rewrite !list_filter_filter. apply list_filter_iff. tauto. Qed.

Lemma filter_filter_absorb {A} (P Q : A → Prop) `{!∀ x, Decision (P x)}
    `{!∀ x, Decision (Q x)} (l : list A) :
  (∀ x, P x → Q x) → filter P (filter Q l) = filter P l.
Proof.
  intros Himp. rewrite list_filter_filter. apply list_filter_iff.
  intros x. split; [tauto|]. auto.
Qed.

End DeletePlanFacts.

(** X18 — A deleted plan is gone, the others are as they were.  After a
    delete that answered 200, generate, replan and replan-preview do not
    find the plan and leave the store alone, no topic and no session of the
    plan remains, and every other plan keeps its row, its topics in both
    queries of the planner, and its sessions. *)
Theorem deleted_plan_is_gone
    (db db' : Db) (planId userId : Z) :
  deletePlanRoute db planId userId = (Status200, db') →
  (∀ u req today rnd, generate db' planId u req today rnd = (PlanNotFound, db'))
  ∧ (∀ u today, replanRoute db' planId u today = (ReplanPlanNotFound, db'))
  ∧ (∀ u today, replanPreviewRoute db' planId u today = (PreviewPlanNotFound, db'))
  ∧ (∀ t, t ∈ topics db' → topic_plan_id t ≠ planId)
  ∧ (∀ r, r ∈ study_sessions db' → study_plan_id r ≠ planId)
  ∧ ∀ other, other ≠ planId →
      selectPlan db' other = selectPlan db other
      ∧ (∀ u, selectPlanOfUser db' other u = selectPlanOfUser db other u)
      ∧ allTopicsQuery db' other = allTopicsQuery db other
      ∧ completedTopicsQuery db' other = completedTopicsQuery db other
      ∧ filter (λ r, study_plan_id r = other) (study_sessions db')
        = filter (λ r, study_plan_id r = other) (study_sessions db).
Proof.
  unfold deletePlanRoute.
  destruct (selectPlanOfUser db planId userId) as [plan|]; [|done].
  intros [= <-].
  assert (Hnone : ∀ u, selectPlanOfUser
            {| study_plans := filter (λ p, plan_id p ≠ planId) (study_plans db);
               topics := filter (λ t, topic_plan_id t ≠ planId) (topics db);
               study_sessions :=
                 filter (λ r, study_plan_id r ≠ planId) (study_sessions db) |}
            planId u = None).
  { intros u. unfold selectPlanOfUser. cbn [study_plans].
    apply find_none_filter. intros p [Hp _]%andb_true_iff Hne. lia. }
  split_and!.
  - intros u req today rnd. unfold generate, updatePlanSettings, selectPlan.
    cbn [deleteSessionsOfPlan study_plans].
    rewrite find_none_filter; [done|]. intros p Hp Hne. lia.
  - intros u today. unfold replanRoute. cbn [deleteSessionsOfPlan].
    by rewrite Hnone.
  - intros u today. unfold replanPreviewRoute. cbn [deleteSessionsOfPlan].
    by rewrite Hnone.
  - cbn [deleteSessionsOfPlan topics]. intros t [? _]%list_elem_of_filter. done.
  - cbn [deleteSessionsOfPlan study_sessions]. intros r [? _]%list_elem_of_filter. done.
  - intros other Hother. cbn [deleteSessionsOfPlan]. split_and!.
    + unfold selectPlan. cbn [study_plans]. apply find_filter. intros p Hp. lia.
    + intros u. unfold selectPlanOfUser. cbn [study_plans]. apply find_filter.
      intros p [Hp _]%andb_true_iff. lia.
    + unfold allTopicsQuery. cbn [topics]. f_equal. apply filter_filter_absorb.
      intros t ->. done.
    + unfold completedTopicsQuery. cbn [topics]. f_equal. apply filter_filter_absorb.
      intros t (-> & _). done.
    + cbn [study_sessions]. apply filter_filter_absorb. intros r ->. done.
Qed.

Section BatchTopics.

Context (userId : Z).

Lemma updateTopicStatus_plans (db : Db) (u : TopicUpdate) :
  study_plans (updateTopicStatus userId db u) = study_plans db.
Proof. done. Qed.

Lemma foldl_updateTopicStatus_frame (updates : list TopicUpdate) (db : Db) :
  study_plans (foldl (updateTopicStatus userId) db updates) = study_plans db
  ∧ study_sessions (foldl (updateTopicStatus userId) db updates) = study_sessions db.
Proof.
  revert db. induction updates as [|u updates IH]; intros db; simpl; [done|].
  destruct (IH (updateTopicStatus userId db u)) as [-> ->]. done.
Qed.

Lemma planOfUser_plans (db db' : Db) (u p : Z) :
  study_plans db' = study_plans db → planOfUser db' u p = planOfUser db u p.
Proof. unfold planOfUser. by intros ->. Qed.

Lemma last_filter_snoc {A} (P : A → Prop) `{!∀ x, Decision (P x)} (l : list A) (x : A) :
  last (filter P (l ++ [x])) = if decide (P x) then Some x else last (filter P l).
Proof.
  rewrite filter_app, filter_cons, filter_nil.
  destruct (decide (P x)); [by rewrite last_snoc|by rewrite app_nil_r].
Qed.

End BatchTopics.


(** X19 — Batch update of topics.  The route leaves plans and sessions
    alone and keeps every topic row in its place: a topic of one of the
    user's plans gets the status of the last update that names it, with the
    update's completion date only if that status is completed; a topic of
    another user's plan, or one no update names, is unchanged.  So a topic
    the route changed to a status other than completed has no completion
    date. *)
Theorem batch_update_sets_own_topics
    (db : Db) (userId : Z) (updates : list TopicUpdate) :
  let db' := (batchUpdateTopics db userId updates).2 in
  study_plans db' = study_plans db
  ∧ study_sessions db' = study_sessions db
  ∧ Forall2 (batchOutcome db userId updates) (topics db) (topics db')
  ∧ ∀ t', t' ∈ topics db' → t' ∉ topics db → status t' ≠ Concluido →
          completion_date t' = None.
Proof.
  intros db'. subst db'. unfold batchUpdateTopics. cbn [snd].
  destruct (foldl_updateTopicStatus_frame userId updates db) as [Hp Hs].
  assert (H : Forall2 (batchOutcome db userId updates) (topics db)
                (topics (foldl (updateTopicStatus userId) db updates))).
  { clear Hp Hs. induction updates as [|u updates IH] using rev_ind.
    - simpl. apply Forall2_same_length_lookup. split; [done|].
      intros i x y Hx Hy. unfold batchOutcome. simpl. congruence.
    - rewrite foldl_app. cbn [foldl updateTopicStatus topics].
      destruct (foldl_updateTopicStatus_frame userId updates db) as [Hp _].
      generalize dependent (topics (foldl (updateTopicStatus userId) db updates)).
      intros ts IH. induction IH as [|t t1 l l1 Ht Hl IHl]; simpl; constructor; [|done].
      unfold batchOutcome in Ht |- *. rewrite last_filter_snoc.
      rewrite (planOfUser_plans db (foldl (updateTopicStatus userId) db updates))
        by done.
      assert (Hid : topic_id t1 = topic_id t ∧ topic_plan_id t1 = topic_plan_id t).
      { destruct (last _); [|by subst].
        destruct (planOfUser db userId (topic_plan_id t)); by subst. }
      destruct Hid as [Hid Hpl]. rewrite Hid, Hpl.
      destruct (decide (update_id u = topic_id t)) as [Heq|Hne].
      + rewrite <- Heq, Z.eqb_refl. cbn [andb].
        destruct (planOfUser db userId (topic_plan_id t)) eqn:Hown.
        * destruct (last _); by subst.
        * destruct (last _); by subst.
      + destruct (Z.eqb_spec (topic_id t) (update_id u)) as [?|_]; [done|].
        cbn [andb]. done. }
  split_and!; try done.
  intros t' Hin Hnew Hst.
  apply list_elem_of_lookup in Hin as [i Hi].
  destruct (Forall2_lookup_r _ _ _ _ _ H Hi) as (t & Ht & Hout).
  unfold batchOutcome in Hout.
  destruct (last _) as [u|].
  - destruct (planOfUser db userId (topic_plan_id t)).
    + subst t'. simpl in *. unfold completionDateOf. by rewrite decide_False.
    + subst t'. exfalso. apply Hnew. by eapply list_elem_of_lookup_2.
  - subst t'. exfalso. apply Hnew. by eapply list_elem_of_lookup_2.
Qed.

Section PatchFacts.

Lemma find_map {A} (p : A → bool) (f : A → A) (l : list A) :
  (∀ x, p (f x) = p x) → List.find p (map f l) = f <$> List.find p l.
Proof.
  intros Hp. induction l as [|x l IH]; [done|]. simpl.
  rewrite Hp. by destruct (p x).
Qed.

Lemma find_elem {A} (p : A → bool) (l : list A) (x : A) :
  List.find p l = Some x → x ∈ l ∧ p x = true.
Proof.
  intros H. apply find_some in H as [? ?]. split; [by apply list_elem_of_In|done].
Qed.

Lemma existsb_elem {A} (p : A → bool) (l : list A) (x : A) :
  x ∈ l → p x = true → existsb p l = true.
Proof.
  intros Hx Hp. apply existsb_exists. exists x. split; [by apply list_elem_of_In|done].
Qed.

Lemma map_id_on {A} (f : A → A) (l : list A) :
  (∀ x, x ∈ l → f x = x) → map f l = l.
Proof.
  intros Hf. induction l as [|x l IH]; [done|]. simpl.
  rewrite Hf by by left. f_equal. apply IH. intros y Hy. apply Hf. by right.
Qed.

Lemma Forall2_map_r {A} (R : A → A → Prop) (f : A → A) (l : list A) :
  (∀ x, R x (f x)) → Forall2 R l (map f l).
Proof. intros HR. induction l; simpl; constructor; auto. Qed.

(** What the route does on a new-topic session of the user that names a
    topic. *)
Lemma patchSession_eq (db : Db) (sessionId userId : Z) (req : SessionPatch)
    (st : Status) (session : SessionRow) (tid : Z) :
  patch_status req = Some st →
  selectSession db sessionId = Some session →
  planOfUser db userId (study_plan_id session) = true →
  row_session_type session = NovoTopico →
  row_topic_id session = Some tid → tid ≠ 0 →
  patchSessionRoute db sessionId userId req
  = (Status200,
     {| study_plans := study_plans db;
        topics := map (λ t, if topic_id t =? tid
                            then withStatus t st (topicDateFor st session) else t)
                      (topics db);
        study_sessions :=
          map (λ r, if sessionOfUser db userId sessionId r
                    then withRowStatus r st else r) (study_sessions db) |}).
Proof.
  intros Hst Hsel Hown Hty Htid Hnz. unfold patchSessionRoute. rewrite Hst.
  apply find_elem in Hsel as Hin. destruct Hin as [Hin Hid].
  assert (Hhit : sessionOfUser db userId sessionId session = true).
  { unfold sessionOfUser. by rewrite Hid, Hown. }
  rewrite (existsb_elem _ _ session Hin Hhit).
  assert (Hfind : selectSession (updateSessionStatus db userId sessionId (Some st))
                    sessionId
                  = Some (withRowStatus session st)).
  { unfold selectSession, updateSessionStatus. cbn [study_sessions].
    rewrite find_map.
    - unfold selectSession in Hsel. rewrite Hsel. simpl. by rewrite Hhit.
    - intros x. by destruct (sessionOfUser db userId sessionId x). }
  assert (Hgoal : syncTopic (updateSessionStatus db userId sessionId (Some st))
                    sessionId st
                  = {| study_plans := study_plans db;
                       topics := map (λ t, if topic_id t =? tid
                                           then withStatus t st (topicDateFor st session)
                                           else t) (topics db);
                       study_sessions :=
                         map (λ r, if sessionOfUser db userId sessionId r
                                   then withRowStatus r st else r)
                             (study_sessions db) |}).
  { unfold syncTopic. rewrite Hfind. cbn [withRowStatus row_topic_id row_session_type
                                           row_session_date].
    rewrite Htid, Hty. rewrite bool_decide_true by done.
    destruct (Z.eqb_spec tid 0); [done|]. cbn [negb andb].
    by destruct st. }
  destruct (patch_notes req), (patch_questions_solved req); by rewrite Hgoal.
Qed.

Lemma withRowStatus_back (r : SessionRow) (st : Status) :
  withRowStatus (withRowStatus r st) (row_status r) = r.
Proof. by destruct r. Qed.

Lemma withStatus_back (t : Topic) (st : Status) (done : option Z) :
  withStatus (withStatus t st done) (status t) (completion_date t) = t.
Proof. by destruct t. Qed.

End PatchFacts.

(** X20 — A session's status carries over to its topic.  Patching the status
    of a new-topic session of the user's answers 200 and sets, besides the
    status of the session, the status of the session's topic, with the
    session date as completion date when the status is completed and none
    when it is pending.  Plans, the other sessions and the other topics are
    unchanged. *)
Theorem session_status_carries_to_topic
    (db : Db) (sessionId userId : Z) (req : SessionPatch) (st : Status)
    (session : SessionRow) (tid : Z) :
  patch_status req = Some st →
  selectSession db sessionId = Some session →
  planOfUser db userId (study_plan_id session) = true →
  row_session_type session = NovoTopico →
  row_topic_id session = Some tid → tid ≠ 0 →
  let out := patchSessionRoute db sessionId userId req in
  out.1 = Status200
  ∧ study_plans out.2 = study_plans db
  ∧ Forall2 (λ r r', if sessionOfUser db userId sessionId r
                     then r' = withRowStatus r st else r' = r)
            (study_sessions db) (study_sessions out.2)
  ∧ Forall2 (λ t t', if topic_id t =? tid
                     then t' = withStatus t st (topicDateFor st session) else t' = t)
            (topics db) (topics out.2).
Proof.
  intros Hst Hsel Hown Hty Htid Hnz out. subst out.
  rewrite (patchSession_eq db sessionId userId req st session tid) by done.
  cbn [fst snd study_plans study_sessions topics]. split_and!; try done.
  - apply Forall2_map_r. intros r. by destruct (sessionOfUser db userId sessionId r).
  - apply Forall2_map_r. intros t. by destruct (topic_id t =? tid).
Qed.

(** X21 — Reopening a session undoes completing it.  For a pending
    new-topic session of the user's whose topic is pending and has no
    completion date, the patch to completed followed by the patch back to
    pending answers 200 and gives back the store as it was. *)
Theorem reopening_undoes_completing
    (db : Db) (sessionId userId : Z) (session : SessionRow) (tid : Z) :
  selectSession db sessionId = Some session →
  planOfUser db userId (study_plan_id session) = true →
  row_session_type session = NovoTopico →
  row_topic_id session = Some tid → tid ≠ 0 →
  (∀ r, r ∈ study_sessions db → row_id r = sessionId → row_status r = Pendente) →
  (∀ t, t ∈ topics db → topic_id t = tid →
        status t = Pendente ∧ completion_date t = None) →
  let complete := {| patch_status := Some Concluido; patch_notes := None;
                     patch_questions_solved := None |} in
  let reopen := {| patch_status := Some Pendente; patch_notes := None;
                   patch_questions_solved := None |} in
  patchSessionRoute (patchSessionRoute db sessionId userId complete).2
                    sessionId userId reopen
  = (Status200, db).
Proof.
  intros Hsel Hown Hty Htid Hnz Hrows Htopics complete reopen.
  rewrite (patchSession_eq db sessionId userId complete Concluido session tid) by done.
  cbn [snd].
  set (db1 := {| study_plans := study_plans db; topics := _; study_sessions := _ |}).
  assert (Hsel1 : selectSession db1 sessionId = Some (withRowStatus session Concluido)).
  { unfold selectSession. subst db1. cbn [study_sessions]. rewrite find_map.
    - unfold selectSession in Hsel. rewrite Hsel. simpl.
      unfold sessionOfUser. apply find_elem in Hsel as [_ ->]. by rewrite Hown.
    - intros x. by destruct (sessionOfUser db userId sessionId x). }
  rewrite (patchSession_eq db1 sessionId userId reopen Pendente
             (withRowStatus session Concluido) tid) by done.
  f_equal. subst db1. cbn [study_plans topics study_sessions].
  destruct db as [plans ts rows]. cbn [study_plans topics study_sessions] in *.
  f_equal.
  - rewrite map_map. apply map_id_on. intros t Ht.
    destruct (Z.eqb_spec (topic_id t) tid) as [Heq|Hne].
    + cbn [withStatus topic_id]. destruct (Z.eqb_spec (topic_id t) tid); [|done].
      destruct (Htopics t Ht Heq) as [Hs Hc].
      destruct t; simpl in *; by subst.
    + by destruct (Z.eqb_spec (topic_id t) tid).
  - rewrite map_map. apply map_id_on. intros r Hr.
    unfold sessionOfUser, planOfUser. cbn [study_plans].
    destruct (Z.eqb_spec (row_id r) sessionId) as [Heq|Hne]; cbn [andb].
    + destruct (existsb _ plans) eqn:Hex.
      * cbn [withRowStatus row_id study_plan_id].
        destruct (Z.eqb_spec (row_id r) sessionId); [|done]. cbn [andb].
        rewrite Hex. pose proof (Hrows r Hr Heq) as Hs.
        destruct r; simpl in *; by subst.
      * destruct (Z.eqb_spec (row_id r) sessionId); [|done]. cbn [andb].
        by rewrite Hex.
    + by destruct (Z.eqb_spec (row_id r) sessionId).
Qed.

Section PostponeFacts.

Context (hours : list Q) (examDate : Z).

Lemma findNextStudyDay_Some (fuel : nat) (start d : Z) :
  findNextStudyDay hours examDate fuel start = Some d →
  start ≤ d ≤ examDate ∧ getDay d ≠ 0 ∧ available hours d
  ∧ noStudyDay hours start (d - 1).
Proof.
  revert start. induction fuel as [|fuel IH]; intros start; simpl; [done|].
  destruct (Z.leb_spec start examDate); [|done].
  destruct (Z.eqb_spec (getDay start) 0) as [Hsun|Hsun]; cbn [negb andb].
  - intros (? & ? & ? & Hno)%IH. split_and!; try done; try lia.
    intros d' Hd'. destruct (decide (d' = start)) as [->|]; [by left|].
    apply Hno. lia.
  - destruct (Qpositive _) eqn:Hpos.
    + intros [= <-]. split_and!; try done; try lia.
      * by apply Qpositive_iff.
      * intros d' Hd'. lia.
    + intros (? & ? & ? & Hno)%IH. split_and!; try done; try lia.
      intros d' Hd'. destruct (decide (d' = start)) as [->|]; [|apply Hno; lia].
      right. intros Hav%Qpositive_iff. congruence.
Qed.

Lemma findNextStudyDay_None (fuel : nat) (start : Z) :
  findNextStudyDay hours examDate fuel start = None →
  (Z.to_nat (examDate - start + 1) ≤ fuel)%nat →
  noStudyDay hours start examDate.
Proof.
  revert start. induction fuel as [|fuel IH]; intros start; simpl.
  - intros _ Hf d Hd. lia.
  - destruct (Z.leb_spec start examDate); [|intros _ _ d Hd; lia].
    destruct (Z.eqb_spec (getDay start) 0) as [Hsun|Hsun]; cbn [negb andb].
    + intros Hn Hf d Hd. destruct (decide (d = start)) as [->|]; [by left|].
      apply (IH _ Hn); lia.
    + destruct (Qpositive _) eqn:Hpos; [done|].
      intros Hn Hf d Hd. destruct (decide (d = start)) as [->|]; [|apply (IH _ Hn); lia].
      right. intros Hav%Qpositive_iff. congruence.
Qed.

End PostponeFacts.

(** X22 — Postponing a session.  For a session of one of the user's plans
    and a valid request ([days] being ['next'] or a number from 1 to 30),
    the target lies after the session's date, and the session moves to the
    first date from the target to the exam that is not a Sunday and has
    study hours, nothing else being changed; when there is no such date the
    route answers 400 and changes nothing. *)
Theorem postpone_moves_to_the_next_study_day
    (db : Db) (sessionId userId : Z) (days : PostponeDays)
    (session : SessionRow) (plan : PlanRow) :
  validDays days = true →
  selectSession db sessionId = Some session →
  selectPlanOfUser db (study_plan_id session) userId = Some plan →
  let target := postponeTarget session days in
  let out := postponeRoute db sessionId userId days in
  row_session_date session < target
  ∧ ((∃ newDate,
        out = (Status200, updateSessionDate db sessionId newDate)
        ∧ target ≤ newDate ≤ exam_date plan
        ∧ getDay newDate ≠ 0
        ∧ available (study_hours_per_day plan) newDate
        ∧ noStudyDay (study_hours_per_day plan) target (newDate - 1))
     ∨ (out = (Status400, db)
        ∧ noStudyDay (study_hours_per_day plan) target (exam_date plan))).
Proof.
  intros Hvalid Hsel Hplan target out. subst out. unfold postponeRoute.
  rewrite Hvalid, Hsel, Hplan. fold (postponeTarget session days). fold target.
  split.
  - subst target. destruct days as [|n]; simpl in *; lia.
  - destruct (findNextStudyDay _ _ _ _) as [d|] eqn:E.
    + left. exists d. apply findNextStudyDay_Some in E as (? & ? & ? & ?). done.
    + right. split; [done|]. by apply findNextStudyDay_None in E.
Qed.

(** X13 — The overdue check announces what replan will report.  The check
    answers 404 exactly when replan and replan-preview do.  Otherwise its
    count is the number of overdue sessions: at zero both routes answer that
    there is nothing to replan, and above zero replan reports that many
    sessions replanned and the preview that many overdue. *)
Theorem overdue_check_announces_replan (db : Db) (planId userId todayStr : Z) :
  match overdueCheck db planId userId todayStr with
  | None =>
      (replanRoute db planId userId todayStr).1 = ReplanPlanNotFound
      ∧ (replanPreviewRoute db planId userId todayStr).1 = PreviewPlanNotFound
  | Some n =>
      n = Z.of_nat (length (overdueQuery db planId todayStr))
      ∧ if decide (n = 0)
        then (replanRoute db planId userId todayStr).1 = NothingToReplan
             ∧ (replanPreviewRoute db planId userId todayStr).1 = NoOverdue
        else (replanRoute db planId userId todayStr).1 = Replanned (Z.to_nat n)
             ∧ ∃ l total,
                 (replanPreviewRoute db planId userId todayStr).1
                 = OverduePreview (Z.to_nat n) l total
  end.
Proof.
  unfold overdueCheck, replanRoute, replanPreviewRoute.
  destruct (selectPlanOfUser db planId userId) as [plan|]; [|done].
  assert (Hlen : length (overdueQuery db planId todayStr)
                 = length (filter (λ r, study_plan_id r = planId ∧ row_status r = Pendente
                                        ∧ row_session_date r < todayStr)
                                  (study_sessions db))).
  { unfold overdueQuery. apply sort_by_length. }
  rewrite <- Hlen. split; [done|].
  destruct (Nat.eqb_spec (length (overdueQuery db planId todayStr)) 0) as [Hz|Hnz].
  - rewrite decide_True by lia. done.
  - rewrite decide_False by lia. rewrite Nat2Z.id. split; [done|]. eauto.
Qed.

Section ScheduleFacts.

Lemma StronglySorted_weaken {A} (R R' : A → A → Prop) (l : list A) :
  (∀ a b, R a b → R' a b) → StronglySorted R l → StronglySorted R' l.
Proof.
  intros Himp. induction 1 as [|x l Hl IH Hx]; constructor; [done|].
  eapply Forall_impl; [apply Hx|]. auto.
Qed.

Lemma scheduleQuery_sorted (db : Db) (planId : Z) :
  StronglySorted (λ a b, row_session_date a < row_session_date b
                         ∨ (row_session_date a = row_session_date b
                            ∧ row_id a ≤ row_id b))
                 (scheduleQuery db planId).
Proof.
  apply Sorted_StronglySorted.
  - intros a b c. lia.
  - eapply Sorted_weaken; [|apply sort_by_sorted, byDateThenId_total].
    intros a b. apply byDateThenId_spec.
Qed.

Lemma groupPush_ascending (acc : list (Z * list SessionRow)) (r : SessionRow) :
  StronglySorted Z.lt acc.*1 →
  Forall (λ k, k ≤ row_session_date r) acc.*1 →
  Forall (λ g, g.2 ≠ [] ∧ Forall (λ x, row_session_date x = g.1) g.2) acc →
  concat (groupPush acc r).*2 = concat acc.*2 ++ [r]
  ∧ StronglySorted Z.lt (groupPush acc r).*1
  ∧ Forall (λ k, k ≤ row_session_date r) (groupPush acc r).*1
  ∧ Forall (λ g, g.2 ≠ [] ∧ Forall (λ x, row_session_date x = g.1) g.2)
           (groupPush acc r).
Proof.
  induction acc as [|[d l] acc IH]; intros Hs Hle Hwf.
  - simpl. split_and!; try done.
    + repeat constructor.
    + repeat constructor. lia.
    + repeat constructor. done.
  - rewrite fmap_cons in Hs, Hle. cbn [fst] in Hs, Hle.
    apply StronglySorted_inv in Hs as [Hs Hd].
    apply Forall_cons in Hle as [Hdle Hle].
    apply Forall_cons in Hwf as [[Hl Hld] Hwf]. cbn [fst snd] in Hl, Hld.
    cbn [groupPush]. destruct (Z.eqb_spec (row_session_date r) d) as [Heq|Hne].
    + assert (acc = []) as ->.
      { destruct acc as [|[d' l'] acc']; [done|]. exfalso.
        rewrite fmap_cons in Hd, Hle. apply Forall_cons in Hd as [Hd _].
        apply Forall_cons in Hle as [Hle _]. simpl in *. lia. }
      simpl. rewrite !app_nil_r. split_and!; try done.
      * repeat constructor.
      * repeat constructor. lia.
      * repeat constructor; cbn [fst snd].
        -- by destruct l.
        -- apply Forall_app. split; [done|]. by repeat constructor.
    + destruct (IH Hs Hle Hwf) as (H1 & H2 & H3 & H4).
      rewrite !fmap_cons. cbn [fst snd concat]. split_and!.
      * by rewrite H1, app_assoc.
      * constructor; [done|]. apply Forall_forall. intros k Hk.
        clear - Hk Hd Hdle Hne Hle.
        induction acc as [|[d' l'] acc IH]; simpl in Hk.
        -- apply list_elem_of_singleton in Hk as ->. simpl. lia.
        -- rewrite fmap_cons in Hd, Hle. apply Forall_cons in Hd as [Hd' Hd].
           apply Forall_cons in Hle as [Hle' Hle]. cbn [fst] in *.
           destruct (row_session_date r =? d').
           ++ rewrite fmap_cons in Hk. apply elem_of_cons in Hk as [->|Hk]; [done|].
              rewrite Forall_forall in Hd. by apply Hd.
           ++ rewrite fmap_cons in Hk. apply elem_of_cons in Hk as [->|Hk]; [done|].
              by apply IH.
      * constructor; [done|done].
      * constructor; [done|done].
Qed.

Lemma foldl_groupPush (rows : list SessionRow) (acc : list (Z * list SessionRow)) :
  StronglySorted (λ a b, row_session_date a ≤ row_session_date b) rows →
  StronglySorted Z.lt acc.*1 →
  Forall (λ r, Forall (λ k, k ≤ row_session_date r) acc.*1) rows →
  Forall (λ g, g.2 ≠ [] ∧ Forall (λ x, row_session_date x = g.1) g.2) acc →
  let groups := foldl groupPush acc rows in
  concat groups.*2 = concat acc.*2 ++ rows
  ∧ StronglySorted Z.lt groups.*1
  ∧ Forall (λ g, g.2 ≠ [] ∧ Forall (λ x, row_session_date x = g.1) g.2) groups.
Proof.
  intros Hrows. revert acc.
  induction Hrows as [|r rows Hrows IH Hr]; intros acc Hs Hle Hwf; simpl.
  - by rewrite app_nil_r.
  - apply Forall_cons in Hle as [Hle1 Hle].
    destruct (groupPush_ascending acc r Hs Hle1 Hwf) as (H1 & H2 & H3 & H4).
    destruct (IH (groupPush acc r)) as (G1 & G2 & G3); try done.
    + apply Forall_forall. intros x Hx. rewrite Forall_forall in Hr.
      specialize (Hr x Hx). eapply Forall_impl; [apply H3|]. simpl. intros; lia.
    + split_and!; try done. rewrite G1, H1, <- app_assoc. done.
Qed.

Lemma groups_by_id (gs : list (Z * list SessionRow)) :
  Forall (λ g, g.2 ≠ [] ∧ Forall (λ x, row_session_date x = g.1) g.2) gs →
  StronglySorted (λ a b, row_session_date a < row_session_date b
                         ∨ (row_session_date a = row_session_date b
                            ∧ row_id a ≤ row_id b))
                 (concat gs.*2) →
  Forall (λ g, g.2 ≠ []
               ∧ Forall (λ r, row_session_date r = g.1) g.2
               ∧ StronglySorted (λ a b, row_id a ≤ row_id b) g.2) gs.
Proof.
  induction 1 as [|[d l] gs [Hne Hd] Hwf IH]; intros Hs; [constructor|].
  rewrite fmap_cons in Hs. cbn [snd concat] in Hs.
  pose proof (StronglySorted_app_1_l _ _ _ Hs) as Hl.
  pose proof (StronglySorted_app_1_r _ _ _ Hs) as Hgs.
  constructor; [|by apply IH]. cbn [fst snd] in *. split_and!; try done.
  clear - Hl Hd. induction Hl as [|x l Hl IH Hx]; [constructor|].
  apply Forall_cons in Hd as [Hxd Hd]. constructor; [by apply IH|].
  apply Forall_forall. intros y Hy. rewrite Forall_forall in Hx, Hd.
  specialize (Hx y Hy). specialize (Hd y Hy). lia.
Qed.

End ScheduleFacts.

(** X23 — The schedule, grouped by date.  For a plan of the user the route
    lists every session of the plan, each once, in groups keyed by date:
    the dates ascend strictly, no group is empty, a group holds sessions of
    its date only, and within a group the sessions follow their ids. *)
Theorem schedule_groups_by_date
    (db : Db) (planId userId : Z) (groups : list (Z * list SessionRow)) :
  scheduleRoute db planId userId = Some groups →
  concat groups.*2 = scheduleQuery db planId
  ∧ scheduleQuery db planId
    ≡ₚ filter (λ r, study_plan_id r = planId) (study_sessions db)
  ∧ StronglySorted Z.lt groups.*1
  ∧ Forall (λ g, g.2 ≠ []
                 ∧ Forall (λ r, row_session_date r = g.1) g.2
                 ∧ StronglySorted (λ a b, row_id a ≤ row_id b) g.2) groups.
Proof.
  unfold scheduleRoute.
  destruct (selectPlanOfUser db planId userId) as [plan|]; [|done].
  intros [= <-].
  pose proof (scheduleQuery_sorted db planId) as Hsorted.
  destruct (foldl_groupPush (scheduleQuery db planId) []) as (H1 & H2 & H3).
  - eapply StronglySorted_weaken; [|apply Hsorted]. simpl. intros a b ?; lia.
  - constructor.
  - apply Forall_forall. intros r _. constructor.
  - constructor.
  - simpl in H1. split_and!; try done.
    + apply sort_by_perm.
    + apply groups_by_id; [done|]. by rewrite H1.
Qed.

Section SpreadFacts.

Context (P : Session → Prop) `{!∀ s, Decision (P s)}.

Lemma spread_push (a : Agenda) (d cur : Z) (x : SessionDraft) :
  spreadOut P (agenda_sessions a) → behind P (agenda_sessions a) cur → cur ≤ d →
  spreadOut P (agenda_sessions (agenda_push a d {| draft := x; session_date := d |}))
  ∧ behind P (agenda_sessions (agenda_push a d {| draft := x; session_date := d |}))
           (d + 3).
Proof.
  intros Hs Hb Hd. split.
  - intros d0. unfold withinThreeDays. rewrite agenda_sessions_push, filter_cons.
    destruct (decide _) as [[_ Hw]|_]; [|apply Hs]. simpl in Hw.
    rewrite (filter_none _ (agenda_sessions a)); [simpl; lia|].
    intros s Hin [HP Hr]. specialize (Hb s Hin HP). lia.
  - intros s [->|Hin]%elem_of_agenda_push HP; [simpl; lia|].
    specialize (Hb s Hin HP). lia.
Qed.

Lemma filter_kind_push (a : Agenda) (d : Z) (x : SessionDraft) :
  ¬ P {| draft := x; session_date := d |} →
  filter P (agenda_sessions (agenda_push a d {| draft := x; session_date := d |}))
  ≡ₚ filter P (agenda_sessions a).
Proof.
  intros Hn. rewrite agenda_sessions_push, filter_cons. by rewrite decide_False.
Qed.

(** Insertions of another kind leave the sessions of the kind as they are. *)
Lemma Placed_kind (G : Agenda → Z → SessionDraft → Prop) (a b : Agenda) :
  (∀ a d s, G a d s → ¬ P {| draft := s; session_date := d |}) →
  Placed G a b →
  filter P (agenda_sessions b) ≡ₚ filter P (agenda_sessions a).
Proof.
  intros HG. induction 1 as [|a d s a' Hg _ IH]; [done|].
  rewrite IH. apply filter_kind_push. by eapply HG.
Qed.

Lemma spreadOut_filter (l l' : list Session) :
  filter P l' ≡ₚ filter P l → spreadOut P l → spreadOut P l'.
Proof.
  intros Hperm Hs d. specialize (Hs d). unfold withinThreeDays in *.
  assert (Heq : ∀ k : list Session,
            filter (λ s, P s ∧ d ≤ session_date s ≤ d + 2) k
            = filter (λ s, d ≤ session_date s ≤ d + 2) (filter P k)).
  { intros k. rewrite list_filter_filter. apply list_filter_iff. tauto. }
  rewrite Heq in Hs |- *. by rewrite Hperm.
Qed.

Lemma spreadOut_none (l : list Session) : filter P l = [] → spreadOut P l.
Proof.
  intros Hnone d. unfold withinThreeDays.
  rewrite (filter_none _ l); [simpl; lia|].
  intros s Hin [HP _].
  assert (Hs : s ∈ filter P l) by (apply list_elem_of_filter; done).
  rewrite Hnone in Hs. by apply elem_of_nil in Hs.
Qed.

Lemma behind_none (l : list Session) (cur : Z) : filter P l = [] → behind P l cur.
Proof.
  intros Hnone s Hin HP.
  assert (Hs : s ∈ filter P l) by (apply list_elem_of_filter; done).
  rewrite Hnone in Hs. by apply elem_of_nil in Hs.
Qed.

Lemma no_kind (G : Agenda → Z → SessionDraft → Prop) (a b : Agenda) :
  (∀ a d s, G a d s → ¬ P {| draft := s; session_date := d |}) →
  Placed G a b → filter P (agenda_sessions a) = [] →
  filter P (agenda_sessions b) = [].
Proof.
  intros HG Hp Ha. apply Permutation_nil_r. rewrite <- Ha.
  apply (Placed_kind G a b HG Hp).
Qed.

End SpreadFacts.

Section MockShapes.

Context (hours : list Q) (sessionDuration today examDate : Z).

Lemma findNextAvailableSlot_agenda (st : RunState) (s : Z) (w : bool) :
  agenda (findNextAvailableSlot hours sessionDuration examDate st s w).2 = agenda st.
Proof.
  unfold findNextAvailableSlot. by destruct (getAvailableDates _ _ _ _ _ _).
Qed.

Lemma setDateInCache_agenda (st : RunState) (key : Z * Z * bool) (i : nat) (d : Z) :
  agenda (setDateInCache st key i d) = agenda st.
Proof.
  unfold setDateInCache. destruct (availableDatesCache st !! key) as [l|]; [|done].
  by destruct (l !! i).
Qed.

Lemma directedGroups_shape (name : string) (n : nat) (groups : list (list string))
    (i : nat) (st : RunState) (cur : Z) :
  Placed (λ _ _ s, sessionType s = SimuladoDirecionado) (agenda st)
    (agenda (directedGroups hours sessionDuration examDate name n groups i st cur).1).
Proof.
  revert i st cur. induction groups as [|g groups IH]; intros i st cur; simpl.
  - constructor.
  - pose proof (findNextAvailableSlot_agenda st cur false) as Hag.
    destruct (findNextAvailableSlot _ _ _ _ _ _) as [[[j d]|] st1]; simpl in *.
    + apply (Placed_step _ (agenda st) d (directedDraft name n i g)); [done|].
      rewrite <- Hag. apply (IH (S i) (addSessionToAgenda st1 d _)).
    + rewrite Hag. constructor.
Qed.

Lemma directedPhase_shape (st : RunState) (ms : Z) (allTopics : list Topic) :
  Placed (λ _ _ s, sessionType s = SimuladoDirecionado) (agenda st)
    (agenda (directedPhase hours sessionDuration examDate st ms allTopics)).
Proof.
  unfold directedPhase. generalize (subjectsReadyForSim allTopics). intros l.
  assert (H : ∀ acc, Placed (λ _ _ s, sessionType s = SimuladoDirecionado)
                (agenda acc.1)
                (agenda (foldl (directedSubject hours sessionDuration examDate) acc l).1)).
  { induction l as [|e l IH]; intros acc; simpl; [constructor|].
    eapply Placed_trans; [|apply IH]. unfold directedSubject.
    apply directedGroups_shape. }
  apply (H (st, ms)).
Qed.

Lemma basicFullMockPhase_shape (st : RunState) (ms : Z) :
  Placed (λ _ _ s, s = basicFullMockDraft) (agenda st)
    (agenda (basicFullMockPhase hours sessionDuration examDate st ms)).
Proof.
  unfold basicFullMockPhase.
  pose proof (findNextAvailableSlot_agenda st (ms + 7) false) as Hag.
  destruct (findNextAvailableSlot _ _ _ _ _ _) as [[[j d]|] st1]; simpl in *.
  - rewrite Hag. by apply Placed_one.
  - rewrite Hag. constructor.
Qed.

Lemma basicFullMockPhase_count (st : RunState) (ms : Z) :
  (length (filter isBasicMock
             (agenda_sessions
                (agenda (basicFullMockPhase hours sessionDuration examDate st ms))))
   ≤ length (filter isBasicMock (agenda_sessions (agenda st))) + 1)%nat.
Proof.
  unfold basicFullMockPhase.
  pose proof (findNextAvailableSlot_agenda st (ms + 7) false) as Hag.
  destruct (findNextAvailableSlot _ _ _ _ _ _) as [[[j d]|] st1]; simpl in *.
  - rewrite Hag, agenda_sessions_push, filter_cons. destruct (decide _); simpl; lia.
  - rewrite Hag. lia.
Qed.

Lemma recurringLoop_shape (fuel : nat) (st : RunState) (next : Z) :
  Placed (λ _ _ s, s = recurringFullMockDraft) (agenda st)
    (agenda (recurringLoop hours sessionDuration examDate fuel st next)).
Proof.
  revert st next. induction fuel as [|fuel IH]; intros st next; simpl; [constructor|].
  pose proof (findNextAvailableSlot_agenda st next false) as Hag.
  destruct (findNextAvailableSlot _ _ _ _ _ _) as [[[j d]|] st1]; simpl in *.
  - apply (Placed_step _ (agenda st) d recurringFullMockDraft); [done|].
    rewrite <- Hag.
    pose proof (IH (setDateInCache (addSessionToAgenda st1 d recurringFullMockDraft)
                      (next, examDate, false) j (d + 3)) (d + 3)) as H.
    by rewrite setDateInCache_agenda in H.
  - rewrite Hag. constructor.
Qed.

(** The directed mocks of one subject and of the subjects after it keep
    three days between them. *)
Lemma directedGroups_spread (name : string) (n : nat) (groups : list (list string))
    (i : nat) (st : RunState) (cur : Z) :
  cache_ok hours sessionDuration today (availableDatesCache st) → today ≤ cur →
  spreadOut isDirected (agenda_sessions (agenda st)) →
  behind isDirected (agenda_sessions (agenda st)) cur →
  let r := directedGroups hours sessionDuration examDate name n groups i st cur in
  cache_ok hours sessionDuration today (availableDatesCache r.1) ∧ today ≤ r.2
  ∧ spreadOut isDirected (agenda_sessions (agenda r.1))
  ∧ behind isDirected (agenda_sessions (agenda r.1)) r.2.
Proof.
  revert i st cur. induction groups as [|g groups IH]; intros i st cur Hok Hcur Hs Hb; simpl.
  - done.
  - pose proof (findNextAvailableSlot_spec hours sessionDuration examDate
                  st today cur false Hok Hcur) as (Hag & Hok' & _ & Hr).
    destruct (findNextAvailableSlot _ _ _ _ _ _) as [[[j d]|] st1]; simpl in *.
    + destruct Hr as [(Hrange & _) _].
      destruct (spread_push isDirected (agenda st) d cur (directedDraft name n i g))
        as [Hs' Hb']; [done|done|lia|].
      apply IH; simpl; try done; try lia; by rewrite Hag.
    + rewrite Hag. done.
Qed.

Lemma directedPhase_spread (st : RunState) (ms : Z) (allTopics : list Topic) :
  cache_ok hours sessionDuration today (availableDatesCache st) → today ≤ ms →
  filter isDirected (agenda_sessions (agenda st)) = [] →
  spreadOut isDirected
    (agenda_sessions (agenda (directedPhase hours sessionDuration examDate st ms
                                allTopics))).
Proof.
  intros Hok Hms Hnone. unfold directedPhase.
  generalize (subjectsReadyForSim allTopics). intros l.
  assert (H : ∀ acc,
            cache_ok hours sessionDuration today (availableDatesCache acc.1) →
            today ≤ acc.2 →
            spreadOut isDirected (agenda_sessions (agenda acc.1)) →
            behind isDirected (agenda_sessions (agenda acc.1)) acc.2 →
            spreadOut isDirected
              (agenda_sessions
                 (agenda (foldl (directedSubject hours sessionDuration examDate) acc l).1))).
  { induction l as [|e l IH]; intros acc Ha Hc Hs Hb; simpl; [done|].
    unfold directedSubject at 2.
    destruct (directedGroups_spread e.1
                (length (chunks (length (completed e.2)) (completed e.2)))
                (chunks (length (completed e.2)) (completed e.2)) 0
                acc.1 acc.2 Ha Hc Hs Hb) as (H1 & H2 & H3 & H4).
    by apply IH. }
  apply (H (st, ms)); simpl; try done.
  - by apply spreadOut_none.
  - by apply (behind_none isDirected).
Qed.

(** The recurring loop: at most [fuel] more full mocks, three days apart. *)
Lemma recurringLoop_spread (fuel : nat) (st : RunState) (next : Z) :
  cache_ok hours sessionDuration next (availableDatesCache st) →
  spreadOut isRecurring (agenda_sessions (agenda st)) →
  behind isRecurring (agenda_sessions (agenda st)) next →
  let a' := agenda (recurringLoop hours sessionDuration examDate fuel st next) in
  spreadOut isRecurring (agenda_sessions a')
  ∧ (length (filter isRecurring (agenda_sessions a'))
     ≤ length (filter isRecurring (agenda_sessions (agenda st))) + fuel)%nat.
Proof.
  revert st next. induction fuel as [|fuel IH]; intros st next Hok Hs Hb; simpl.
  - split; [done|lia].
  - pose proof (findNextAvailableSlot_spec hours sessionDuration examDate
                  st next next false Hok (Z.le_refl _)) as (Hag & Hok' & Hkey & Hr).
    destruct (findNextAvailableSlot _ _ _ _ _ _) as [[[j d]|] st1]; simpl in *.
    + destruct Hr as [(Hrange & _) Hj].
      set (st2 := addSessionToAgenda st1 d recurringFullMockDraft).
      set (st3 := setDateInCache st2 (next, examDate, false) j (d + 3)).
      assert (Ha3 : agenda st3 = agenda st2) by apply setDateInCache_agenda.
      assert (Hok3 : cache_ok hours sessionDuration (d + 3) (availableDatesCache st3)).
      { subst st3. unfold setDateInCache.
        destruct (availableDatesCache st2 !! _) as [l|] eqn:El;
          [|eapply cache_ok_weaken; [|apply Hok']; lia].
        destruct (l !! j); [|eapply cache_ok_weaken; [|apply Hok']; lia].
        simpl. intros s e w l' Hl' Hs'.
        rewrite lookup_insert_ne in Hl' by (intros [= ? ? ?]; lia).
        eapply Hok'; [done|lia]. }
      destruct (spread_push isRecurring (agenda st) d next recurringFullMockDraft)
        as [Hs' Hb']; [done|done|lia|].
      destruct (IH st3 (d + 3) Hok3) as [H1 H2].
      * rewrite Ha3. subst st2. simpl. by rewrite Hag.
      * rewrite Ha3. subst st2. simpl. by rewrite Hag.
      * split; [done|]. etrans; [apply H2|]. rewrite Ha3. subst st2. simpl.
        rewrite Hag, agenda_sessions_push, filter_cons.
        destruct (decide _); simpl; lia.
    + rewrite Hag. split; [done|lia].
Qed.

End MockShapes.

Section SpreadRun.

Context (hours : list Q) (sessionDuration today examDate : Z).

(** The drafts of the first three phases of a run. *)
Lemma content_placed (hasEssay : bool) (allTopics completedTopics : list Topic)
    (rnd : nat → nat) :
  let st1 := if hasEssay then essayPhase hours sessionDuration today examDate emptyRun
             else emptyRun in
  let st2 := completedReviews hours sessionDuration today examDate st1 completedTopics in
  let r := newTopicsLoop hours sessionDuration examDate
             (uniqueInOrder (shuffle rnd (weightedTopics (pendingOf allTopics))))
             st2 today None in
  Placed (λ _ _ s, s = essayDraft ∨ (∃ topic k, s = reviewDraft topic k)
                   ∨ ∃ topic, s = newTopicDraft topic) [] (agenda r.1)
  ∧ cache_ok hours sessionDuration today (availableDatesCache r.1)
  ∧ today ≤ maintenanceStart today r.2.
Proof.
  intros st1 st2 r.
  set (G := λ (_ : Agenda) (_ : Z) s,
              s = essayDraft ∨ (∃ topic k, s = reviewDraft topic k)
              ∨ ∃ topic, s = newTopicDraft topic).
  assert (H1 : Phase hours sessionDuration today G emptyRun st1).
  { subst st1. destruct hasEssay.
    - eapply Phase_mono; [|apply essayPhase_phase; [apply cache_ok_empty|done]].
      intros ? ? ? [-> _]. by left.
    - apply Phase_refl, cache_ok_empty. }
  assert (H2 : Phase hours sessionDuration today G st1 st2).
  { eapply Phase_mono; [|apply completedReviews_phase, H1].
    intros ? ? ? [? _]. right. by left. }
  pose proof (newTopicsLoop_phase hours sessionDuration today examDate
                (uniqueInOrder (shuffle rnd (weightedTopics (pendingOf allTopics))))
                st2 today None (proj2 H2) (Z.le_refl _) ltac:(done)) as [H3 Hlast].
  fold r in H3, Hlast. split_and!.
  - eapply Placed_trans; [apply H1|]. eapply Placed_trans; [apply H2|].
    eapply Placed_mono; [|apply H3].
    intros ? ? ? [[? _]|[? _]]; [right; by right|right; by left].
  - apply H3.
  - unfold maintenanceStart. destruct r.2 as [d|]; [|lia].
    specialize (Hlast d eq_refl). lia.
Qed.

End SpreadRun.

(** C6, as the code has it — Basic full mock gating.  In a generate run
    that commits, the rows the plan holds are the rows of the sessions of
    the final agenda.  The basic full mock is gated by the plan having no
    topic left to introduce and at least 95% of its topics completed with a
    completion date.  When the gate holds, the run introduces no topic, so
    that maintenance starts the day after today; the essays, the reviews of
    the completed topics and the directed mocks placed before hold no basic
    full mock; the run then adds one basic full mock on the first date on
    or after [maintenanceStart + 7], up to the exam date, that has a
    positive hour allocation and fewer sessions than its session count
    allows, and after it recurring full mocks only, so that the final
    agenda holds exactly that one basic full mock; when no such date
    exists, it adds recurring full mocks only and the final agenda holds no
    basic full mock.  When the gate fails the final agenda holds none. *)
Theorem basic_full_mock_gating
    (db : Db) (planId userId : Z) (req : GenerateRequest) (today : Z)
    (rnd : nat → nat) (plan : PlanRow) (db' : Db) :
  selectPlan db planId = Some plan →
  generate db planId userId req today rnd = (ScheduleCommitted, db') →
  let hours := req_study_hours_per_day req in
  let sessionDuration := orDefault (req_session_duration_minutes req) 50 in
  let examDate := exam_date plan in
  let allTopics := allTopicsQuery db planId in
  let completedTopics := completedTopicsQuery db planId in
  let st1 := if has_essay plan
             then essayPhase hours sessionDuration today examDate emptyRun
             else emptyRun in
  let st2 := completedReviews hours sessionDuration today examDate st1
               completedTopics in
  let maintenanceStartDate := maintenanceStart today None in
  let stD := directedPhase hours sessionDuration examDate st2
               maintenanceStartDate allTopics in
  let a := agenda (scheduleRun hours sessionDuration today examDate
                     (has_essay plan) allTopics completedTopics rnd) in
  let basicMocks := filter isBasicMock (agenda_sessions a) in
  (∀ r, r ∈ study_sessions db' → study_plan_id r = planId →
        ∃ s, s ∈ agenda_sessions a ∧ rowOf planId s r)
  ∧ (∀ s, s ∈ agenda_sessions a →
          ∃ r, r ∈ study_sessions db' ∧ rowOf planId s r)
  ∧ maintenanceStartDate = today + 1
  ∧ if decide (pendingOf allTopics = []
               ∧ (19 * length allTopics ≤ 20 * length completedTopics)%nat)
    then filter isBasicMock (agenda_sessions (agenda stD)) = []
         ∧ ((∃ d, firstSlot hours sessionDuration (agenda stD) (available hours)
                            (maintenanceStartDate + 7) examDate d
                  ∧ Placed (λ _ _ s, s = recurringFullMockDraft)
                      (agenda_push (agenda stD) d
                         {| draft := basicFullMockDraft; session_date := d |})
                      a
                  ∧ basicMocks
                    = [ {| draft := basicFullMockDraft; session_date := d |} ])
            ∨ (noSlot hours sessionDuration (agenda stD) (available hours)
                      (maintenanceStartDate + 7) examDate
               ∧ Placed (λ _ _ s, s = recurringFullMockDraft) (agenda stD) a
               ∧ basicMocks = []))
    else basicMocks = [].
Proof.
  intros Hplan Hgen hours sessionDuration examDate allTopics completedTopics
    st1 st2 ms stD a basicMocks.
  assert (Hdb : db' = insertSessions (deleteSessionsOfPlan db planId) planId
                        (agenda_sessions a) ∧ allTopics ≠ []).
  { revert Hgen. unfold generate, updatePlanSettings. rewrite Hplan.
    destruct (totalWeeklyHours _ =? 0); [done|].
    change (allTopicsQuery (deleteSessionsOfPlan db planId) planId) with allTopics.
    destruct (Nat.eqb_spec (length allTopics) 0) as [|Hlen]; [done|].
    intros [= <-]. split; [done|]. intros Hnil. by rewrite Hnil in Hlen. }
  destruct Hdb as [Hdb Hne].
  pose proof (content_placed hours sessionDuration today examDate (has_essay plan)
                allTopics completedTopics rnd) as (Hp & Hok & _).
  cbv zeta in Hp, Hok. fold st1 st2 in Hp, Hok.
  assert (Hshape : ∀ (x : Agenda) (d : Z) (s : SessionDraft),
            s = essayDraft ∨ (∃ topic k, s = reviewDraft topic k)
            ∨ (∃ topic, s = newTopicDraft topic) →
            ¬ isBasicMock {| draft := s; session_date := d |}).
  { intros x d s [->|[(t & k & ->)|(t & ->)]]; done. }
  split_and!.
  - intros r Hr Hid. rewrite Hdb in Hr. cbn [insertSessions study_sessions] in Hr.
    apply insertSessions_row in Hr as [Hr|Hr]; [|done].
    apply elem_of_deleteSessionsOfPlan in Hr as [_ Hn]. done.
  - intros s Hs. rewrite Hdb. by apply insertSessions_session.
  - done.
  - pose proof (simGate_iff (pendingOf allTopics) completedTopics allTopics Hne)
      as Hgate.
    destruct (decide _) as [Hg|Hg].
    + pose proof Hg as [Hpend _]. apply Hgate in Hg.
      assert (Ha : a = agenda (recurringPhase hours sessionDuration examDate
                                 (basicFullMockPhase hours sessionDuration examDate
                                    stD ms) ms)).
      { subst a. unfold scheduleRun. fold st1 st2. rewrite Hpend in Hg |- *.
        cbn [weightedTopics flat_map shuffle length Nat.sub fisherYates
             uniqueInOrder foldl fmap list_fmap newTopicsLoop Nat.eqb].
        unfold examSimulation, directedStage, basicFullMockStage, recurringStage.
        by rewrite Hg. }
      rewrite Hpend in Hp, Hok. 
      cbn [weightedTopics flat_map shuffle length Nat.sub fisherYates
           uniqueInOrder foldl fmap list_fmap newTopicsLoop fst] in Hp, Hok.
      assert (HB2 : filter isBasicMock (agenda_sessions (agenda st2)) = []).
      { eapply (no_kind isBasicMock); [apply Hshape|apply Hp|done]. }
      assert (HBD : filter isBasicMock (agenda_sessions (agenda stD)) = []).
      { eapply (no_kind isBasicMock);
          [|apply (directedPhase_shape hours sessionDuration examDate st2 ms allTopics)
           |done].
        intros x d s Hs Hb. unfold isBasicMock in Hb. simpl in Hb. subst s. done. }
      assert (HokD : cache_ok hours sessionDuration (ms + 7) (availableDatesCache stD)).
      { eapply cache_ok_weaken;
          [|apply (directedPhase_phase hours sessionDuration today examDate st2 ms
                     allTopics Hok)];
          unfold ms, maintenanceStart; lia. }
      pose proof (recurringLoop_shape hours sessionDuration examDate 20
                    (basicFullMockPhase hours sessionDuration examDate stD ms)
                    (ms + 5)) as HR.
      fold (recurringPhase hours sessionDuration examDate
              (basicFullMockPhase hours sessionDuration examDate stD ms) ms) in HR.
      rewrite <- Ha in HR.
      assert (HnR : ∀ (x : Agenda) (d : Z) (s : SessionDraft),
                s = recurringFullMockDraft →
                ¬ isBasicMock {| draft := s; session_date := d |})
        by (intros x d s -> Hb; done).
      pose proof (Placed_kind isBasicMock _ _ _ HnR HR) as Hperm.
      split; [done|].
      destruct (basicFullMockPhase_outcome hours sessionDuration examDate stD ms HokD)
        as [(d & Hslot & Hag)|[Hno Hag]]; rewrite Hag in HR, Hperm.
      * left. exists d. split_and!; [done|done|].
        rewrite agenda_sessions_push, filter_cons, HBD in Hperm.
        rewrite decide_True in Hperm by done.
        by apply Permutation_singleton_r in Hperm.
      * right. split_and!; [done|done|].
        rewrite HBD in Hperm. by apply Permutation_nil_r in Hperm.
    + assert (Ha : a = agenda (newTopicsLoop hours sessionDuration examDate
                                 (uniqueInOrder
                                    (shuffle rnd (weightedTopics (pendingOf allTopics))))
                                 st2 today None).1).
      { subst a. unfold scheduleRun. fold st1 st2.
        destruct (newTopicsLoop _ _ _ _ _ _ _) as [st3 last]. cbn [fst].
        destruct (Nat.eqb_spec (length (pendingOf allTopics)) 0) as [Hlen|]; [|done].
        destruct (simGate (pendingOf allTopics) completedTopics allTopics) eqn:E.
        - exfalso. by apply Hg, Hgate.
        - by rewrite examSimulation_skipped. }
      subst basicMocks. rewrite Ha.
      eapply (no_kind isBasicMock); [apply Hshape|apply Hp|done].
Qed.

(** X24 — Mock exams are spread out.  In the agenda of every run, any two
    directed mocks lie three days apart or more, and so do any two
    recurring full mocks; there are at most 20 recurring full mocks and at
    most one basic full mock. *)
Theorem mock_exams_are_spread_out
    (hours : list Q) (sessionDuration today examDate : Z) (hasEssay : bool)
    (allTopics completedTopics : list Topic) (rnd : nat → nat) :
  let l := agenda_sessions
             (agenda (scheduleRun hours sessionDuration today examDate hasEssay
                        allTopics completedTopics rnd)) in
  spreadOut isDirected l
  ∧ spreadOut isRecurring l
  ∧ (length (filter isRecurring l) ≤ 20)%nat
  ∧ (length (filter isBasicMock l) ≤ 1)%nat.
Proof.
  unfold scheduleRun.
  pose proof (content_placed hours sessionDuration today examDate hasEssay allTopics
                completedTopics rnd) as (Hp & Hok & Hms).
  cbv zeta in Hp, Hok, Hms.
  destruct (newTopicsLoop _ _ _ _ _ _ _) as [st3 last]. cbn [fst snd] in *.
  set (ms := maintenanceStart today last) in *.
  assert (HD : filter isDirected (agenda_sessions (agenda st3)) = []).
  { eapply (no_kind isDirected); [|apply Hp|done].
    intros a d s [->|[(t & k & ->)|(t & ->)]]; done. }
  assert (HR : filter isRecurring (agenda_sessions (agenda st3)) = []).
  { eapply (no_kind isRecurring); [|apply Hp|done].
    intros a d s [->|[(t & k & ->)|(t & ->)]]; done. }
  assert (HB : filter isBasicMock (agenda_sessions (agenda st3)) = []).
  { eapply (no_kind isBasicMock); [|apply Hp|done].
    intros a d s [->|[(t & k & ->)|(t & ->)]]; done. }
  assert (Hst3 : spreadOut isDirected (agenda_sessions (agenda st3))
                 ∧ spreadOut isRecurring (agenda_sessions (agenda st3))
                 ∧ (length (filter isRecurring (agenda_sessions (agenda st3))) ≤ 20)%nat
                 ∧ (length (filter isBasicMock (agenda_sessions (agenda st3))) ≤ 1)%nat).
  { split_and!; [by apply spreadOut_none|by apply spreadOut_none| |].
    - rewrite HR. simpl. lia.
    - rewrite HB. simpl. lia. }
  destruct (length (pendingOf allTopics) =? 0)%nat; [|done].
  destruct (simGate (pendingOf allTopics) completedTopics allTopics) eqn:Hgate;
    [|by rewrite examSimulation_skipped].
  unfold examSimulation, directedStage, basicFullMockStage, recurringStage.
  rewrite Hgate. clear Hst3.
  set (stD := directedPhase hours sessionDuration examDate st3 ms allTopics).
  set (stB := basicFullMockPhase hours sessionDuration examDate stD ms).
  pose proof (directedPhase_spread hours sessionDuration today examDate st3 ms allTopics
                Hok Hms HD) as HsD.
  pose proof (directedPhase_shape hours sessionDuration examDate st3 ms allTopics) as HshD.
  pose proof (directedPhase_phase hours sessionDuration today examDate st3 ms allTopics
                Hok Hms) as [_ HokD].
  fold stD in HsD, HshD, HokD.
  pose proof (basicFullMockPhase_shape hours sessionDuration examDate stD ms) as HshB.
  pose proof (basicFullMockPhase_phase hours sessionDuration today examDate stD ms
                HokD Hms) as [_ HokB].
  pose proof (basicFullMockPhase_count hours sessionDuration examDate stD ms) as HcB.
  fold stB in HshB, HokB, HcB.
  unfold recurringPhase.
  pose proof (recurringLoop_shape hours sessionDuration examDate 20 stB (ms + 5)) as HshR.
  assert (HRD : filter isRecurring (agenda_sessions (agenda stD)) = []).
  { eapply (no_kind isRecurring); [|apply HshD|done].
    intros a d s Hs Hr. unfold isRecurring in Hr. simpl in Hr. subst s. done. }
  assert (HBD : filter isBasicMock (agenda_sessions (agenda stD)) = []).
  { eapply (no_kind isBasicMock); [|apply HshD|done].
    intros a d s Hs Hr. unfold isBasicMock in Hr. simpl in Hr. subst s. done. }
  assert (HRB : filter isRecurring (agenda_sessions (agenda stB)) = []).
  { eapply (no_kind isRecurring); [|apply HshB|done].
    intros a d s -> Hr. unfold isRecurring in Hr. simpl in Hr. done. }
  destruct (recurringLoop_spread hours sessionDuration examDate 20 stB (ms + 5))
    as [HsR HcR].
  { eapply cache_ok_weaken; [|apply HokB]. lia. }
  { by apply spreadOut_none. }
  { by apply (behind_none isRecurring). }
  assert (HnDR : ∀ (a : Agenda) (d : Z) s, s = recurringFullMockDraft →
                   ¬ isDirected {| draft := s; session_date := d |})
    by (intros a d s -> Hr; done).
  assert (HnDB : ∀ (a : Agenda) (d : Z) s, s = basicFullMockDraft →
                   ¬ isDirected {| draft := s; session_date := d |})
    by (intros a d s -> Hr; done).
  assert (HnBR : ∀ (a : Agenda) (d : Z) s, s = recurringFullMockDraft →
                   ¬ isBasicMock {| draft := s; session_date := d |})
    by (intros a d s -> Hr; done).
  split_and!.
  - eapply (spreadOut_filter isDirected (agenda_sessions (agenda stB))).
    + apply (Placed_kind isDirected _ _ _ HnDR HshR).
    + eapply (spreadOut_filter isDirected (agenda_sessions (agenda stD))); [|done].
      apply (Placed_kind isDirected _ _ _ HnDB HshB).
  - done.
  - rewrite HRB in HcR. simpl in HcR. done.
  - rewrite (Placed_kind isBasicMock _ _ _ HnBR HshR).
    rewrite HBD in HcB. simpl in HcB. done.
Qed.

(** * Instances on the sample data *)

Lemma availableDates_contract_witness :
  let dates := (getAvailableDates defaultHours 50 ∅ monday (monday + 30) false).1 in
  (∀ d, d ∈ map date dates
        ↔ monday ≤ d ≤ monday + 30
          ∧ (0 < hoursFor defaultHours (getDay d))%Q
          ∧ (false = true → getDay d ≠ 0 ∧ getDay d ≠ 6))
  ∧ StronglySorted Z.lt (map date dates)
  ∧ Forall (λ i,
       let h := hoursFor defaultHours (getDay (date i)) in
       dayOfWeek i = getDay (date i)
       ∧ maxSessions i
         = Qfloor (roundNearest (roundNearest (h * 60) / inject_Z 50))
       ∧ (1 ≤ 50 → (h <= 2 ^ 46)%Q →
          maxSessions i = Qfloor (roundNearest (h * 60) / inject_Z 50)%Q)
       ∧ (∀ z, 1 ≤ 50 → 0 ≤ z < 2 ^ 46 → (h == inject_Z z)%Q →
               maxSessions i = specMaxSessions h 50
               ∧ maxSessions i = z * 60 / 50)) dates
  ∧ maxSessionsFor 4 50 = 4.
Proof.
  apply (availableDates_contract defaultHours 50 ∅ monday (monday + 30) false).
  - discriminate.
  - apply cache_ok_empty.
Defined.

(** C5, as stated, fails: with 4.1 hours on a Monday and sessions of 82
    minutes the index carries [maxSessions = 2] for the Monday, where
    [floor(4.1 * 60 / 82)] is 3; with 2.05 hours and sessions of 123 minutes
    it carries 0, where [floor(2.05 * 60 / 123)] is 1. *)
Lemma maxSessions_below_the_formula :
  maxSessions <$> (getAvailableDates mondayOnly 82 ∅ monday monday false).1 = [2]
  ∧ specMaxSessions (41 # 10) 82 = 3
  ∧ maxSessions <$> (getAvailableDates twoHoursThree 123 ∅ monday monday false).1
    = [0]
  ∧ specMaxSessions (205 # 100) 123 = 1.
Proof. vm_compute. done. Qed.


(** A Saturday of 4.1 hours takes two sessions of 82 minutes, where
    [floor(4.1 * 60 / 82)] is 3.  Of three topics completed on the same
    day, the first two fill the Saturdays their reviews aim at; the third
    has its 7-day and its 14-day review on the third Saturday and no
    28-day review. *)
Example reviews_on_full_saturdays :
  let db' := (generate threeDoneDb 1 7 (sampleRequest longSaturdays 82) monday
                (λ _, 0%nat)).2 in
  capacity longSaturdays 82 (monday + 5) = 2
  ∧ specMaxSessions (41 # 10) 82 = 3
  ∧ map (λ r, (row_topic_id r, row_session_date r - monday, row_session_type r))
        (filter (λ r, is_Some (row_topic_id r)) (study_sessions db'))
    = [(Some 1, 5, Revisao 7); (Some 2, 5, Revisao 7);
       (Some 1, 12, Revisao 14); (Some 2, 12, Revisao 14);
       (Some 1, 26, Revisao 28); (Some 2, 26, Revisao 28);
       (Some 3, 19, Revisao 7); (Some 3, 19, Revisao 14)].
Proof. vm_compute. done. Qed.

Lemma basic_full_mock_gating_witness :
  let db' := (generate doneDb 1 7 (sampleRequest defaultHours 50) monday
                (λ _, 0%nat)).2 in
  let allTopics := allTopicsQuery doneDb 1 in
  let completedTopics := completedTopicsQuery doneDb 1 in
  let st2 := completedReviews defaultHours 50 monday (monday + 30) emptyRun
               completedTopics in
  let maintenanceStartDate := maintenanceStart monday None in
  let stD := directedPhase defaultHours 50 (monday + 30) st2
               maintenanceStartDate allTopics in
  let a := agenda (scheduleRun defaultHours 50 monday (monday + 30) false
                     allTopics completedTopics (λ _, 0%nat)) in
  let basicMocks := filter isBasicMock (agenda_sessions a) in
  (∀ r, r ∈ study_sessions db' → study_plan_id r = 1 →
        ∃ s, s ∈ agenda_sessions a ∧ rowOf 1 s r)
  ∧ (∀ s, s ∈ agenda_sessions a →
          ∃ r, r ∈ study_sessions db' ∧ rowOf 1 s r)
  ∧ maintenanceStartDate = monday + 1
  ∧ if decide (pendingOf allTopics = []
               ∧ (19 * length allTopics ≤ 20 * length completedTopics)%nat)
    then filter isBasicMock (agenda_sessions (agenda stD)) = []
         ∧ ((∃ d, firstSlot defaultHours 50 (agenda stD) (available defaultHours)
                            (maintenanceStartDate + 7) (monday + 30) d
                  ∧ Placed (λ _ _ s, s = recurringFullMockDraft)
                      (agenda_push (agenda stD) d
                         {| draft := basicFullMockDraft; session_date := d |})
                      a
                  ∧ basicMocks
                    = [ {| draft := basicFullMockDraft; session_date := d |} ])
            ∨ (noSlot defaultHours 50 (agenda stD) (available defaultHours)
                      (maintenanceStartDate + 7) (monday + 30)
               ∧ Placed (λ _ _ s, s = recurringFullMockDraft) (agenda stD) a
               ∧ basicMocks = []))
    else basicMocks = [].
Proof.
  apply (basic_full_mock_gating doneDb 1 7 (sampleRequest defaultHours 50) monday
           (λ _, 0%nat) (samplePlan defaultHours 50 false)
           (generate doneDb 1 7 (sampleRequest defaultHours 50) monday
              (λ _, 0%nat)).2).
  - reflexivity.
  - vm_compute. reflexivity.
Defined.

(** With four hours on the days from Monday to Saturday the basic full mock
    of that run lies on [maintenanceStart + 7], the Tuesday of the next
    week.  With 2.05 hours a day and sessions of 123 minutes no day takes a
    session, where [floor(2.05 * 60 / 123)] is 1: the gate holds and the
    run commits an empty calendar. *)
Example basic_full_mock_of_the_samples :
  filter isBasicMock
    (agenda_sessions
       (agenda (scheduleRun defaultHours 50 monday (monday + 30) false
                  (allTopicsQuery doneDb 1) (completedTopicsQuery doneDb 1)
                  (λ _, 0%nat))))
  = [ {| draft := basicFullMockDraft; session_date := monday + 8 |} ]
  ∧ capacity twoHoursThree 123 (monday + 8) = 0
  ∧ specMaxSessions (205 # 100) 123 = 1
  ∧ generate doneDb 1 7 (sampleRequest twoHoursThree 123) monday (λ _, 0%nat)
    = (ScheduleCommitted, doneDb).
Proof. vm_compute. done. Qed.

Lemma replan_preview_listing_witness :
  let overdue := overdueQuery sixOverdueDb 1 sunday in
  ∃ entries,
    replanPreviewRoute sixOverdueDb 1 7 sunday
    = (OverduePreview (length overdue) (take 5 entries) (length entries), sixOverdueDb)
    ∧ (length entries ≤ length overdue)%nat
    ∧ (λ e, (sessionId e, originalDate e)) <$> entries
      = (λ r, (row_id r, row_session_date r)) <$> take (length entries) overdue
    ∧ Forall (λ e, sunday ≤ newDate e
                   ≤ exam_date (samplePlan fourEveryDay 50 false)) entries
    ∧ overdue ≡ₚ filter (λ r, study_plan_id r = 1 ∧ row_status r = Pendente
                              ∧ row_session_date r < sunday)
                        (study_sessions sixOverdueDb)
    ∧ Sorted (λ a b, row_session_date a < row_session_date b
                     ∨ (row_session_date a = row_session_date b ∧ row_id a ≤ row_id b))
             overdue
    ∧ PreviewTrace fourEveryDay 50 (monday + 30) overdue sunday
        (sessionCountsQuery sixOverdueDb 1 sunday (monday + 30)) entries
    ∧ countsAgree 1 sunday (monday + 30)
        (sessionCountsQuery sixOverdueDb 1 sunday (monday + 30)) sixOverdueDb.
Proof.
  apply (replan_preview_listing sixOverdueDb 1 7 sunday (samplePlan fourEveryDay 50 false)).
  - reflexivity.
  - vm_compute. discriminate.
Defined.

Lemma generated_dates_in_range_witness :
  monday ≤ row_session_date (sampleRow 1 monday)
  ≤ exam_date (samplePlan defaultHours 50 false).
Proof.
  apply (generated_dates_in_range plannedDb 1 7 (sampleRequest defaultHours 50) monday
           (λ _, 0%nat) (samplePlan defaultHours 50 false) (sampleRow 1 monday)).
  - reflexivity.
  - vm_compute. discriminate.
  - apply list_elem_of_In. vm_compute. left. reflexivity.
  - reflexivity.
Defined.

Lemma unique_introduction_witness :
  let allTopics := [sampleTopic 1 Pendente None; sampleTopic 2 Pendente None;
                    sampleTopic 3 Concluido (Some (monday - 3))] in
  let completedTopics := [sampleTopic 3 Concluido (Some (monday - 3))] in
  let rnd := λ i : nat, if (i =? 5)%nat then 0%nat else i in
  let weighted := weightedTopics (pendingOf allTopics) in
  let run := scheduleRun defaultHours 50 monday (monday + 30) true
               allTopics completedTopics rnd in
  NoDup (newTopicIds (agenda run))
  ∧ (∀ tid, tid ∈ newTopicIds (agenda run) →
            ∃ t, t ∈ pendingOf allTopics ∧ topic_id t = tid)
  ∧ shuffle rnd weighted ≡ₚ weighted
  ∧ topic_id <$> uniqueInOrder (shuffle rnd weighted)
    = firstOccurrences (topic_id <$> shuffle rnd weighted)
  ∧ ((∀ t, t ∈ pendingOf allTopics → topic_id t ∈ newTopicIds (agenda run))
     ∨ weekdaysExhausted defaultHours 50 monday (monday + 30) (agenda run)).
Proof.
  apply (unique_introduction defaultHours 50 monday (monday + 30) true
           [sampleTopic 1 Pendente None; sampleTopic 2 Pendente None;
            sampleTopic 3 Concluido (Some (monday - 3))]
           [sampleTopic 3 Concluido (Some (monday - 3))]
           (λ i : nat, if (i =? 5)%nat then 0%nat else i)).
  intros t Ht. apply list_elem_of_In in Ht. vm_compute in Ht.
  destruct Ht as [<-|[<-|[]]]; vm_compute; lia.
Defined.

(** The shuffle does reorder: a draw that swaps the last copy to the front
    makes the run walk topic 2 first, and both pending topics are
    introduced once. *)
Example shuffled_run_introduces_both :
  let allTopics := [sampleTopic 1 Pendente None; sampleTopic 2 Pendente None;
                    sampleTopic 3 Concluido (Some (monday - 3))] in
  topic_id <$> uniqueInOrder (shuffle (λ i, if (i =? 5)%nat then 0%nat else i)
                                (weightedTopics (pendingOf allTopics)))
  = [2; 1]
  ∧ newTopicIds (agenda (scheduleRun defaultHours 50 monday (monday + 30) true allTopics
                           [sampleTopic 3 Concluido (Some (monday - 3))]
                           (λ i, if (i =? 5)%nat then 0%nat else i)))
    = [2; 1].
Proof. vm_compute. done. Qed.

(** A Monday of 4.1 hours takes two sessions of 82 minutes, where
    [floor(4.1 * 60 / 82)] is 3.  In a run whose only day is such a Monday,
    two of three pending topics are introduced, and the Monday has no room
    left. *)
Example two_of_three_topics_on_a_short_monday :
  let allTopics := [sampleTopic 1 Pendente None; sampleTopic 2 Pendente None;
                    sampleTopic 3 Pendente None] in
  let run := scheduleRun mondayOnly 82 monday monday false allTopics []
               (λ _, 0%nat) in
  capacity mondayOnly 82 monday = 2
  ∧ specMaxSessions (41 # 10) 82 = 3
  ∧ newTopicIds (agenda run) = [1; 2]
  ∧ weekdaysExhausted mondayOnly 82 monday monday (agenda run).
Proof.
  split_and!; [by vm_compute..|].
  intros d Hd _. assert (d = monday) as -> by lia.
  unfold spare. vm_compute. discriminate.
Qed.

Lemma generated_capacity_witness :
  let db' := (generate plannedDb 1 7 (sampleRequest defaultHours 50) monday
                (λ _, 0%nat)).2 in
  let c := countSessionsOn db' 1 monday in
  c ≤ capacity defaultHours 50 monday
  ∨ c = 0
  ∨ (has_essay (samplePlan defaultHours 50 false) = true ∧ getDay monday = 0 ∧ c = 1).
Proof.
  apply (generated_capacity plannedDb 1 7 (sampleRequest defaultHours 50) monday
           (λ _, 0%nat) (samplePlan defaultHours 50 false)
           (generate plannedDb 1 7 (sampleRequest defaultHours 50) monday
              (λ _, 0%nat)).2 monday).
  - reflexivity.
  - vm_compute. reflexivity.
Defined.

Lemma generated_sessions_fit_their_days_witness :
  available defaultHours monday
  ∧ dayFits false NovoTopico (Some 1) monday
  ∧ row_status (sampleRow 1 monday) = Pendente.
Proof.
  apply (generated_sessions_fit_their_days plannedDb 1 7
           (sampleRequest defaultHours 50) monday (λ _, 0%nat)
           (samplePlan defaultHours 50 false) (sampleRow 1 monday)).
  - reflexivity.
  - vm_compute. discriminate.
  - apply list_elem_of_In. vm_compute. left. reflexivity.
  - reflexivity.
Defined.

Lemma reviews_follow_their_study_day_witness :
  let db' := (generate plannedDb 1 7 (sampleRequest defaultHours 50) monday
                (λ _, 0%nat)).2 in
  7 ∈ [7; 14; 28]
  ∧ ∃ t, t ∈ topics plannedDb ∧ topic_plan_id t = 1
         ∧ row_topic_id (sampleReview 2 (monday + 12) 7) = Some (topic_id t)
         ∧ ((status t = Concluido
             ∧ ∃ X, completion_date t = Some X ∧ X + 7 ≤ monday + 12)
            ∨ (status t ≠ Concluido
               ∧ ∃ r0, r0 ∈ study_sessions db'
                       ∧ study_plan_id r0 = 1
                       ∧ row_session_type r0 = NovoTopico
                       ∧ row_topic_id r0 = Some (topic_id t)
                       ∧ row_session_date r0 + 7 ≤ monday + 12)).
Proof.
  apply (reviews_follow_their_study_day plannedDb 1 7
           (sampleRequest defaultHours 50) monday (λ _, 0%nat)
           (samplePlan defaultHours 50 false) (sampleReview 2 (monday + 12) 7) 7).
  - reflexivity.
  - vm_compute. discriminate.
  - apply list_elem_of_In. vm_compute. right. left. reflexivity.
  - reflexivity.
  - reflexivity.
Defined.

Lemma generated_rows_copy_plan_topics_witness :
  ∃ t, t ∈ topics plannedDb ∧ topic_plan_id t = 1 ∧ topic_id t = 1
       ∧ row_subject_name (sampleRow 1 monday) = subject_name t
       ∧ row_topic_description (sampleRow 1 monday) = description t
       ∧ (row_session_type (sampleRow 1 monday) = NovoTopico ∧ status t ≠ Concluido
          ∨ ∃ k, row_session_type (sampleRow 1 monday) = Revisao k).
Proof.
  apply (generated_rows_copy_plan_topics plannedDb 1 7
           (sampleRequest defaultHours 50) monday (λ _, 0%nat)
           (samplePlan defaultHours 50 false) (sampleRow 1 monday)).
  - reflexivity.
  - vm_compute. discriminate.
  - apply list_elem_of_In. vm_compute. left. reflexivity.
  - reflexivity.
Defined.

Lemma mock_exams_wait_for_the_syllabus_witness :
  (∀ t, t ∈ topics doneDb → topic_plan_id t = 1 → status t = Concluido)
  ∧ (19 * length (allTopicsQuery doneDb 1)
     ≤ 20 * length (completedTopicsQuery doneDb 1))%nat.
Proof.
  apply (mock_exams_wait_for_the_syllabus doneDb 1 7
           (sampleRequest defaultHours 50) monday (λ _, 0%nat)
           (samplePlan defaultHours 50 false) (sampleMock 4 (monday + 8))).
  - reflexivity.
  - vm_compute. discriminate.
  - apply list_elem_of_In. vm_compute. do 3 right. left. reflexivity.
  - reflexivity.
  - right. reflexivity.
Defined.

Lemma configuration_error_law_witness :
  let out := generate plannedDb 1 7 (sampleRequest defaultHours 50) monday
               (λ _, 0%nat) in
  (out.1 = NoStudyHours ↔ totalWeeklyHours defaultHours = 0)
  ∧ (out.1 = NoStudyHours → out.2 = plannedDb)
  ∧ (∀ zs, defaultHours = inject_Z <$> zs →
           Forall (λ z, 0 ≤ z) zs → foldr Z.add 0 zs < 2 ^ 53 →
           totalWeeklyHours defaultHours = foldr Z.add 0 zs
           ∧ (totalWeeklyHours defaultHours = 0
              ↔ (foldr Qplus 0 defaultHours == 0)%Q))
  ∧ parsedHours (1 # 2) = 0
  ∧ parsedHours (1 # 10000000) = 1
  ∧ parsedHours (inject_Z (10 ^ 21)) = 1.
Proof.
  apply (configuration_error_law plannedDb 1 7 (sampleRequest defaultHours 50) monday
           (λ _, 0%nat) (samplePlan defaultHours 50 false)).
  reflexivity.
Defined.

Lemma preview_commit_agree_off_sundays_witness :
  let db' := (replanRoute lateDb 1 7 sunday).2 in
  ∃ entries,
    (replanPreviewRoute lateDb 1 7 sunday).1
    = OverduePreview (length (overdueQuery lateDb 1 sunday)) (take 5 entries)
                     (length entries)
    ∧ Forall (λ e, ∃ r, r ∈ study_sessions db' ∧ row_id r = sessionId e
                        ∧ row_session_date r = newDate e) entries
    ∧ NoDup (row_id <$> study_sessions db')
    ∧ postponement_count <$> study_plans db'
      = (λ p, if plan_id p =? 1 then postponement_count p + 1
              else postponement_count p) <$> study_plans lateDb.
Proof.
  apply (preview_commit_agree_off_sundays lateDb 1 7 sunday
           (samplePlan defaultHours 50 false)).
  - reflexivity.
  - apply (bool_decide_unpack _). vm_compute. exact I.
  - simpl. lia.
  - reflexivity.
  - repeat constructor; by apply Qle_bool_iff.
  - vm_compute. discriminate.
Defined.

Lemma replan_moves_only_overdue_sessions_witness :
  let overdue := overdueQuery overdueDb 1 sunday in
  let db' := (replanRoute overdueDb 1 7 sunday).2 in
  Forall2 (movedBy fourEveryDay sunday (monday + 30) (row_id <$> overdue))
          (study_sessions overdueDb) (study_sessions db')
  ∧ topics db' = topics overdueDb
  ∧ study_plans db'
    = (if decide (overdue = []) then study_plans overdueDb
       else study_plans (bumpPostponement overdueDb 1)).
Proof.
  apply (replan_moves_only_overdue_sessions overdueDb 1 7 sunday
           (samplePlan fourEveryDay 50 false)).
  reflexivity.
Defined.

Lemma replan_preview_fits_the_days_witness :
  ∃ entries,
    (replanPreviewRoute sixOverdueDb 1 7 sunday).1
    = OverduePreview (length (overdueQuery sixOverdueDb 1 sunday)) (take 5 entries)
                     (length entries)
    ∧ Sorted Z.le (newDate <$> entries)
    ∧ Forall (λ e,
        let h := hoursFor fourEveryDay (getDay (newDate e)) in
        let used :=
          (inject_Z (countSessionsOn sixOverdueDb 1 (newDate e)
                     + previewedOn entries (newDate e))%Z
           * inject_Z 50)%Q in
        available fourEveryDay (newDate e)
        ∧ (used <= minutesOf h)%Q
        ∧ (∀ z, 0 ≤ z < 2 ^ 46 → (h == inject_Z z)%Q → (used <= h * 60)%Q))
        entries.
Proof.
  apply (replan_preview_fits_the_days sixOverdueDb 1 7 sunday
           (samplePlan fourEveryDay 50 false)).
  - reflexivity.
  - vm_compute. discriminate.
Defined.

Lemma gamification_level_and_distance_witness :
  let g := sampleGamification in
  let c := gam_completedTopicsCount g in
  ∃ cur, cur ∈ levels ∧ gam_concurseiroLevel g = title cur
         ∧ threshold cur ≤ c
         ∧ (∀ l, l ∈ levels → threshold l ≤ c → threshold l ≤ threshold cur)
         ∧ ((∃ next, next ∈ levels ∧ gam_nextLevel g = Some (title next)
                     ∧ gam_topicsToNextLevel g = threshold next - c
                     ∧ 0 < gam_topicsToNextLevel g
                     ∧ ∀ l, l ∈ levels → c < threshold l →
                            threshold next ≤ threshold l)
            ∨ (gam_nextLevel g = None ∧ gam_topicsToNextLevel g = 0 ∧ 501 ≤ c))
         ∧ share_level <$> shareProgress studiedDb 1 7 tuesdayMorning
           = Some (title cur).
Proof.
  apply (gamification_level_and_distance studiedDb 1 7 tuesdayMorning
           sampleGamification).
  vm_compute. reflexivity.
Defined.

Lemma gamification_numbers_agree_witness :
  let g := sampleGamification in
  Z.of_nat (gam_studyStreak g) ≤ gam_totalStudyDays g
  ∧ gam_totalStudyDays g ≤ gam_totalCompletedSessions g
  ∧ gam_completedTopicsCount g ≤ gam_totalCompletedSessions g
  ∧ 0 ≤ gam_completedTodayCount g ≤ gam_totalTodayCount g
  ∧ 60 * gam_completedTopicsCount g ≤ gam_experiencePoints g.
Proof.
  apply (gamification_numbers_agree studiedDb 1 7 tuesdayMorning sampleGamification).
  vm_compute. reflexivity.
Defined.

Lemma deleted_plan_is_gone_witness :
  (∀ u req today rnd, generate emptyDb 1 u req today rnd = (PlanNotFound, emptyDb))
  ∧ (∀ u today, replanRoute emptyDb 1 u today = (ReplanPlanNotFound, emptyDb))
  ∧ (∀ u today, replanPreviewRoute emptyDb 1 u today = (PreviewPlanNotFound, emptyDb))
  ∧ (∀ t, t ∈ topics emptyDb → topic_plan_id t ≠ 1)
  ∧ (∀ r, r ∈ study_sessions emptyDb → study_plan_id r ≠ 1)
  ∧ ∀ other, other ≠ 1 →
      selectPlan emptyDb other = selectPlan plannedDb other
      ∧ (∀ u, selectPlanOfUser emptyDb other u = selectPlanOfUser plannedDb other u)
      ∧ allTopicsQuery emptyDb other = allTopicsQuery plannedDb other
      ∧ completedTopicsQuery emptyDb other = completedTopicsQuery plannedDb other
      ∧ filter (λ r, study_plan_id r = other) (study_sessions emptyDb)
        = filter (λ r, study_plan_id r = other) (study_sessions plannedDb).
Proof.
  apply (deleted_plan_is_gone plannedDb emptyDb 1 7).
  reflexivity.
Defined.

Lemma session_status_carries_to_topic_witness :
  let session := sampleRow 1 (monday + 1) in
  let out := patchSessionRoute plannedDb 1 7 completePatch in
  out.1 = Status200
  ∧ study_plans out.2 = study_plans plannedDb
  ∧ Forall2 (λ r r', if sessionOfUser plannedDb 7 1 r
                     then r' = withRowStatus r Concluido else r' = r)
            (study_sessions plannedDb) (study_sessions out.2)
  ∧ Forall2 (λ t t', if topic_id t =? 1
                     then t' = withStatus t Concluido (topicDateFor Concluido session)
                     else t' = t)
            (topics plannedDb) (topics out.2).
Proof.
  apply (session_status_carries_to_topic plannedDb 1 7 completePatch Concluido
           (sampleRow 1 (monday + 1)) 1).
  - reflexivity.
  - reflexivity.
  - reflexivity.
  - reflexivity.
  - reflexivity.
  - lia.
Defined.

Lemma reopening_undoes_completing_witness :
  patchSessionRoute (patchSessionRoute plannedDb 1 7 completePatch).2 1 7 reopenPatch
  = (Status200, plannedDb).
Proof.
  apply (reopening_undoes_completing plannedDb 1 7 (sampleRow 1 (monday + 1)) 1).
  - reflexivity.
  - reflexivity.
  - reflexivity.
  - reflexivity.
  - lia.
  - intros r Hr _. apply list_elem_of_In in Hr. vm_compute in Hr.
    destruct Hr as [<-|[]]. reflexivity.
  - intros t Ht _. apply list_elem_of_In in Ht. vm_compute in Ht.
    destruct Ht as [<-|[]]. split; reflexivity.
Defined.

Lemma postpone_moves_to_the_next_study_day_witness :
  let session := sampleRow 1 (monday + 1) in
  let plan := samplePlan defaultHours 50 false in
  let target := postponeTarget session NextDay in
  let out := postponeRoute plannedDb 1 7 NextDay in
  row_session_date session < target
  ∧ ((∃ newDate,
        out = (Status200, updateSessionDate plannedDb 1 newDate)
        ∧ target ≤ newDate ≤ exam_date plan
        ∧ getDay newDate ≠ 0
        ∧ available (study_hours_per_day plan) newDate
        ∧ noStudyDay (study_hours_per_day plan) target (newDate - 1))
     ∨ (out = (Status400, plannedDb)
        ∧ noStudyDay (study_hours_per_day plan) target (exam_date plan))).
Proof.
  apply (postpone_moves_to_the_next_study_day plannedDb 1 7 NextDay
           (sampleRow 1 (monday + 1)) (samplePlan defaultHours 50 false)).
  - reflexivity.
  - reflexivity.
  - reflexivity.
Defined.

Lemma schedule_groups_by_date_witness :
  let groups :=
    [(monday, [withRowStatus (sampleRow 1 monday) Concluido]);
     (monday + 1, [withRowStatus (sampleRow 2 (monday + 1)) Concluido])] in
  concat groups.*2 = scheduleQuery studiedDb 1
  ∧ scheduleQuery studiedDb 1
    ≡ₚ filter (λ r, study_plan_id r = 1) (study_sessions studiedDb)
  ∧ StronglySorted Z.lt groups.*1
  ∧ Forall (λ g, g.2 ≠ []
                 ∧ Forall (λ r, row_session_date r = g.1) g.2
                 ∧ StronglySorted (λ a b, row_id a ≤ row_id b) g.2) groups.
Proof.
  apply (schedule_groups_by_date studiedDb 1 7
           [(monday, [withRowStatus (sampleRow 1 monday) Concluido]);
            (monday + 1, [withRowStatus (sampleRow 2 (monday + 1)) Concluido])]).
  vm_compute. reflexivity.
Defined.
